(** * Weather station: a shallow embedding of [weather_station.py]

    The MicroPython program wakes up, joins the WiFi network, sets the
    real-time clock, fetches a forecast, reads three I2C sensors, paints
    the OLED pages, uploads the readings and goes back to deep sleep.

    The embedding keeps the shape of the source: every function of
    [weather_station.py] is a computation of the monad [M] below, which
    threads the device state (clock, trace of effects) and carries Python
    exceptions; [config.py] is the record [Config].  Whatever the program
    asks of the outside world (WLAN status, NTP, HTTP replies, bus scans,
    sensor values, files) is answered by an environment [Env] of oracles
    indexed by the number of earlier interactions. *)

From Stdlib Require Import ZArith QArith Qround List String Ascii Bool Lia.
From Stdlib Require Import DecimalString.
From Equations Require Import Equations.
Import ListNotations.

Set Warnings "-register-all".

Open Scope string_scope.
Open Scope Z_scope.

(** ** Python values *)

(** The exceptions the program can meet; all of them are subclasses of
    Python's [Exception], the class the handler of [run] catches. *)
Inductive exn : Type :=
| RuntimeError (msg : string)
| OSError
| KeyError (key : string)
| IndexError
| TypeError
| ValueError.

(** Python floats, taken at their interface: the program only adds,
    subtracts, multiplies and divides them, and converts integers and
    decimal literals.  Rounding is whatever the interpreter does. *)
Class PyFloat (F : Type) : Type := {
  f_of_Z : Z -> F;          (* float(n) for an int used in float arithmetic *)
  f_lit : Q -> F;           (* a decimal literal such as 273.15 *)
  fadd : F -> F -> F;
  fsub : F -> F -> F;
  fmul : F -> F -> F;
  fdiv : F -> F -> F
}.

Declare Scope pyfloat_scope.
Delimit Scope pyfloat_scope with pyfloat.
Infix "+" := fadd : pyfloat_scope.
Infix "-" := fsub : pyfloat_scope.
Infix "*" := fmul : pyfloat_scope.
Infix "/" := fdiv : pyfloat_scope.

(** What [response.json()] hands back: a Python value built from dicts,
    lists, strings, numbers, booleans and [None]. *)
Inductive json (F : Type) : Type :=
| JNull
| JBool (b : bool)
| JInt (n : Z)
| JFloat (x : F)
| JStr (s : string)
| JList (items : list (json F))
| JDict (fields : list (string * json F)).

Arguments JNull {F}.
Arguments JBool {F} b.
Arguments JInt {F} n.
Arguments JFloat {F} x.
Arguments JStr {F} s.
Arguments JList {F} items.
Arguments JDict {F} fields.

(** [time.localtime()]:
    (year, month, mday, hour, minute, second, weekday, yearday). *)
Record struct_time : Type := mk_tm {
  tm_year : Z; tm_mon : Z; tm_mday : Z;
  tm_hour : Z; tm_min : Z; tm_sec : Z;
  tm_wday : Z; tm_yday : Z
}.

(** Formatted text is kept as the sequence of its pieces: how a float or
    a container prints is the interpreter's business, which piece goes
    where is the program's. *)
Inductive piece (F : Type) : Type :=
| PStr (s : string)                 (* literal text, or a str argument *)
| PInt (n : Z)                      (* '{}' of an int *)
| PPad (width : nat) (n : Z)        (* '{:0Wd}' *)
| PFix (digits : nat) (x : F)       (* '{:.Df}' *)
| PFloat (x : F)                    (* '{}' of a float *)
| PVal (v : json F)                 (* '{}' of any other value *)
| PTime (tm : struct_time).         (* '{}' of a time tuple *)

Arguments PStr {F} s.
Arguments PInt {F} n.
Arguments PPad {F} width n.
Arguments PFix {F} digits x.
Arguments PFloat {F} x.
Arguments PVal {F} v.
Arguments PTime {F} tm.

Definition text (F : Type) : Type := list (piece F).

(** ** config.py *)

Record Config : Type := {
  SCL_PIN : Z;
  SDA_PIN : Z;
  LED_PIN : Z;
  LED_ON : Z;
  LED_OFF : Z;
  DEBUG_PIN : Z;
  FAHRENHEIT : bool;
  PAGES : list string;
  TIMEZONE : Z;
  DAYLIGHT_SAVING_TIME : bool;
  INTERVAL : Z;
  SSID : string;
  PASS : string;
  MAX_TRIES : Z;
  OPENWEATHER_API : string;
  OPENWEATHER_CITY : string;
  OPENWEATHER_URL1 : string;
  OPENWEATHER_URL2 : string;
  THINGSPEAK_WRITE_API : string;
  THINGSPEAK_READ_API : string;
  THINGSPEAK_URL : string
}.

(** The values of the repository's [lib/config.py]. *)
Definition config_py : Config := {|
  SCL_PIN := 22;
  SDA_PIN := 21;
  LED_PIN := 2;
  LED_ON := 0;
  LED_OFF := 1;
  DEBUG_PIN := 5;
  FAHRENHEIT := false;
  PAGES := ["Date Time"; "Currently"; "Forecast"; "Sensors #1"; "Sensors #2"];
  TIMEZONE := 1;
  DAYLIGHT_SAVING_TIME := true;
  INTERVAL := 900;
  SSID := "<Your network SSID>";
  PASS := "<Your network password>";
  MAX_TRIES := 20;
  OPENWEATHER_API := "<Your OpenWeather API key>";
  OPENWEATHER_CITY := "<Your OpenWeather City>,<2-letter country code>";
  OPENWEATHER_URL1 :=
    "https://api.openweathermap.org/data/2.5/weather?q={city}&appid={api}";
  OPENWEATHER_URL2 :=
    "https://api.openweathermap.org/data/2.5/onecall?lat={lat}&lon={lon}&exclude={excl}&appid={api}";
  THINGSPEAK_WRITE_API := "<Your ThingSpeak Write API key>";
  THINGSPEAK_READ_API := "<Your ThingSpeak Read API key>";
  THINGSPEAK_URL :=
    "https://api.thingspeak.com/update?api_key={api}&field1={temp}&field2={hum}&field3={lum}&field4={pres}"
|}.

(** ** The data that flows between the steps *)

(** One entry of the list [get_weather_data] returns: the dict with keys
    'temp', 'hum', 'pres', 'icon', 'report'.  Only the temperature went
    through arithmetic; the other values are passed on as received. *)
Record ForecastDay (F : Type) : Type := mk_day {
  temp : F;
  hum : json F;
  pres : json F;
  icon : json F;
  report : json F
}.
Arguments mk_day {F}.
Arguments temp {F}.
Arguments hum {F}.
Arguments pres {F}.
Arguments icon {F}.
Arguments report {F}.

(** The dict [get_sensor_readings] returns (inside a one-element list). *)
Record SensorReading (F : Type) : Type := mk_reading {
  am2320_temp : F;
  am2320_hum : F;
  bmp180_temp : F;
  bmp180_pres : F;
  bmp180_alt : F;
  bh1750_lum : F
}.
Arguments mk_reading {F}.
Arguments am2320_temp {F}.
Arguments am2320_hum {F}.
Arguments bmp180_temp {F}.
Arguments bmp180_pres {F}.
Arguments bmp180_alt {F}.
Arguments bh1750_lum {F}.

(** [framebuf.FrameBuffer(data, width, height, framebuf.MONO_HLSB)]. *)
Record FrameBuffer : Type := mk_fb {
  fb_data : string;
  fb_width : Z;
  fb_height : Z
}.

(** What [urequests.get] returns: the status code and the decoded body
    ([None] when [response.json()] cannot decode it). *)
Record Response (F : Type) : Type := mk_response {
  status_code : Z;
  body : option (json F)
}.
Arguments mk_response {F}.
Arguments status_code {F}.
Arguments body {F}.

(** ** utime: the calendar

    MicroPython counts seconds from 2000-01-01 00:00:00, a Saturday.
    [days_from_civil] and [civil_from_days] convert between a day number
    and a date of the proleptic Gregorian calendar. *)

Definition days_from_civil (y m d : Z) : Z :=
  let y' := if m <=? 2 then y - 1 else y in
  let era := y' / 400 in
  let yoe := y' - era * 400 in
  let mp := if m >? 2 then m - 3 else m + 9 in
  let doy := (153 * mp + 2) / 5 + d - 1 in
  let doe := yoe * 365 + yoe / 4 - yoe / 100 + doy in
  era * 146097 + doe - 730425.

Definition civil_from_days (z : Z) : Z * Z * Z :=
  let z := z + 730425 in
  let era := z / 146097 in
  let doe := z - era * 146097 in
  let yoe := (doe - doe / 1460 + doe / 36524 - doe / 146096) / 365 in
  let y := yoe + era * 400 in
  let doy := doe - (365 * yoe + yoe / 4 - yoe / 100) in
  let mp := (5 * doy + 2) / 153 in
  let d := doy - (153 * mp + 2) / 5 + 1 in
  let m := if mp <? 10 then mp + 3 else mp - 9 in
  ((if m <=? 2 then y + 1 else y), m, d).

(** [utime.mktime((year, month, mday, hour, minute, second, _, _))]:
    weekday and yearday are ignored. *)
Definition mktime (year month mday hour minute second : Z) : Z :=
  days_from_civil year month mday * 86400 + hour * 3600 + minute * 60 + second.

(** [utime.localtime(secs)]; weekday 0 is Monday, yearday 1 is 1 January. *)
Definition localtime (secs : Z) : struct_time :=
  let days := secs / 86400 in
  let sod := secs mod 86400 in
  let '(y, m, d) := civil_from_days days in
  {| tm_year := y; tm_mon := m; tm_mday := d;
     tm_hour := sod / 3600; tm_min := (sod mod 3600) / 60; tm_sec := sod mod 60;
     tm_wday := (days + 5) mod 7;
     tm_yday := days - days_from_civil y 1 1 + 1 |}.

(** ** Effects

    Every call that leaves the interpreter is recorded as an [event], in
    program order. *)

Inductive pin_mode : Type := PinDefault | PinOut | PinInPullUp.

Inductive wlan_if : Type := AP_IF | STA_IF.

Inductive event (F : Type) : Type :=
| EvPrint (t : text F) (ending : string)  (* print(t, end=ending) *)
| EvPrintException (e : exn)              (* sys.print_exception(e) *)
| EvPin (pin : Z) (mode : pin_mode)       (* Pin(pin, mode) *)
| EvPinWrite (pin level : Z)              (* pin.value(level) *)
| EvPinRead (pin level : Z)               (* pin.value() returned level *)
| EvSleep (seconds : Q)                   (* utime.sleep(seconds) *)
| EvWlanActive (i : wlan_if) (on : bool)  (* wlan.active(on) *)
| EvWlanConnect (ssid pass : string)      (* sta_if.connect(ssid, pass) *)
| EvIsConnected (answer : bool)           (* sta_if.isconnected() *)
| EvIfconfig                              (* sta_if.ifconfig() *)
| EvNtpSettime                            (* ntptime.settime() *)
| EvRtcDatetime (year month mday wday hour minute second usec : Z)
| EvHttpGet (url : text F)                (* urequests.get(url) *)
| EvSoftI2C (scl sda : Z)                 (* SoftI2C(scl=Pin, sda=Pin) *)
| EvI2cScan (found : list Z)              (* i2c.scan() returned found *)
| EvAM2320                                (* AM2320(i2c) *)
| EvAm2320Measure                         (* am2320.measure() *)
| EvBMP180                                (* BMP180(i2c) *)
| EvBmp180Temperature                     (* bmp180.temperature *)
| EvBmp180Pressure                        (* bmp180.pressure *)
| EvBmp180Altitude                        (* bmp180.altitude *)
| EvBH1750                                (* BH1750(i2c) *)
| EvBh1750Luminance                       (* bh1750.luminance(ONCE_HIRES_1) *)
| EvOpen (filename : string)              (* open(filename, 'rb') *)
| EvSSD1306 (width height : Z)            (* SSD1306_I2C(width, height, i2c) *)
| EvFill (colour : Z)                     (* display.fill(colour) *)
| EvText (t : text F) (x y : Z)           (* display.text(t, x, y) *)
| EvBlit (fb : FrameBuffer) (x y : Z)     (* display.blit(fb, x, y) *)
| EvSetTextpos (row col : Z)              (* font_writer.set_textpos *)
| EvPrintstring (t : text F)              (* font_writer.printstring(t) *)
| EvShow                                  (* display.show() *)
| EvPoweroff                              (* display.poweroff() *)
| EvDeepsleep (ms : Z).                   (* machine.deepsleep(ms) *)

Arguments EvPrint {F} t ending.
Arguments EvPrintException {F} e.
Arguments EvPin {F} pin mode.
Arguments EvPinWrite {F} pin level.
Arguments EvPinRead {F} pin level.
Arguments EvSleep {F} seconds.
Arguments EvWlanActive {F} i on.
Arguments EvWlanConnect {F} ssid pass.
Arguments EvIsConnected {F} answer.
Arguments EvIfconfig {F}.
Arguments EvNtpSettime {F}.
Arguments EvRtcDatetime {F} year month mday wday hour minute second usec.
Arguments EvHttpGet {F} url.
Arguments EvSoftI2C {F} scl sda.
Arguments EvI2cScan {F} found.
Arguments EvAM2320 {F}.
Arguments EvAm2320Measure {F}.
Arguments EvBMP180 {F}.
Arguments EvBmp180Temperature {F}.
Arguments EvBmp180Pressure {F}.
Arguments EvBmp180Altitude {F}.
Arguments EvBH1750 {F}.
Arguments EvBh1750Luminance {F}.
Arguments EvOpen {F} filename.
Arguments EvSSD1306 {F} width height.
Arguments EvFill {F} colour.
Arguments EvText {F} t x y.
Arguments EvBlit {F} fb x y.
Arguments EvSetTextpos {F} row col.
Arguments EvPrintstring {F} t.
Arguments EvShow {F}.
Arguments EvPoweroff {F}.
Arguments EvDeepsleep {F} ms.

(** The outside world.  Each oracle is asked with the number of
    interactions that came before ([tick]), so an answer may change from
    one call to the next.  [None] stands for the driver raising
    [OSError]. *)
Record Env (F : Type) : Type := {
  isconnected_at : nat -> bool;               (* WLAN link status *)
  ifconfig_at : nat -> string;                (* the station's IP address *)
  pin_at : nat -> Z -> Z;                     (* level of an input pin *)
  ntp_at : nat -> option Z;                   (* NTP time, seconds since 2000 *)
  reply_at : nat -> text F -> option (Response F);
  scan_at : nat -> list Z;                    (* addresses answering a scan *)
  fails_at : nat -> bool;                     (* a driver call raises OSError *)
  am2320_at : nat -> option (F * F);          (* temperature, humidity *)
  bmp180_temperature_at : nat -> option F;
  bmp180_pressure_at : nat -> option F;       (* in Pa *)
  bmp180_altitude_at : nat -> option F;
  bh1750_at : nat -> option F;
  file_at : nat -> string -> option string       (* a file's bytes *)
}.
Arguments isconnected_at {F}.
Arguments ifconfig_at {F}.
Arguments pin_at {F}.
Arguments ntp_at {F}.
Arguments reply_at {F}.
Arguments scan_at {F}.
Arguments fails_at {F}.
Arguments am2320_at {F}.
Arguments bmp180_temperature_at {F}.
Arguments bmp180_pressure_at {F}.
Arguments bmp180_altitude_at {F}.
Arguments bh1750_at {F}.
Arguments file_at {F}.

(** The device: how many interactions happened, the real-time clock (in
    milliseconds since 2000-01-01; it survives deep sleep) and the trace
    of effects so far. *)
Record State (F : Type) : Type := mk_state {
  tick : nat;
  clock_ms : Z;
  trace : list (event F)
}.
Arguments mk_state {F}.
Arguments tick {F}.
Arguments clock_ms {F}.
Arguments trace {F}.

(** How a call ends: it returns, it raises, or the machine went to deep
    sleep inside it and nothing runs any more. *)
Inductive outcome (A : Type) : Type :=
| Ret (a : A)
| Raise (e : exn)
| Halted.
Arguments Ret {A} a.
Arguments Raise {A} e.
Arguments Halted {A}.

Definition M (F A : Type) : Type := State F -> outcome A * State F.

Definition ret {F A} (a : A) : M F A := fun s => (Ret a, s).

Definition bind {F A B} (m : M F A) (k : A -> M F B) : M F B :=
  fun s =>
    match m s with
    | (Ret a, s') => k a s'
    | (Raise e, s') => (Raise e, s')
    | (Halted, s') => (Halted, s')
    end.

Definition raise {F A} (e : exn) : M F A := fun s => (Raise e, s).

(** [try: body except Exception as exc: handler(exc)]. *)
Definition try_except {F A} (body : M F A) (handler : exn -> M F A) : M F A :=
  fun s =>
    match body s with
    | (Raise e, s') => handler e s'
    | r => r
    end.

Declare Scope py_scope.
Delimit Scope py_scope with py.
Notation "x <- c1 ;; c2" := (bind c1 (fun x => c2))
  (at level 61, c1 at next level, right associativity) : py_scope.
Notation "c1 ;; c2" := (bind c1 (fun _ => c2))
  (at level 61, right associativity) : py_scope.
Open Scope py_scope.

(** [for x in xs: body(x)]. *)
Fixpoint for_in {F A} (xs : list A) (body : A -> M F unit) : M F unit :=
  match xs with
  | [] => ret tt
  | x :: rest => body x ;; for_in rest body
  end.

(** [range(a, b)] with step 1. *)
Definition range (a b : Z) : list Z :=
  map (fun i => a + Z.of_nat i) (seq 0 (Z.to_nat (b - a))).

(** ** Python's built-in operations on values

    Pure operations that can raise return [inl] of the exception. *)

Definition lift {F A} (r : exn + A) : M F A :=
  match r with
  | inl e => raise e
  | inr a => ret a
  end.

Definition str_of_Z (n : Z) : string := NilZero.string_of_int (Z.to_int n).

(** [l[i]] on a list, negative indices counting from the end. *)
Definition list_getitem {A} (l : list A) (i : Z) : exn + A :=
  let j := if i <? 0 then Z.of_nat (List.length l) + i else i in
  if j <? 0 then inl IndexError
  else match nth_error l (Z.to_nat j) with
       | Some a => inr a
       | None => inl IndexError
       end.

Fixpoint dict_get {A} (d : list (string * A)) (k : string) : option A :=
  match d with
  | [] => None
  | (k', v) :: rest => if String.eqb k k' then Some v else dict_get rest k
  end.

(** [v[k]] with a string key. *)
Definition getitem_key {F} (v : json F) (k : string) : exn + json F :=
  match v with
  | JDict d => match dict_get d k with
               | Some x => inr x
               | None => inl (KeyError k)
               end
  | _ => inl TypeError
  end.

(** [v[i]] with an integer index. *)
Definition getitem_idx {F} (v : json F) (i : Z) : exn + json F :=
  match v with
  | JList l => list_getitem l i
  | JStr s => match list_getitem (list_ascii_of_string s) i with
              | inr c => inr (JStr (String c EmptyString))
              | inl e => inl e
              end
  | JDict _ => inl (KeyError (str_of_Z i))
  | _ => inl TypeError
  end.

(** [v - x] for a float [x]: ints and bools are converted, anything else
    is a TypeError. *)
Definition num_sub {F} `{PyFloat F} (v : json F) (x : F) : exn + F :=
  match v with
  | JInt n => inr (f_of_Z n - x)%pyfloat
  | JFloat y => inr (y - x)%pyfloat
  | JBool b => inr (f_of_Z (if b then 1 else 0) - x)%pyfloat
  | _ => inl TypeError
  end.

(** ['/img/' + icon[:2] + '@2x.pbm']: only a str can be sliced and then
    concatenated to a str. *)
Definition icon_path {F} (icon : json F) : exn + string :=
  match icon with
  | JStr s => inr ("/img/" ++ substring 0 2 s ++ "@2x.pbm")%string
  | _ => inl TypeError
  end.

(** [template.format(name=value, ...)] for templates whose replacement
    fields are plain names, as those of [config.py] are; doubled braces
    stand for a brace. *)
Definition flush {F} (lit : string) (rest : text F) : text F :=
  match lit with
  | EmptyString => rest
  | _ => PStr lit :: rest
  end.

Definition add_char (s : string) (c : ascii) : string :=
  (s ++ String c EmptyString)%string.

Fixpoint str_format_go {F} (args : list (string * piece F)) (tpl : string)
    (lit : string) (field : option string) : exn + text F :=
  match tpl with
  | EmptyString =>
      match field with
      | Some _ => inl ValueError
      | None => inr (flush lit [])
      end
  | String c rest =>
      match field with
      | Some f =>
          if Ascii.eqb c "}" then
            match f with
            | EmptyString => inl IndexError
            | _ => match dict_get args f with
                   | None => inl (KeyError f)
                   | Some p =>
                       match str_format_go args rest EmptyString None with
                       | inr t => inr (p :: t)
                       | inl e => inl e
                       end
                   end
            end
          else str_format_go args rest lit (Some (add_char f c))
      | None =>
          if Ascii.eqb c "{" then
            match rest with
            | String "{" rest' =>
                str_format_go args rest' (add_char lit "{") None
            | _ =>
                match str_format_go args rest EmptyString (Some EmptyString) with
                | inr t => inr (flush lit t)
                | inl e => inl e
                end
            end
          else if Ascii.eqb c "}" then
            match rest with
            | String "}" rest' =>
                str_format_go args rest' (add_char lit "}") None
            | _ => inl ValueError
            end
          else str_format_go args rest (add_char lit c) None
      end
  end.

Definition str_format {F} (tpl : string) (args : list (string * piece F))
  : exn + text F :=
  str_format_go args tpl EmptyString None.

(** Reading a bitmap file: [f.readline()], [bytes.split()], [int(bytes)]. *)
Fixpoint readline (s : string) : string * string :=
  match s with
  | EmptyString => (EmptyString, EmptyString)
  | String c rest =>
      if Ascii.eqb c (ascii_of_nat 10) then (String c EmptyString, rest)
      else let '(line, tail) := readline rest in (String c line, tail)
  end.

Definition is_space (c : ascii) : bool :=
  let n := nat_of_ascii c in
  (Nat.eqb n 32 || (Nat.leb 9 n && Nat.leb n 13))%bool.

Fixpoint bytes_split_go (s : string) (word : string) : list string :=
  match s with
  | EmptyString => match word with EmptyString => [] | _ => [word] end
  | String c rest =>
      if is_space c then
        match word with
        | EmptyString => bytes_split_go rest EmptyString
        | _ => word :: bytes_split_go rest EmptyString
        end
      else bytes_split_go rest (add_char word c)
  end.

Definition bytes_split (s : string) : list string := bytes_split_go s EmptyString.

Fixpoint digits_value (s : string) (acc : Z) : option Z :=
  match s with
  | EmptyString => Some acc
  | String c rest =>
      let n := nat_of_ascii c in
      if (Nat.leb 48 n && Nat.leb n 57)%bool
      then digits_value rest (10 * acc + Z.of_nat (n - 48))
      else None
  end.

(** [int(b)] for a signed run of decimal digits. *)
Definition py_int (s : string) : exn + Z :=
  let '(sign, ds) :=
    match s with
    | String "-" rest => (-1, rest)
    | String "+" rest => (1, rest)
    | _ => (1, s)
    end in
  match ds with
  | EmptyString => inl ValueError
  | _ => match digits_value ds 0 with
         | Some n => inr (sign * n)
         | None => inl ValueError
         end
  end.

Fixpoint map_int (ws : list string) : exn + list Z :=
  match ws with
  | [] => inr []
  | w :: rest =>
      match py_int w with
      | inl e => inl e
      | inr n => match map_int rest with
                 | inl e => inl e
                 | inr ns => inr (n :: ns)
                 end
      end
  end.

(** [for x in xs: acc = body(acc, x)], for a loop that builds a value. *)
Fixpoint for_acc {F A B} (xs : list A) (acc : B) (body : B -> A -> M F B)
  : M F B :=
  match xs with
  | [] => ret acc
  | x :: rest => acc' <- body acc x ;; for_acc rest acc' body
  end.

Definition newline : string := String (ascii_of_nat 10) EmptyString.

(** * The program *)

Section Program.

Context {F : Type} {PF : PyFloat F}.
Variable cfg : Config.
Variable env : Env F.

(** ** The calls into MicroPython's modules and the drivers *)

Definition emit (e : event F) : M F unit :=
  fun s => (Ret tt, mk_state (tick s) (clock_ms s) (trace s ++ [e])%list).

(** One interaction with the outside world. *)
Definition ask {A : Type} (oracle : nat -> A) : M F A :=
  fun s => (Ret (oracle (tick s)),
            mk_state (S (tick s)) (clock_ms s) (trace s)).

Definition set_clock (ms : Z) : M F unit :=
  fun s => (Ret tt, mk_state (tick s) ms (trace s)).

(** A driver call that returns nothing and may fail on the wire. *)
Definition driver (e : event F) : M F unit :=
  emit e ;;
  bad <- ask (fails_at env) ;;
  if bad : bool then raise OSError else ret tt.

(** A driver call that returns a measurement, or fails on the wire. *)
Definition measure {A : Type} (e : event F) (oracle : nat -> option A) : M F A :=
  emit e ;;
  r <- ask oracle ;;
  match r with
  | Some a => ret a
  | None => raise OSError
  end.

Definition print (t : text F) : M F unit := emit (EvPrint t newline).

Definition Pin (pin : Z) (mode : pin_mode) : M F Z :=
  emit (EvPin pin mode) ;; ret pin.

Definition pin_value_set (pin level : Z) : M F unit :=
  emit (EvPinWrite pin level).

Definition pin_value (pin : Z) : M F Z :=
  v <- ask (fun n => pin_at env n pin) ;;
  emit (EvPinRead pin v) ;;
  ret v.

(** [utime.sleep]: the clock moves on by the time slept. *)
Definition utime_sleep (seconds : Q) : M F unit :=
  fun s => (Ret tt, mk_state (tick s)
                             (clock_ms s + Qfloor (seconds * 1000))
                             (trace s ++ [EvSleep seconds])%list).

Definition utime_time : M F Z :=
  fun s => (Ret (clock_ms s / 1000), s).

Definition utime_localtime : M F struct_time :=
  t <- utime_time ;; ret (localtime t).

(** [rtc.datetime((year, month, mday, weekday, hour, minute, second, usec))]. *)
Definition rtc_datetime (year month mday wday hour minute second usec : Z)
  : M F unit :=
  emit (EvRtcDatetime year month mday wday hour minute second usec) ;;
  set_clock (mktime year month mday hour minute second * 1000 + usec / 1000).

(** [ntptime.settime()]: fetch the time from an NTP server and set the RTC
    to it (UTC); [OSError] when the server does not answer. *)
Definition ntptime_settime : M F unit :=
  t <- measure EvNtpSettime (ntp_at env) ;;
  set_clock (t * 1000).

Definition urequests_get (url : text F) : M F (Response F) :=
  measure (EvHttpGet url) (fun n => reply_at env n url).

Definition response_json (r : Response F) : M F (json F) :=
  match body r with
  | Some j => ret j
  | None => raise ValueError
  end.

Definition SoftI2C (scl sda : Z) : M F unit :=
  emit (EvSoftI2C scl sda).

Definition i2c_scan : M F (list Z) :=
  found <- ask (scan_at env) ;;
  emit (EvI2cScan found) ;;
  ret found.

Definition sta_isconnected : M F bool :=
  c <- ask (isconnected_at env) ;;
  emit (EvIsConnected c) ;;
  ret c.

Definition sta_ifconfig : M F string :=
  ip <- ask (ifconfig_at env) ;;
  emit EvIfconfig ;;
  ret ip.

(** [machine.deepsleep(ms)] does not return. *)
Definition machine_deepsleep (ms : Z) : M F unit :=
  fun s => (Halted, mk_state (tick s) (clock_ms s)
                             (trace s ++ [EvDeepsleep ms])%list).

(** ** Error routine *)

Definition show_error : M F unit :=
  led <- Pin (LED_PIN cfg) PinOut ;;
  for_in (range 0 3) (fun _ =>
    pin_value_set led (LED_ON cfg) ;;
    utime_sleep 0.5 ;;
    pin_value_set led (LED_OFF cfg) ;;
    utime_sleep 0.5).

(** ** Check debug on *)

Definition debug_on : M F bool :=
  debug <- Pin (DEBUG_PIN cfg) PinInPullUp ;;
  v <- pin_value debug ;;
  if v =? 0 then ret true else ret false.

(** ** Connect to Wifi *)

Equations? wifi_wait (tries : Z) : M F unit
  by wf (Z.to_nat (MAX_TRIES cfg - tries)) lt :=
  wifi_wait tries :=
    c <- sta_isconnected ;;
    match Z_lt_dec tries (MAX_TRIES cfg) with
    | left H =>
        if negb c then
          emit (EvPrint [PStr "."] EmptyString) ;;
          utime_sleep 1 ;;
          wifi_wait (tries + 1)
        else ret tt
    | right _ => ret tt
    end.
Proof. lia. Qed.

(** [if b: body]. *)
Definition when (b : bool) (body : M F unit) : M F unit :=
  if b then body else ret tt.

Definition connect_wifi : M F unit :=
  (* disable AP mode of the microcontroller *)
  driver (EvWlanActive AP_IF false) ;;
  (* if no wifi connection exists *)
  c0 <- sta_isconnected ;;
  when (negb c0) (
    print [PStr "connecting to WiFi network..."] ;;
    driver (EvWlanActive STA_IF true) ;;
    driver (EvWlanConnect (SSID cfg) (PASS cfg)) ;;
    (* tries = 0; while not sta_if.isconnected() and tries < MAX_TRIES *)
    wifi_wait 0) ;;
  (* show network status *)
  c <- sta_isconnected ;;
  if c then
    print [PStr EmptyString] ;;
    ip <- sta_ifconfig ;;
    print [PStr "connected to "; PStr (SSID cfg);
           PStr " network with ip address "; PStr ip]
  else
    print [PStr EmptyString] ;;
    print [PStr "no connection to "; PStr (SSID cfg); PStr " network"] ;;
    raise (RuntimeError "WiFi connection failed").

(** ** Synchronize RTC to local time *)

(** [int(5*year/4 + k)]: the division is a float division and [int] cuts
    the fraction off, towards zero. *)
Definition int_5y4 (year k : Z) : Z := Z.quot (5 * year + 4 * k) 4.

(** [rtc.datetime((tm[0], tm[1], tm[2], tm[6], tm[3], tm[4], tm[5], 0))]. *)
Definition rtc_set (tm : struct_time) : M F unit :=
  rtc_datetime (tm_year tm) (tm_mon tm) (tm_mday tm) (tm_wday tm)
               (tm_hour tm) (tm_min tm) (tm_sec tm) 0.

(** last Sunday of March, 2AM *)
Definition HHMarch (year : Z) : Z :=
  mktime year 3 (31 - (int_5y4 year 4) mod 7) 2 0 0.

(** last Sunday of October, 3AM *)
Definition HHOctober (year : Z) : Z :=
  mktime year 10 (31 - (int_5y4 year 1) mod 7) 3 0 0.

Definition dst_correction : M F unit :=
  (* current year *)
  now <- utime_localtime ;;
  let year := tm_year now in
  (* current time *)
  curtime <- utime_time ;;
  (* correct local time *)
  when ((curtime >=? HHMarch year) && (curtime <? HHOctober year)) (
    rtc_set (localtime (curtime + 3600))) ;;
  dbg <- debug_on ;;
  when dbg (
    now <- utime_localtime ;;
    print [PStr "DST correction:   "; PTime now]).

Definition synchronize_rtc : M F unit :=
  tm <- utime_localtime ;;
  (* we have not synchronized before if current year is 2000 *)
  when (tm_year tm =? 2000) (
    print [PStr "Synchronize RTC to local time"] ;;
    dbg <- debug_on ;;
    when dbg (
      print [PStr "Current datetime: "; PTime tm] ;;
      print [PStr "Synchronize with NTP server..."]) ;;
    (* set RTC to UTC with NTP server *)
    ntptime_settime ;;
    dbg <- debug_on ;;
    when dbg (
      now <- utime_localtime ;;
      print [PStr "NTP correction:   "; PTime now]) ;;
    (* time zone correction *)
    t <- utime_time ;;
    rtc_set (localtime (t + TIMEZONE cfg * 3600)) ;;
    dbg <- debug_on ;;
    when dbg (
      now <- utime_localtime ;;
      print [PStr "TZ correction:    "; PTime now]) ;;
    (* Daylight Savings Time correction *)
    when (DAYLIGHT_SAVING_TIME cfg) dst_correction).

(** ** Temperature in Celsius or Fahrenheit *)

Definition temperature_2_unit (celsius : F) : F :=
  if FAHRENHEIT cfg
  then (celsius * f_of_Z 9 / f_of_Z 5 + f_of_Z 32)%pyfloat
  else celsius.

(** ** Get weather data from OpenWeather *)

(** The dict appended to [owdata], as a value (for [print(owdata)]). *)
Definition day_value (d : ForecastDay F) : json F :=
  JDict [("temp", JFloat (temp d)); ("hum", hum d); ("pres", pres d);
         ("icon", icon d); ("report", report d)].

Definition get_weather_data : M F (list (ForecastDay F)) :=
  print [PStr "Invoking OpenWeather URL1 webhook"] ;;
  (* webhook url *)
  url <- lift (str_format (OPENWEATHER_URL1 cfg)
                 [("city", PStr (OPENWEATHER_CITY cfg));
                  ("api", PStr (OPENWEATHER_API cfg))]) ;;
  (* send GET request *)
  response <- urequests_get url ;;
  (* evaluate response *)
  (if status_code response <? 400
   then print [PStr "Webhook OpenWeather URL1 success"]
   else print [PStr "Webhook OpenWeather URL1 failed"] ;;
        raise (RuntimeError "Webhook OpenWeather URL1 failed")) ;;
  (* get the data in json format *)
  today <- response_json response ;;
  dbg <- debug_on ;;
  when dbg (
    print [PStr "OpenWeather URL1 data"] ;;
    print [PVal today]) ;;
  (* extract data from OpenWeather dictionary *)
  main <- lift (getitem_key today "main") ;;
  t <- lift (getitem_key main "temp") ;;
  kelvin <- lift (num_sub t (f_lit 273.15)) ;;
  let temp := temperature_2_unit kelvin in
  main <- lift (getitem_key today "main") ;;
  hum <- lift (getitem_key main "humidity") ;;
  main <- lift (getitem_key today "main") ;;
  pres <- lift (getitem_key main "pressure") ;;
  weather <- lift (getitem_key today "weather") ;;
  w0 <- lift (getitem_idx weather 0) ;;
  icon <- lift (getitem_key w0 "icon") ;;
  weather <- lift (getitem_key today "weather") ;;
  w0 <- lift (getitem_idx weather 0) ;;
  report <- lift (getitem_key w0 "description") ;;
  (* save data in return list *)
  let owdata := [mk_day temp hum pres icon report] in
  (* get longitude and latitude of city *)
  coord <- lift (getitem_key today "coord") ;;
  longitude <- lift (getitem_key coord "lon") ;;
  coord <- lift (getitem_key today "coord") ;;
  latitude <- lift (getitem_key coord "lat") ;;
  print [PStr "Invoking OpenWeather URL2 webhook"] ;;
  (* webhook url *)
  url <- lift (str_format (OPENWEATHER_URL2 cfg)
                 [("lat", PVal latitude); ("lon", PVal longitude);
                  ("excl", PStr "current,minutely,hourly,alerts");
                  ("api", PStr (OPENWEATHER_API cfg))]) ;;
  (* send GET request *)
  response <- urequests_get url ;;
  (* evaluate response *)
  (if status_code response <? 400
   then print [PStr "Webhook OpenWeather URL2 success"]
   else print [PStr "Webhook OpenWeather URL2 failed"] ;;
        raise (RuntimeError "Webhook OpenWeather URL1 failed")) ;;
  (* get the data in json format *)
  forecast <- response_json response ;;
  dbg <- debug_on ;;
  when dbg (
    print [PStr "OpenWeather URL2 data"] ;;
    print [PVal forecast]) ;;
  (* the forecasts for the next 3 days *)
  owdata <- for_acc (range 1 4) owdata (fun owdata day =>
    let entry :=
      daily <- lift (getitem_key forecast "daily") ;;
      lift (getitem_idx daily day) in
    e <- entry ;;
    temps <- lift (getitem_key e "temp") ;;
    t <- lift (getitem_key temps "day") ;;
    kelvin <- lift (num_sub t (f_lit 273.15)) ;;
    let temp := temperature_2_unit kelvin in
    e <- entry ;;
    hum <- lift (getitem_key e "humidity") ;;
    e <- entry ;;
    pres <- lift (getitem_key e "pressure") ;;
    e <- entry ;;
    weather <- lift (getitem_key e "weather") ;;
    w0 <- lift (getitem_idx weather 0) ;;
    icon <- lift (getitem_key w0 "icon") ;;
    e <- entry ;;
    weather <- lift (getitem_key e "weather") ;;
    w0 <- lift (getitem_idx weather 0) ;;
    report <- lift (getitem_key w0 "description") ;;
    (* save data in return list *)
    ret (owdata ++ [mk_day temp hum pres icon report])%list) ;;
  dbg <- debug_on ;;
  when dbg (
    print [PStr "OpenWeather return data"] ;;
    print [PVal (JList (map day_value owdata))]) ;;
  ret owdata.

(** ** Get sensor readings *)

(** ['F' if config.FAHRENHEIT else 'C']. *)
Definition unit_letter : string := if FAHRENHEIT cfg then "F" else "C".

(** [x not in l] for a list of bus addresses. *)
Definition not_in (x : Z) (l : list Z) : bool := negb (existsb (Z.eqb x) l).

Definition get_sensor_readings : M F (list (SensorReading F)) :=
  print [PStr "Getting sensor readings"] ;;
  (* I2C object *)
  scl <- Pin (SCL_PIN cfg) PinDefault ;;
  sda <- Pin (SDA_PIN cfg) PinDefault ;;
  SoftI2C scl sda ;;
  (* AM2320 temperature and humidity sensor *)
  driver EvAM2320 ;;
  (* check if AM2320 sensor is detected: the first scan wakes it up *)
  i2c_scan ;;
  found <- i2c_scan ;;
  when (not_in 92 found) (raise (RuntimeError "Cannot find AM2320 sensor")) ;;
  (* read AM2320 sensor *)
  th <- measure EvAm2320Measure (am2320_at env) ;;
  let am2320_temp := temperature_2_unit (fst th) in
  let am2320_hum := snd th in
  dbg <- debug_on ;;
  when dbg (
    print [PStr EmptyString] ;;
    print [PStr "AM2320    T: "; PFix 0 am2320_temp; PStr " ";
           PStr unit_letter; PStr " - H: "; PFix 0 am2320_hum; PStr " %"]) ;;
  (* BMP180 temperature, pressure and altitude sensor *)
  driver EvBMP180 ;;
  (* check if BMP180 sensor is detected *)
  found <- i2c_scan ;;
  when (not_in 119 found) (raise (RuntimeError "Cannot find BMP180 sensor")) ;;
  (* read BMP180 sensor *)
  t <- measure EvBmp180Temperature (bmp180_temperature_at env) ;;
  let bmp180_temp := temperature_2_unit t in
  p <- measure EvBmp180Pressure (bmp180_pressure_at env) ;;
  (* values in Pa, divide by 100 for hPa *)
  let bmp180_pres := (p / f_of_Z 100)%pyfloat in
  bmp180_alt <- measure EvBmp180Altitude (bmp180_altitude_at env) ;;
  dbg <- debug_on ;;
  when dbg (
    print [PStr "BMP180    T: "; PFix 0 bmp180_temp; PStr " ";
           PStr unit_letter; PStr " - P: "; PFix 0 bmp180_pres;
           PStr " hPa - A: "; PFix 0 bmp180_alt; PStr " m"]) ;;
  (* BH1750FVI light sensor *)
  driver EvBH1750 ;;
  (* check if BH1750 sensor is detected *)
  found <- i2c_scan ;;
  when (not_in 35 found) (raise (RuntimeError "Cannot find BH1750 sensor")) ;;
  (* read BH1750 sensor *)
  bh1750_lum <- measure EvBh1750Luminance (bh1750_at env) ;;
  dbg <- debug_on ;;
  when dbg (
    print [PStr "BH1750FVI L: "; PFix 0 bh1750_lum; PStr " lux"]) ;;
  ret [mk_reading am2320_temp am2320_hum bmp180_temp bmp180_pres
                  bmp180_alt bh1750_lum].

(** ** Load PBM image *)

Definition load_pbm_image (filename : string) : M F FrameBuffer :=
  (* open pbm image in read binary format *)
  f <- measure (EvOpen filename) (fun n => file_at env n filename) ;;
  (* ignore identifier and description *)
  let '(_, f) := readline f in
  let '(_, f) := readline f in
  (* extract width and height of image *)
  let '(line, f) := readline f in
  dims <- lift (map_int (bytes_split line)) ;;
  match dims with
  | [width; height] =>
      (* extract image data *)
      ret (mk_fb f width height)
  | _ => raise ValueError
  end.

(** ** Upload sensor values to ThingSpeak *)

Definition log_sensor_readings (sensor_data : list (SensorReading F))
  : M F unit :=
  print [PStr "Invoking ThingSpeak logging webhook"] ;;
  (* extract readings to upload *)
  r <- lift (list_getitem sensor_data 0) ;;
  let temperature := am2320_temp r in
  r <- lift (list_getitem sensor_data 0) ;;
  let humidity := am2320_hum r in
  r <- lift (list_getitem sensor_data 0) ;;
  let pressure := bmp180_pres r in
  r <- lift (list_getitem sensor_data 0) ;;
  let luminance := bh1750_lum r in
  (* webhook url *)
  url <- lift (str_format (THINGSPEAK_URL cfg)
                 [("api", PStr (THINGSPEAK_WRITE_API cfg));
                  ("temp", PFloat temperature); ("hum", PFloat humidity);
                  ("pres", PFloat pressure); ("lum", PFloat luminance)]) ;;
  (* send GET request *)
  response <- urequests_get url ;;
  (* evaluate response *)
  if status_code response <? 400
  then print [PStr "Webhook ThingSpeak success"]
  else print [PStr "Webhook ThingSpeak failed"] ;;
       raise (RuntimeError "Webhook ThingSpeak failed").

(** ** deepsleep to save battery *)

Definition deepsleep_till_next_cycle : M F unit :=
  print [PStr "Going into deepsleep for "; PInt (INTERVAL cfg);
         PStr " seconds..."] ;;
  utime_sleep 2 ;;
  (* goto deepsleep - time in milliseconds ! *)
  machine_deepsleep (INTERVAL cfg * 1000).

(** ** Update OLED display *)

Definition DOW : list string :=
  ["Mon"; "Tue"; "Wed"; "Thu"; "Fri"; "Sat"; "Sun"].

Definition display_text (t : text F) (x y : Z) : M F unit := emit (EvText t x y).

Definition display_blit (fb : FrameBuffer) (x y : Z) : M F unit :=
  emit (EvBlit fb x y).

Definition set_textpos (row col : Z) : M F unit := emit (EvSetTextpos row col).

Definition printstring (t : text F) : M F unit := emit (EvPrintstring t).

Definition page_date_time (tm : struct_time) : M F unit :=
  (* draw date *)
  set_textpos 20 4 ;;
  printstring [PPad 2 (tm_mday tm); PStr "/"; PPad 2 (tm_mon tm); PStr "/";
               PPad 4 (tm_year tm)] ;;
  (* draw time *)
  set_textpos 44 4 ;;
  dow <- lift (list_getitem DOW (tm_wday tm)) ;;
  printstring [PStr dow; PStr "  "; PPad 2 (tm_hour tm); PStr ":";
               PPad 2 (tm_min tm)].

Definition page_currently (tm : struct_time) (ow_data : list (ForecastDay F))
  : M F unit :=
  (* extract OpenWeather current data *)
  d <- lift (list_getitem ow_data 0) ;;
  (* load pbm image *)
  path <- lift (icon_path (icon d)) ;;
  icon_pbm <- load_pbm_image path ;;
  (* display dayofweek *)
  dow <- lift (list_getitem DOW (tm_wday tm)) ;;
  display_text [PStr dow] 6 16 ;;
  (* display weather icon *)
  display_blit icon_pbm 4 25 ;;
  (* display current data *)
  display_text [PStr "T:"; PFix 0 (temp d); PStr " "; PStr unit_letter] 46 25 ;;
  display_text [PStr "H:"; PVal (hum d); PStr " %"] 46 35 ;;
  display_text [PStr "P:"; PVal (pres d); PStr " hPa"] 46 45 ;;
  display_text [PVal (report d)] 0 55.

Definition page_forecast (tm : struct_time) (ow_data : list (ForecastDay F))
  : M F unit :=
  (* display OpenWeather forecast data for next 3 days *)
  for_in (range 1 4) (fun day =>
    (* 3 columns on screen *)
    let col_offset := (day - 1) * 40 in
    (* extract Openweather forecast data *)
    d <- lift (list_getitem ow_data day) ;;
    (* load pbm image *)
    path <- lift (icon_path (icon d)) ;;
    icon_pbm <- load_pbm_image path ;;
    (* display dayofweek *)
    dow <- lift (list_getitem DOW ((tm_wday tm + day) mod 7)) ;;
    display_text [PStr dow] (6 + col_offset) 16 ;;
    (* display weather icon *)
    display_blit icon_pbm (4 + col_offset) 25 ;;
    (* display forecast data *)
    display_text [PFix 0 (temp d); PStr unit_letter] (6 + col_offset) 55).

Definition page_sensors_1 (sensor_data : list (SensorReading F)) : M F unit :=
  (* load pbm images *)
  temp_pbm <- load_pbm_image "/img/temperature.pbm" ;;
  hum_pbm <- load_pbm_image "/img/humidity.pbm" ;;
  (* draw pbm images *)
  display_blit temp_pbm 4 20 ;;
  display_blit hum_pbm 4 44 ;;
  (* extract sensor readings *)
  r <- lift (list_getitem sensor_data 0) ;;
  let temp := am2320_temp r in
  r <- lift (list_getitem sensor_data 0) ;;
  let hum := am2320_hum r in
  (* draw readings *)
  set_textpos 20 24 ;;
  printstring [PFix 1 temp; PStr " "; PStr unit_letter] ;;
  set_textpos 44 24 ;;
  printstring [PFix 1 hum; PStr " %"].

Definition page_sensors_2 (sensor_data : list (SensorReading F)) : M F unit :=
  (* load pbm images *)
  press_pbm <- load_pbm_image "/img/pressure.pbm" ;;
  lum_pbm <- load_pbm_image "/img/luminance.pbm" ;;
  (* draw pbm images *)
  display_blit press_pbm 4 20 ;;
  display_blit lum_pbm 4 44 ;;
  (* extract sensor readings *)
  r <- lift (list_getitem sensor_data 0) ;;
  let pres := bmp180_pres r in
  r <- lift (list_getitem sensor_data 0) ;;
  let lum := bh1750_lum r in
  (* draw readings *)
  set_textpos 20 24 ;;
  printstring [PFix 0 pres; PStr " hPa"] ;;
  set_textpos 44 24 ;;
  printstring [PFix 0 lum; PStr " lux"].

Definition update_oled_display (ow_data : list (ForecastDay F))
    (sensor_data : list (SensorReading F)) : M F unit :=
  print [PStr "Updating OLED"] ;;
  (* I2C object *)
  scl <- Pin (SCL_PIN cfg) PinDefault ;;
  sda <- Pin (SDA_PIN cfg) PinDefault ;;
  SoftI2C scl sda ;;
  (* check if OLED display is detected *)
  found <- i2c_scan ;;
  when (not_in 60 found) (raise (RuntimeError "Cannot find OLED display")) ;;
  (* display object; the font writer built on it touches no device *)
  driver (EvSSD1306 128 64) ;;
  (* get date & time *)
  tm <- utime_localtime ;;
  (* show different pages *)
  for_in (range 0 (Z.of_nat (List.length (PAGES cfg)))) (fun page =>
    (* clear oled *)
    emit (EvFill 0) ;;
    (* title *)
    title <- lift (list_getitem (PAGES cfg) page) ;;
    display_text [PStr title] 0 0 ;;
    (* current page *)
    (if page =? 0 then page_date_time tm
     else if page =? 1 then page_currently tm ow_data
     else if page =? 2 then page_forecast tm ow_data
     else if page =? 3 then page_sensors_1 sensor_data
     else if page =? 4 then page_sensors_2 sensor_data
     else ret tt) ;;
    (* show page *)
    driver EvShow ;;
    (* wait *)
    utime_sleep 5) ;;
  (* power off *)
  driver EvPoweroff.

(** ** Main program *)

(** The body of the [try] block. *)
Definition cycle : M F unit :=
  (* connect to WiFi network *)
  connect_wifi ;;
  (* Synchronize RTC *)
  synchronize_rtc ;;
  (* get OpenWeather data *)
  ow_data <- get_weather_data ;;
  (* get sensor readings *)
  sensor_data <- get_sensor_readings ;;
  (* update OLED display *)
  update_oled_display ow_data sensor_data ;;
  (* upload sensor readings to ThingSpeak *)
  log_sensor_readings sensor_data.

(** What follows the [try] statement: deep sleep unless debugging. *)
Definition sleep_decision : M F unit :=
  dbg <- debug_on ;;
  when (negb dbg) deepsleep_till_next_cycle.

Definition run : M F unit :=
  try_except cycle (fun exc =>
    emit (EvPrintException exc) ;;
    show_error) ;;
  (* goto deepsleep if not in debugging mode *)
  sleep_decision.

End Program.

(** * Running the model

    Exact rationals stand in for floats when the model is run; the
    theorems below hold for every [PyFloat]. *)

#[export] Instance PyFloat_Q : PyFloat Q := {|
  f_of_Z := inject_Z;
  f_lit := fun q => q;
  fadd := Qplus;
  fsub := Qminus;
  fmul := Qmult;
  fdiv := Qdiv
|}.

Definition sample_today : json Q :=
  JDict [("coord", JDict [("lon", JFloat 4.35%Q); ("lat", JFloat 50.85%Q)]);
         ("weather", JList [JDict [("id", JInt 800); ("main", JStr "Clear");
                                   ("description", JStr "clear sky");
                                   ("icon", JStr "01d")]]);
         ("main", JDict [("temp", JFloat 293.15%Q); ("pressure", JInt 1013);
                         ("humidity", JInt 60)])].

Definition sample_daily (kelvin : Q) (icon : string) : json Q :=
  JDict [("temp", JDict [("day", JFloat kelvin); ("night", JFloat 280%Q)]);
         ("pressure", JInt 1010); ("humidity", JInt 55);
         ("weather", JList [JDict [("description", JStr "few clouds");
                                   ("icon", JStr icon)]])].

Definition sample_forecast : json Q :=
  JDict [("daily", JList [sample_daily 290.15%Q "01d";
                          sample_daily 291.15%Q "02d";
                          sample_daily 292.15%Q "03d";
                          sample_daily 293.15%Q "04d";
                          sample_daily 294.15%Q "09d"])].

Definition sample_pbm : string :=
  "P4" ++ newline ++ "# icon" ++ newline ++ "8 8" ++ newline ++ "abcdefgh".

(** Which service a URL addresses, read off its literal head. *)
Definition sample_reply (url : text Q) : option (Response Q) :=
  match url with
  | PStr head :: _ =>
      if String.eqb head "https://api.openweathermap.org/data/2.5/weather?q="
      then Some (mk_response 200 (Some sample_today))
      else if String.eqb head
                "https://api.openweathermap.org/data/2.5/onecall?lat="
      then Some (mk_response 200 (Some sample_forecast))
      else Some (mk_response 200 (Some (JInt 1)))
  | _ => None
  end.

(** A world in which everything works: the link is up, NTP answers
    2021-07-01 11:00:00 UTC, the three sensors and the display answer
    the scan, the debug pin is high (not debugging). *)
Definition env_ok : Env Q := {|
  isconnected_at := fun _ => true;
  ifconfig_at := fun _ => "192.168.1.20";
  pin_at := fun _ _ => 1;
  ntp_at := fun _ => Some 678452400;
  reply_at := fun _ => sample_reply;
  scan_at := fun _ => [35; 60; 92; 119];
  fails_at := fun _ => false;
  am2320_at := fun _ => Some (21.5%Q, 48%Q);
  bmp180_temperature_at := fun _ => Some 21.8%Q;
  bmp180_pressure_at := fun _ => Some 101325%Q;
  bmp180_altitude_at := fun _ => Some 12%Q;
  bh1750_at := fun _ => Some 320%Q;
  file_at := fun _ _ => Some sample_pbm
|}.

(** The same world with the WLAN link never coming up. *)
Definition env_no_wifi : Env Q := {|
  isconnected_at := fun _ => false;
  ifconfig_at := ifconfig_at env_ok;
  pin_at := pin_at env_ok;
  ntp_at := ntp_at env_ok;
  reply_at := reply_at env_ok;
  scan_at := scan_at env_ok;
  fails_at := fails_at env_ok;
  am2320_at := am2320_at env_ok;
  bmp180_temperature_at := bmp180_temperature_at env_ok;
  bmp180_pressure_at := bmp180_pressure_at env_ok;
  bmp180_altitude_at := bmp180_altitude_at env_ok;
  bh1750_at := bh1750_at env_ok;
  file_at := file_at env_ok
|}.

(** A device just powered on: nothing happened yet, the clock shows
    2000-01-01 00:00:00. *)
Definition power_on {F} : State F := mk_state 0 0 [].

(** * Vocabulary of the statements *)

(** A time tuple that falls on the last Sunday of [month] (a month of 31
    days) of [year], at [hour] o'clock sharp. *)
Definition last_sunday_at (year month hour : Z) (tm : struct_time) : Prop :=
  tm_year tm = year /\ tm_mon tm = month /\
  24 < tm_mday tm <= 31 /\ tm_wday tm = 6 /\
  tm_hour tm = hour /\ tm_min tm = 0 /\ tm_sec tm = 0.

Definition last_sunday_atb (year month hour : Z) (tm : struct_time) : bool :=
  (tm_year tm =? year) && (tm_mon tm =? month) &&
  (24 <? tm_mday tm) && (tm_mday tm <=? 31) && (tm_wday tm =? 6) &&
  (tm_hour tm =? hour) && (tm_min tm =? 0) && (tm_sec tm =? 0).

(** The window of a year, by the spec's formula. *)
Definition dst_start (year : Z) : Z :=
  mktime year 3 (31 - (5 * year / 4 + 4) mod 7) 2 0 0.

Definition dst_end (year : Z) : Z :=
  mktime year 10 (31 - (5 * year / 4 + 1) mod 7) 3 0 0.

Definition is_wlan {F} (e : event F) : bool :=
  match e with
  | EvWlanActive _ _ | EvWlanConnect _ _ | EvIsConnected _ | EvIfconfig => true
  | _ => false
  end.

Definition is_fault {F} (e : event F) : bool :=
  match e with
  | EvPrintException _ | EvPinWrite _ _ => true
  | _ => false
  end.

Definition is_deepsleep {F} (e : event F) : bool :=
  match e with
  | EvDeepsleep _ => true
  | _ => false
  end.

(** What a step of the cycle may emit... *)
Definition step_event {F} (e : event F) : bool :=
  negb (is_fault e || is_deepsleep e).

(** ... and what the steps after the network join may emit. *)
Definition later_event {F} (e : event F) : bool :=
  negb (is_wlan e || is_fault e || is_deepsleep e).

Definition tame {F A} (p : event F -> bool) (m : M F A) : Prop :=
  forall s,
    fst (m s) <> Halted /\
    exists d, trace (snd (m s)) = (trace s ++ d)%list /\
              Forall (fun e => p e = true) d.

(** A step of the cycle fails: the steps before it returned, and it
    raised [e], leaving the device in state [s']. *)
Inductive step_failure {F} `{PyFloat F} (cfg : Config) (env : Env F)
    (s : State F) (e : exn) (s' : State F) : Prop :=
| fail_join :
    connect_wifi cfg env s = (Raise e, s') ->
    step_failure cfg env s e s'
| fail_sync s1 :
    connect_wifi cfg env s = (Ret tt, s1) ->
    synchronize_rtc cfg env s1 = (Raise e, s') ->
    step_failure cfg env s e s'
| fail_fetch s1 s2 :
    connect_wifi cfg env s = (Ret tt, s1) ->
    synchronize_rtc cfg env s1 = (Ret tt, s2) ->
    get_weather_data cfg env s2 = (Raise e, s') ->
    step_failure cfg env s e s'
| fail_read s1 s2 s3 ow :
    connect_wifi cfg env s = (Ret tt, s1) ->
    synchronize_rtc cfg env s1 = (Ret tt, s2) ->
    get_weather_data cfg env s2 = (Ret ow, s3) ->
    get_sensor_readings cfg env s3 = (Raise e, s') ->
    step_failure cfg env s e s'
| fail_render s1 s2 s3 s4 ow sd :
    connect_wifi cfg env s = (Ret tt, s1) ->
    synchronize_rtc cfg env s1 = (Ret tt, s2) ->
    get_weather_data cfg env s2 = (Ret ow, s3) ->
    get_sensor_readings cfg env s3 = (Ret sd, s4) ->
    update_oled_display cfg env ow sd s4 = (Raise e, s') ->
    step_failure cfg env s e s'
| fail_upload s1 s2 s3 s4 s5 ow sd :
    connect_wifi cfg env s = (Ret tt, s1) ->
    synchronize_rtc cfg env s1 = (Ret tt, s2) ->
    get_weather_data cfg env s2 = (Ret ow, s3) ->
    get_sensor_readings cfg env s3 = (Ret sd, s4) ->
    update_oled_display cfg env ow sd s4 = (Ret tt, s5) ->
    log_sensor_readings cfg env sd s5 = (Raise e, s') ->
    step_failure cfg env s e s'.

Definition is_print_exception {F} (e : event F) : bool :=
  match e with
  | EvPrintException _ => true
  | _ => false
  end.

Definition count_ev {F} (p : event F -> bool) (l : list (event F)) : nat :=
  List.length (filter p l).

(** The local time the synchronizer commits when the NTP server
    answers [t] (seconds since 2000, UTC). *)
Definition synced_time (cfg : Config) (t : Z) : Z :=
  let local := t + TIMEZONE cfg * 3600 in
  let year := tm_year (localtime local) in
  if DAYLIGHT_SAVING_TIME cfg
     && ((local >=? HHMarch year) && (local <? HHOctober year))
  then local + 3600
  else local.

(** [runs m P Q]: started in a state satisfying [P], [m] returns, in a
    state satisfying [Q]. *)
Definition runs {F A} (m : M F A) (P : State F -> Prop)
    (Q : A -> State F -> Prop) : Prop :=
  forall s, P s -> exists a s', m s = (Ret a, s') /\ Q a s'.

(** The clock shows [c] milliseconds and [n] interactions happened. *)
Definition at_ {F} (c : Z) (n : nat) (s : State F) : Prop :=
  clock_ms s = c /\ tick s = n.

(** Every bus scan finds the addresses [found]. *)
Definition bus_shows {F} (env : Env F) (found : list Z) : Prop :=
  forall n, scan_at env n = found.

(** The driver calls go through, and the sensors give these values. *)
Definition sensors_answer {F} (env : Env F) (t h bt bp ba lum : F) : Prop :=
  (forall n, fails_at env n = false) /\
  (forall n, am2320_at env n = Some (t, h)) /\
  (forall n, bmp180_temperature_at env n = Some bt) /\
  (forall n, bmp180_pressure_at env n = Some bp) /\
  (forall n, bmp180_altitude_at env n = Some ba) /\
  (forall n, bh1750_at env n = Some lum).

Definition is_am2320_read {F} (e : event F) : bool :=
  match e with
  | EvAm2320Measure => true
  | _ => false
  end.

Definition is_bmp180_read {F} (e : event F) : bool :=
  match e with
  | EvBmp180Temperature | EvBmp180Pressure | EvBmp180Altitude => true
  | _ => false
  end.

Definition is_bmp180 {F} (e : event F) : bool :=
  match e with
  | EvBMP180 => true
  | _ => is_bmp180_read e
  end.

Definition is_bh1750 {F} (e : event F) : bool :=
  match e with
  | EvBH1750 | EvBh1750Luminance => true
  | _ => false
  end.

Definition is_http_get {F} (e : event F) : bool :=
  match e with
  | EvHttpGet _ => true
  | _ => false
  end.

(** The keyword arguments of [config.THINGSPEAK_URL.format(...)]. *)
Definition thingspeak_args {F} (cfg : Config) (r : SensorReading F)
  : list (string * piece F) :=
  [("api", PStr (THINGSPEAK_WRITE_API cfg));
   ("temp", PFloat (am2320_temp r)); ("hum", PFloat (am2320_hum r));
   ("pres", PFloat (bmp180_pres r)); ("lum", PFloat (bh1750_lum r))].

(** What [update_oled_display] does before it looks at the scan. *)
Definition display_probe {F} (cfg : Config) (found : list Z) : list (event F) :=
  [EvPrint [PStr "Updating OLED"] newline;
   EvPin (SCL_PIN cfg) PinDefault; EvPin (SDA_PIN cfg) PinDefault;
   EvSoftI2C (SCL_PIN cfg) (SDA_PIN cfg); EvI2cScan found].

Definition and_then {A B} (r : exn + A) (k : A -> exn + B) : exn + B :=
  match r with
  | inl e => inl e
  | inr a => k a
  end.

Notation "x <~ r ;; k" := (and_then r (fun x => k))
  (at level 61, r at next level, right associativity) : py_scope.

(** The day record read off a value at the places the program reads:
    the temperature [raw] (still in Kelvin), and where humidity/pressure
    ([main]) and icon/description ([src]["weather"][0]) are found. *)
Definition day_record {F} `{PyFloat F} (cfg : Config)
    (raw main src : json F) : exn + ForecastDay F :=
  kelvin <~ num_sub raw (f_lit 273.15) ;;
  hum <~ getitem_key main "humidity" ;;
  pres <~ getitem_key main "pressure" ;;
  weather <~ getitem_key src "weather" ;;
  w0 <~ getitem_idx weather 0 ;;
  icon <~ getitem_key w0 "icon" ;;
  report <~ getitem_key w0 "description" ;;
  inr (mk_day (temperature_2_unit cfg kelvin) hum pres icon report).

(** The record of the current conditions, from the first endpoint's body. *)
Definition current_day {F} `{PyFloat F} (cfg : Config) (today : json F)
  : exn + ForecastDay F :=
  main <~ getitem_key today "main" ;;
  raw <~ getitem_key main "temp" ;;
  day_record cfg raw main today.

(** The record of entry [day] of the second endpoint's daily series. *)
Definition forecast_day {F} `{PyFloat F} (cfg : Config) (forecast : json F)
    (day : Z) : exn + ForecastDay F :=
  daily <~ getitem_key forecast "daily" ;;
  entry <~ getitem_idx daily day ;;
  temps <~ getitem_key entry "temp" ;;
  raw <~ getitem_key temps "day" ;;
  day_record cfg raw entry entry.

(** Longitude and latitude of the city, from the first endpoint's body. *)
Definition coordinates {F} (today : json F) : exn + (json F * json F) :=
  coord <~ getitem_key today "coord" ;;
  lon <~ getitem_key coord "lon" ;;
  lat <~ getitem_key coord "lat" ;;
  inr (lon, lat).

Definition is_poll {F} (e : event F) : bool :=
  match e with
  | EvIsConnected _ => true
  | _ => false
  end.

Definition is_wait {F} (e : event F) : bool :=
  match e with
  | EvSleep _ => true
  | _ => false
  end.

Definition is_connect {F} (e : event F) : bool :=
  match e with
  | EvWlanConnect _ _ => true
  | _ => false
  end.

(** The answer of the last status poll among the events [d]. *)
Fixpoint last_poll {F} (d : list (event F)) : option bool :=
  match d with
  | [] => None
  | e :: rest =>
      match last_poll rest with
      | Some b => Some b
      | None => match e with
                | EvIsConnected b => Some b
                | _ => None
                end
      end
  end.

(** One round of the retry loop: an unsuccessful poll, a dot, one second. *)
Definition wait_round {F} : list (event F) :=
  [EvIsConnected false; EvPrint [PStr "."] EmptyString; EvSleep 1].

Fixpoint rounds {F} (k : nat) : list (event F) :=
  match k with
  | O => []
  | S k' => (wait_round ++ rounds k')%list
  end.

(** [config.py] with the Fahrenheit flag set. *)
Definition config_fahrenheit : Config := {|
  SCL_PIN := SCL_PIN config_py;
  SDA_PIN := SDA_PIN config_py;
  LED_PIN := LED_PIN config_py;
  LED_ON := LED_ON config_py;
  LED_OFF := LED_OFF config_py;
  DEBUG_PIN := DEBUG_PIN config_py;
  FAHRENHEIT := true;
  PAGES := PAGES config_py;
  TIMEZONE := TIMEZONE config_py;
  DAYLIGHT_SAVING_TIME := DAYLIGHT_SAVING_TIME config_py;
  INTERVAL := INTERVAL config_py;
  SSID := SSID config_py;
  PASS := PASS config_py;
  MAX_TRIES := MAX_TRIES config_py;
  OPENWEATHER_API := OPENWEATHER_API config_py;
  OPENWEATHER_CITY := OPENWEATHER_CITY config_py;
  OPENWEATHER_URL1 := OPENWEATHER_URL1 config_py;
  OPENWEATHER_URL2 := OPENWEATHER_URL2 config_py;
  THINGSPEAK_WRITE_API := THINGSPEAK_WRITE_API config_py;
  THINGSPEAK_READ_API := THINGSPEAK_READ_API config_py;
  THINGSPEAK_URL := THINGSPEAK_URL config_py
|}.

(** A world that differs from [e] in what the bus scan shows. *)
Definition with_scan {F} (e : Env F) (found : list Z) : Env F := {|
  isconnected_at := isconnected_at e;
  ifconfig_at := ifconfig_at e;
  pin_at := pin_at e;
  ntp_at := ntp_at e;
  reply_at := reply_at e;
  scan_at := fun _ => found;
  fails_at := fails_at e;
  am2320_at := am2320_at e;
  bmp180_temperature_at := bmp180_temperature_at e;
  bmp180_pressure_at := bmp180_pressure_at e;
  bmp180_altitude_at := bmp180_altitude_at e;
  bh1750_at := bh1750_at e;
  file_at := file_at e
|}.

(** No pressure sensor on the bus; no display on the bus. *)
Definition env_no_bmp180 : Env Q := with_scan env_ok [35; 60; 92].
Definition env_no_display : Env Q := with_scan env_ok [35; 92; 119].

(** The value a call returned. *)
Definition returned {A} (default : A) (r : outcome A) : A :=
  match r with
  | Ret a => a
  | _ => default
  end.

(** The reading of the sensors of [env_ok]. *)
Definition sample_reading : SensorReading Q :=
  mk_reading 21.5%Q 48%Q 21.8%Q (101325 / inject_Z 100)%Q 12%Q 320%Q.

(** Event lists and facts that depend on the configuration. *)

Section Vocabulary.

Context {F : Type} {PF : PyFloat F}.
Variable cfg : Config.
Variable env : Env F.

(** One flash of the fault indicator: on for 0.5 s, off for 0.5 s. *)
Definition flash : list (event F) :=
  [EvPinWrite (LED_PIN cfg) (LED_ON cfg); EvSleep 0.5;
   EvPinWrite (LED_PIN cfg) (LED_OFF cfg); EvSleep 0.5].

(** What the handler of [run] does with an exception [e]. *)
Definition fault_events (e : exn) : list (event F) :=
  EvPrintException e :: EvPin (LED_PIN cfg) PinOut :: (flash ++ flash ++ flash)%list.

(** What the sleep decision does when the debug pin reads [level]. *)
Definition decision_events (level : Z) : list (event F) :=
  [EvPin (DEBUG_PIN cfg) PinInPullUp; EvPinRead (DEBUG_PIN cfg) level] ++
  (if level =? 0 then []
   else [EvPrint [PStr "Going into deepsleep for "; PInt (INTERVAL cfg);
                  PStr " seconds..."] newline;
         EvSleep 2;
         EvDeepsleep (INTERVAL cfg * 1000)])%list.

Definition url1_args : list (string * piece F) :=
  [("city", PStr (OPENWEATHER_CITY cfg)); ("api", PStr (OPENWEATHER_API cfg))].

Definition url2_args (lat lon : json F) : list (string * piece F) :=
  [("lat", PVal lat); ("lon", PVal lon);
   ("excl", PStr "current,minutely,hourly,alerts");
   ("api", PStr (OPENWEATHER_API cfg))].

(** Where the raw temperatures sit in the two bodies. *)
Definition current_raw (today : json F) : exn + json F :=
  main <~ getitem_key today "main" ;;
  getitem_key main "temp".

Definition forecast_raw (forecast : json F) (day : Z) : exn + json F :=
  daily <~ getitem_key forecast "daily" ;;
  entry <~ getitem_idx daily day ;;
  temps <~ getitem_key entry "temp" ;;
  getitem_key temps "day".

(** The temperature of [d] is the unit conversion of [raw - 273.15]. *)
Definition converted_from (d : ForecastDay F) (raw : exn + json F) : Prop :=
  exists v kelvin,
    raw = inr v /\
    num_sub v (f_lit 273.15) = inr kelvin /\
    temp d = temperature_2_unit cfg kelvin.

(** The events of a join that had to wait for the link. *)
Definition join_events (k : nat) (b c : bool) (tail : list (event F))
  : list (event F) :=
  ([EvWlanActive AP_IF false; EvIsConnected false;
    EvPrint [PStr "connecting to WiFi network..."] newline;
    EvWlanActive STA_IF true; EvWlanConnect (SSID cfg) (PASS cfg)] ++
   rounds k ++ [EvIsConnected b; EvIsConnected c] ++ tail)%list.

Definition join_facts (s : State F) (d : list (event F)) : Prop :=
  let r := connect_wifi cfg env s in
  let max := Z.to_nat (MAX_TRIES cfg) in
  trace (snd r) = (trace s ++ d)%list /\
  (count_ev is_wait d <= max)%nat /\
  (count_ev is_poll d <= max + 3)%nat /\
  Forall (fun e => is_wait e = true -> e = EvSleep 1) d /\
  (count_ev is_connect d <= 1)%nat /\
  (fst r = Ret tt /\ last_poll d = Some true \/
   fst r = Raise (RuntimeError "WiFi connection failed") /\
   last_poll d = Some false \/
   fst r = Raise OSError) /\
  ((forall n, fails_at env n = false) ->
   isconnected_at env (S (tick s)) = false ->
   exists k b c tail,
     (k <= max)%nat /\ (b = false -> k = max) /\
     d = join_events k b c tail /\
     Forall (fun e => is_poll e || is_wait e = false) tail).

End Vocabulary.

(** ** Vocabulary of the further properties *)

(** A line of a file: text without a line feed. *)
Fixpoint has_newline (s : string) : bool :=
  match s with
  | EmptyString => false
  | String c rest => Ascii.eqb c (ascii_of_nat 10) || has_newline rest
  end.

(** The third line of a file, as three [readline] calls give it. *)
Definition third_line (f : string) : string :=
  fst (readline (snd (readline (snd (readline f))))).

(** What is left of a file after three [readline] calls. *)
Definition after_third_line (f : string) : string :=
  snd (readline (snd (readline (snd (readline f))))).

(** [counts p lo hi m]: whatever the outside world answers, [m] emits at
    most [hi] events that satisfy [p], and at least [lo] of them when it
    returns. *)
Definition counts {F A} (p : event F -> bool) (lo hi : nat) (m : M F A)
  : Prop :=
  forall s,
    exists d,
      trace (snd (m s)) = (trace s ++ d)%list /\
      (count_ev p d <= hi)%nat /\
      ((exists a, fst (m s) = Ret a) -> (lo <= count_ev p d)%nat).

Definition is_ntp {F} (e : event F) : bool :=
  match e with
  | EvNtpSettime => true
  | _ => false
  end.

Definition is_rtc_write {F} (e : event F) : bool :=
  match e with
  | EvRtcDatetime _ _ _ _ _ _ _ _ => true
  | _ => false
  end.

Definition is_show {F} (e : event F) : bool :=
  match e with
  | EvShow => true
  | _ => false
  end.

Definition is_poweroff {F} (e : event F) : bool :=
  match e with
  | EvPoweroff => true
  | _ => false
  end.

(** The peripherals and services the program talks to. *)
Inductive device : Type :=
| Console | Gpio | Timer | Wlan | Ntp | Rtc | Http | I2cBus | Sensors
| Files | Display | Power.

Definition device_of {F} (e : event F) : device :=
  match e with
  | EvPrint _ _ | EvPrintException _ => Console
  | EvPin _ _ | EvPinWrite _ _ | EvPinRead _ _ => Gpio
  | EvSleep _ => Timer
  | EvWlanActive _ _ | EvWlanConnect _ _ | EvIsConnected _ | EvIfconfig => Wlan
  | EvNtpSettime => Ntp
  | EvRtcDatetime _ _ _ _ _ _ _ _ => Rtc
  | EvHttpGet _ => Http
  | EvSoftI2C _ _ | EvI2cScan _ => I2cBus
  | EvAM2320 | EvAm2320Measure | EvBMP180 | EvBmp180Temperature
  | EvBmp180Pressure | EvBmp180Altitude | EvBH1750 | EvBh1750Luminance =>
      Sensors
  | EvOpen _ => Files
  | EvSSD1306 _ _ | EvFill _ | EvText _ _ _ | EvBlit _ _ _
  | EvSetTextpos _ _ | EvPrintstring _ | EvShow | EvPoweroff => Display
  | EvDeepsleep _ => Power
  end.

Definition device_eqb (a b : device) : bool :=
  match a, b with
  | Console, Console | Gpio, Gpio | Timer, Timer | Wlan, Wlan | Ntp, Ntp
  | Rtc, Rtc | Http, Http | I2cBus, I2cBus | Sensors, Sensors
  | Files, Files | Display, Display | Power, Power => true
  | _, _ => false
  end.

(** The event [e] goes to one of the devices [ds]. *)
Definition uses {F} (ds : list device) (e : event F) : bool :=
  existsb (device_eqb (device_of e)) ds.

(** Every wait among the events [d] lasts [q] seconds. *)
Definition waits_of {F} (q : Q) (d : list (event F)) : Prop :=
  Forall (fun e => is_wait e = true -> e = EvSleep q) d.

(** [closes p m]: the computation [m] makes its one [p] call last, once
    everything before went through; that call returns or fails on the
    wire.  If something raised before, no [p] call is made. *)
Definition closes {F A} (p : event F -> bool) (m : M F A) : Prop :=
  forall s,
    exists d,
      trace (snd (m s)) = (trace s ++ d)%list /\
      ((count_ev p d = 0%nat /\ exists e, fst (m s) = Raise e) \/
       (exists d0 x,
          d = (d0 ++ [x])%list /\ p x = true /\ count_ev p d0 = 0%nat /\
          ((exists a, fst (m s) = Ret a) \/ fst (m s) = Raise OSError))).

(** A loop that builds a value without touching the device, as a fold
    that stops at the first error. *)
Fixpoint fold_acc {A B} (f : B -> A -> exn + B) (xs : list A) (acc : B)
  : exn + B :=
  match xs with
  | [] => inr acc
  | x :: rest =>
      match f acc x with
      | inl e => inl e
      | inr acc' => fold_acc f rest acc'
      end
  end.

(** [returns_only Q m]: whenever [m] returns, the value satisfies [Q]. *)
Definition returns_only {F A} (Q : A -> Prop) (m : M F A) : Prop :=
  forall s a, fst (m s) = Ret a -> Q a.

(** [avoids e m]: the computation [m] never raises [e]. *)
Definition avoids {F A} (e : exn) (m : M F A) : Prop :=
  forall s, fst (m s) <> Raise e.

(** ** More sample worlds *)

(** [config.py] with daylight saving time switched off. *)
Definition config_no_dst : Config := {|
  SCL_PIN := SCL_PIN config_py;
  SDA_PIN := SDA_PIN config_py;
  LED_PIN := LED_PIN config_py;
  LED_ON := LED_ON config_py;
  LED_OFF := LED_OFF config_py;
  DEBUG_PIN := DEBUG_PIN config_py;
  FAHRENHEIT := FAHRENHEIT config_py;
  PAGES := PAGES config_py;
  TIMEZONE := TIMEZONE config_py;
  DAYLIGHT_SAVING_TIME := false;
  INTERVAL := INTERVAL config_py;
  SSID := SSID config_py;
  PASS := PASS config_py;
  MAX_TRIES := MAX_TRIES config_py;
  OPENWEATHER_API := OPENWEATHER_API config_py;
  OPENWEATHER_CITY := OPENWEATHER_CITY config_py;
  OPENWEATHER_URL1 := OPENWEATHER_URL1 config_py;
  OPENWEATHER_URL2 := OPENWEATHER_URL2 config_py;
  THINGSPEAK_WRITE_API := THINGSPEAK_WRITE_API config_py;
  THINGSPEAK_READ_API := THINGSPEAK_READ_API config_py;
  THINGSPEAK_URL := THINGSPEAK_URL config_py
|}.

(** A world that differs from [e] in one oracle. *)
Definition with_scans {F} (e : Env F) (scan : nat -> list Z) : Env F := {|
  isconnected_at := isconnected_at e;
  ifconfig_at := ifconfig_at e;
  pin_at := pin_at e;
  ntp_at := ntp_at e;
  reply_at := reply_at e;
  scan_at := scan;
  fails_at := fails_at e;
  am2320_at := am2320_at e;
  bmp180_temperature_at := bmp180_temperature_at e;
  bmp180_pressure_at := bmp180_pressure_at e;
  bmp180_altitude_at := bmp180_altitude_at e;
  bh1750_at := bh1750_at e;
  file_at := file_at e
|}.

Definition with_files {F} (e : Env F) (files : nat -> string -> option string)
  : Env F := {|
  isconnected_at := isconnected_at e;
  ifconfig_at := ifconfig_at e;
  pin_at := pin_at e;
  ntp_at := ntp_at e;
  reply_at := reply_at e;
  scan_at := scan_at e;
  fails_at := fails_at e;
  am2320_at := am2320_at e;
  bmp180_temperature_at := bmp180_temperature_at e;
  bmp180_pressure_at := bmp180_pressure_at e;
  bmp180_altitude_at := bmp180_altitude_at e;
  bh1750_at := bh1750_at e;
  file_at := files
|}.

Definition with_ntp {F} (e : Env F) (ntp : nat -> option Z) : Env F := {|
  isconnected_at := isconnected_at e;
  ifconfig_at := ifconfig_at e;
  pin_at := pin_at e;
  ntp_at := ntp;
  reply_at := reply_at e;
  scan_at := scan_at e;
  fails_at := fails_at e;
  am2320_at := am2320_at e;
  bmp180_temperature_at := bmp180_temperature_at e;
  bmp180_pressure_at := bmp180_pressure_at e;
  bmp180_altitude_at := bmp180_altitude_at e;
  bh1750_at := bh1750_at e;
  file_at := file_at e
|}.

Definition with_replies {F} (e : Env F)
    (reply : nat -> text F -> option (Response F)) : Env F := {|
  isconnected_at := isconnected_at e;
  ifconfig_at := ifconfig_at e;
  pin_at := pin_at e;
  ntp_at := ntp_at e;
  reply_at := reply;
  scan_at := scan_at e;
  fails_at := fails_at e;
  am2320_at := am2320_at e;
  bmp180_temperature_at := bmp180_temperature_at e;
  bmp180_pressure_at := bmp180_pressure_at e;
  bmp180_altitude_at := bmp180_altitude_at e;
  bh1750_at := bh1750_at e;
  file_at := file_at e
|}.

(** No file system; files of zero bytes; no NTP answer. *)
Definition env_no_files : Env Q := with_files env_ok (fun _ _ => None).
Definition env_empty_files : Env Q :=
  with_files env_ok (fun _ _ => Some EmptyString).
Definition env_no_ntp : Env Q := with_ntp env_ok (fun _ => None).

(** The weather service answers with an empty object. *)
Definition env_empty_today : Env Q :=
  with_replies env_ok (fun _ _ => Some (mk_response 200 (Some (JDict [])))).

(** The forecast holds today and tomorrow only. *)
Definition short_forecast : json Q :=
  JDict [("daily", JList [sample_daily 290.15%Q "01d";
                          sample_daily 291.15%Q "02d"])].

Definition short_reply (url : text Q) : option (Response Q) :=
  match url with
  | PStr head :: _ =>
      if String.eqb head "https://api.openweathermap.org/data/2.5/weather?q="
      then Some (mk_response 200 (Some sample_today))
      else Some (mk_response 200 (Some short_forecast))
  | _ => None
  end.

Definition env_short_forecast : Env Q :=
  with_replies env_ok (fun _ => short_reply).

(** The AM2320 answers the second scan only; it answers the first scan
    only. *)
Definition env_sleepy_sensor : Env Q :=
  with_scans env_ok (fun n => if (n =? 1)%nat then [] else [35; 60; 92; 119]).
Definition env_lost_sensor : Env Q :=
  with_scans env_ok (fun n => if (n =? 1)%nat then [35; 60; 92; 119]
                              else [35; 60; 119]).

(** What the fetch and the sensor read of [env_ok] hand over. *)
Definition sample_days : list (ForecastDay Q) :=
  returned [] (fst (get_weather_data config_py env_ok power_on)).

(** * Facts about the calendar *)

Ltac split_ifs :=
  repeat match goal with
         | |- context [if ?b then _ else _] => destruct b eqn:?
         | H : context [if ?b then _ else _] |- _ => destruct b eqn:?
         end.

Example localtime_epoch : localtime 0 = mk_tm 2000 1 1 0 0 0 5 1.
Proof. reflexivity. Qed.

Example localtime_2021 :
  localtime 670212000 = mk_tm 2021 3 28 2 0 0 6 87.
Proof. vm_compute. reflexivity. Qed.

Lemma days_from_civil_from_days (z : Z) :
  let '(y, m, d) := civil_from_days z in days_from_civil y m d = z.
Proof.
  unfold civil_from_days, days_from_civil; cbv zeta.
  split_ifs; try lia.
  all: Z.to_euclidean_division_equations; lia.
Qed.

(** Setting the clock from the tuple of a time gives that time back:
    [mktime] undoes [localtime]. *)
Lemma mktime_localtime (x : Z) :
  mktime (tm_year (localtime x)) (tm_mon (localtime x)) (tm_mday (localtime x))
         (tm_hour (localtime x)) (tm_min (localtime x)) (tm_sec (localtime x))
  = x.
Proof.
  unfold localtime, mktime.
  pose proof (days_from_civil_from_days (x / 86400)) as Hd.
  destruct (civil_from_days (x / 86400)) as [[y m] d]; cbn.
  rewrite Hd.
  Z.to_euclidean_division_equations; lia.
Qed.

(** For the years of our era [int] of the float quotient is the floor
    quotient of the spec's formula. *)
Lemma int_5y4_floor (year k : Z) :
  0 <= year -> 0 <= k -> int_5y4 year k = 5 * year / 4 + k.
Proof.
  intros Hy Hk. unfold int_5y4.
  rewrite Z.quot_div_nonneg by lia.
  Z.to_euclidean_division_equations; lia.
Qed.

Lemma last_sunday_atb_true year month hour tm :
  last_sunday_atb year month hour tm = true -> last_sunday_at year month hour tm.
Proof.
  unfold last_sunday_atb, last_sunday_at. intros H.
  repeat (apply andb_prop in H; destruct H as [H ?]).
  repeat split; lia.
Qed.

(** Both ends of the window, checked for each year of the century. *)
Lemma march_century :
  forallb (fun y => last_sunday_atb y 3 2 (localtime (dst_start y)))
          (range 2000 2100) = true.
Proof. vm_compute. reflexivity. Qed.

Lemma october_century :
  forallb (fun y => last_sunday_atb y 10 3 (localtime (dst_end y)))
          (range 2000 2100) = true.
Proof. vm_compute. reflexivity. Qed.

Lemma in_range (a b x : Z) : a <= x < b -> In x (range a b).
Proof.
  intros H. unfold range. apply in_map_iff.
  exists (Z.to_nat (x - a)). split; [lia |].
  apply in_seq. lia.
Qed.

Lemma dst_window_last_sundays (year : Z) :
  2000 <= year <= 2099 ->
  last_sunday_at year 3 2 (localtime (dst_start year)) /\
  last_sunday_at year 10 3 (localtime (dst_end year)).
Proof.
  intros H.
  assert (Hin : In year (range 2000 2100)) by (apply in_range; lia).
  pose proof (proj1 (forallb_forall _ _) march_century year Hin) as H1.
  pose proof (proj1 (forallb_forall _ _) october_century year Hin) as H2.
  split; apply last_sunday_atb_true; [exact H1 | exact H2].
Qed.

(** From 2001-01-01 on the year is past the sentinel. *)
Lemma civil_year_after_2000 (z : Z) :
  366 <= z -> 2001 <= fst (fst (civil_from_days z)).
Proof.
  intros H. unfold civil_from_days. cbv zeta. cbn [fst].
  set (z' := z + 730425).
  assert (Hz : 730791 <= z') by (subst z'; lia).
  clearbody z'. clear H z.
  set (era := z' / 146097).
  assert (Hera : 5 <= era)
    by (subst era; Z.to_euclidean_division_equations; lia).
  set (doe := z' - era * 146097).
  assert (Hdoe : 0 <= doe < 146097)
    by (subst doe era; Z.to_euclidean_division_equations; lia).
  assert (Hdoe2 : era = 5 -> 306 <= doe) by (subst doe; lia).
  clearbody doe. clearbody era. clear Hz z'.
  set (yoe := (doe - doe / 1460 + doe / 36524 - doe / 146096) / 365).
  assert (Hyoe : 0 <= yoe)
    by (subst yoe; Z.to_euclidean_division_equations; lia).
  assert (Hyoe1 : 365 <= doe -> 1 <= yoe)
    by (subst yoe; Z.to_euclidean_division_equations; lia).
  assert (Hyoe0 : doe < 365 -> yoe = 0)
    by (subst yoe; Z.to_euclidean_division_equations; lia).
  clearbody yoe.
  destruct (Z_lt_dec doe 365) as [Hlt | Hge].
  - rewrite (Hyoe0 Hlt).
    destruct (Z.eq_dec era 5) as [-> | Hne].
    + specialize (Hdoe2 eq_refl).
      split_ifs; try lia.
      all: Z.to_euclidean_division_equations; lia.
    + split_ifs; lia.
  - specialize (Hyoe1 ltac:(lia)).
    split_ifs; lia.
Qed.

Lemma localtime_year_after_2000 (t : Z) :
  31622400 <= t -> 2001 <= tm_year (localtime t).
Proof.
  intros H. unfold localtime.
  assert (Hd : 366 <= t / 86400) by (Z.to_euclidean_division_equations; lia).
  pose proof (civil_year_after_2000 _ Hd) as Hy.
  destruct (civil_from_days (t / 86400)) as [[y m] d]. exact Hy.
Qed.

(** * Facts about the effects

    [tame p m]: the computation [m] never puts the machine to sleep and
    only emits events that satisfy [p]. *)

Section Tame.

Context {F : Type} {PF : PyFloat F}.
Variable p : event F -> bool.

Lemma tame_ret {A} (a : A) : tame p (ret a).
Proof.
  intros s; split; [discriminate |].
  exists []; cbn; rewrite app_nil_r; auto.
Qed.

Lemma tame_raise {A} (e : exn) : tame p (@raise F A e).
Proof.
  intros s; split; [discriminate |].
  exists []; cbn; rewrite app_nil_r; auto.
Qed.

Lemma tame_lift {A} (r : exn + A) : tame p (lift r).
Proof. destruct r; [apply tame_raise | apply tame_ret]. Qed.

Lemma tame_emit (e : event F) : p e = true -> tame p (emit e).
Proof.
  intros He s; split; [discriminate |].
  exists [e]; cbn; auto.
Qed.

Lemma tame_ask {A} (oracle : nat -> A) : tame p (ask oracle).
Proof.
  intros s; split; [discriminate |].
  exists []; cbn; rewrite app_nil_r; auto.
Qed.

Lemma tame_set_clock (ms : Z) : tame p (set_clock ms).
Proof.
  intros s; split; [discriminate |].
  exists []; cbn; rewrite app_nil_r; auto.
Qed.

Lemma tame_utime_time : tame p utime_time.
Proof.
  intros s; split; [discriminate |].
  exists []; cbn; rewrite app_nil_r; auto.
Qed.

Lemma tame_utime_sleep (q : Q) : p (EvSleep q) = true -> tame p (utime_sleep q).
Proof.
  intros He s; split; [discriminate |].
  exists [EvSleep q]; cbn; auto.
Qed.

Lemma tame_bind {A B} (m : M F A) (k : A -> M F B) :
  tame p m -> (forall a, tame p (k a)) -> tame p (bind m k).
Proof.
  intros Hm Hk s. unfold bind.
  destruct (Hm s) as [Hh [d [Hd Hp]]].
  destruct (m s) as [[a | e |] s1]; cbn in *.
  - destruct (Hk a s1) as [Hh' [d' [Hd' Hp']]].
    split; [exact Hh' |].
    exists (d ++ d')%list. rewrite Hd', Hd, app_assoc.
    split; [reflexivity | apply Forall_app; auto].
  - split; [discriminate | exists d; auto].
  - contradiction.
Qed.

Lemma tame_when (b : bool) (m : M F unit) : tame p m -> tame p (when b m).
Proof. intros H; destruct b; [exact H | apply tame_ret]. Qed.

Lemma tame_for_in {A} (xs : list A) (body : A -> M F unit) :
  (forall x, tame p (body x)) -> tame p (for_in xs body).
Proof.
  intros H; induction xs as [| x xs IH]; cbn.
  - apply tame_ret.
  - apply tame_bind; [apply H | intros _; exact IH].
Qed.

Lemma tame_for_acc {A B} (xs : list A) (acc : B) (body : B -> A -> M F B) :
  (forall b x, tame p (body b x)) -> tame p (for_acc xs acc body).
Proof.
  intros H; revert acc; induction xs as [| x xs IH]; intros acc; cbn.
  - apply tame_ret.
  - apply tame_bind; [apply H | intros b; apply IH].
Qed.

End Tame.

Lemma tame_weaken {F A} (p q : event F -> bool) (m : M F A) :
  (forall e, p e = true -> q e = true) -> tame p m -> tame q m.
Proof.
  intros Hpq Hm s. destruct (Hm s) as [Hh [d [Hd Hp]]].
  split; [exact Hh |]. exists d; split; [exact Hd |].
  eapply Forall_impl; [| exact Hp]. exact Hpq.
Qed.

Create HintDb tame discriminated.

(** One structural step of a [tame] proof; leaves of the form
    [p e = true] are closed by computation. *)
Ltac tame_step :=
  lazymatch goal with
  | |- tame _ (bind _ _) => apply tame_bind; [| intro]
  | |- tame _ (ret _) => apply tame_ret
  | |- tame _ (raise _) => apply tame_raise
  | |- tame _ (lift _) => apply tame_lift
  | |- tame _ (emit _) => apply tame_emit; reflexivity
  | |- tame _ (ask _) => apply tame_ask
  | |- tame _ (set_clock _) => apply tame_set_clock
  | |- tame _ utime_time => apply tame_utime_time
  | |- tame _ (utime_sleep _) => apply tame_utime_sleep; reflexivity
  | |- tame _ (when _ _) => apply tame_when
  | |- tame _ (for_in _ _) => apply tame_for_in; intro
  | |- tame _ (for_acc _ _ _) => apply tame_for_acc; intros
  | |- tame _ (match ?x with _ => _ end) => destruct x
  | |- tame _ _ => solve [auto with tame]
  end.

Ltac tame_auto := repeat tame_step.

Section TameProgram.

Context {F : Type} {PF : PyFloat F}.
Variable cfg : Config.
Variable env : Env F.

Lemma tame_debug_on : tame later_event (debug_on cfg env).
Proof. unfold debug_on, Pin, pin_value. tame_auto. Qed.
#[local] Hint Resolve tame_debug_on : tame.

Lemma tame_show_error :
  tame (fun e : event F => negb (is_deepsleep e)) (show_error cfg).
Proof. unfold show_error, Pin, pin_value_set. tame_auto. Qed.

Lemma tame_wifi_wait (tries : Z) : tame step_event (wifi_wait cfg env tries).
Proof.
  apply (wifi_wait_elim cfg env (fun _ m => tame step_event m)).
  clear tries. intros tries IH.
  unfold sta_isconnected. tame_auto.
  intros s. exact (IH a l tt tt s s).
Qed.
#[local] Hint Resolve tame_wifi_wait : tame.

Lemma tame_connect_wifi : tame step_event (connect_wifi cfg env).
Proof.
  unfold connect_wifi, driver, sta_isconnected, sta_ifconfig, print.
  tame_auto.
Qed.

Lemma tame_synchronize_rtc : tame later_event (synchronize_rtc cfg env).
Proof.
  unfold synchronize_rtc, dst_correction, rtc_set, rtc_datetime,
    ntptime_settime, measure, utime_localtime, print.
  tame_auto.
Qed.

Lemma tame_get_weather_data : tame later_event (get_weather_data cfg env).
Proof.
  unfold get_weather_data, urequests_get, response_json, measure, print.
  tame_auto.
Qed.

Lemma tame_get_sensor_readings : tame later_event (get_sensor_readings cfg env).
Proof.
  unfold get_sensor_readings, i2c_scan, SoftI2C, Pin, driver, measure, print.
  tame_auto.
Qed.

Lemma tame_load_pbm_image (filename : string) :
  tame later_event (load_pbm_image env filename).
Proof. unfold load_pbm_image, measure. tame_auto. Qed.
#[local] Hint Resolve tame_load_pbm_image : tame.

Lemma tame_update_oled_display ow_data sensor_data :
  tame later_event (update_oled_display cfg env ow_data sensor_data).
Proof.
  unfold update_oled_display, page_date_time, page_currently, page_forecast,
    page_sensors_1, page_sensors_2, display_text, display_blit, set_textpos,
    printstring, i2c_scan, SoftI2C, Pin, driver, utime_localtime, print.
  tame_auto.
Qed.

Lemma tame_log_sensor_readings sensor_data :
  tame later_event (log_sensor_readings cfg env sensor_data).
Proof.
  unfold log_sensor_readings, urequests_get, measure, print. tame_auto.
Qed.

Lemma later_is_step (e : event F) : later_event e = true -> step_event e = true.
Proof. destruct e; cbn; congruence. Qed.

(** The body of the [try] block never sleeps, and emits neither fault
    indications nor a deep-sleep request. *)
Lemma tame_cycle : tame step_event (cycle cfg env).
Proof.
  unfold cycle.
  apply tame_bind; [apply tame_connect_wifi | intros _].
  apply (tame_weaken later_event); [apply later_is_step |].
  apply tame_bind; [apply tame_synchronize_rtc | intros _].
  apply tame_bind; [apply tame_get_weather_data | intros ow_data].
  apply tame_bind; [apply tame_get_sensor_readings | intros sensor_data].
  apply tame_bind; [apply tame_update_oled_display | intros _].
  apply tame_log_sensor_readings.
Qed.

(** What comes after the network join does not touch the WLAN. *)
Lemma tame_after_join :
  tame later_event
    (synchronize_rtc cfg env ;;
     ow_data <- get_weather_data cfg env ;;
     sensor_data <- get_sensor_readings cfg env ;;
     update_oled_display cfg env ow_data sensor_data ;;
     log_sensor_readings cfg env sensor_data).
Proof.
  apply tame_bind; [apply tame_synchronize_rtc | intros _].
  apply tame_bind; [apply tame_get_weather_data | intros ow_data].
  apply tame_bind; [apply tame_get_sensor_readings | intros sensor_data].
  apply tame_bind; [apply tame_update_oled_display | intros _].
  apply tame_log_sensor_readings.
Qed.

End TameProgram.

(** * The orchestrator: fault handling and the sleep decision *)

Section Orchestrator.

Context {F : Type} {PF : PyFloat F}.
Variable cfg : Config.
Variable env : Env F.

Lemma show_error_run (s : State F) :
  show_error cfg s =
  (Ret tt, mk_state (tick s) (clock_ms s + 3000)
             (trace s ++ EvPin (LED_PIN cfg) PinOut :: (flash cfg ++ flash cfg ++ flash cfg))%list).
Proof.
  unfold show_error. change (range 0 3) with [0; 1; 2].
  unfold flash, Pin, pin_value_set, utime_sleep, emit, bind, ret.
  cbn. unfold ret. f_equal. f_equal.
  - lia.
  - repeat rewrite <- app_assoc. reflexivity.
Qed.

Lemma handler_run (e : exn) (s : State F) :
  (emit (EvPrintException e) ;; show_error cfg) s =
  (Ret tt, mk_state (tick s) (clock_ms s + 3000)
             (trace s ++ fault_events cfg e)%list).
Proof.
  unfold bind, emit at 1. rewrite show_error_run. cbn.
  unfold fault_events. rewrite <- app_assoc. reflexivity.
Qed.

Lemma sleep_decision_run (s : State F) :
  let level := pin_at env (tick s) (DEBUG_PIN cfg) in
  sleep_decision cfg env s =
  (if level =? 0 then Ret tt else Halted,
   mk_state (S (tick s))
            (if level =? 0 then clock_ms s else clock_ms s + 2000)
            (trace s ++ decision_events cfg level)%list).
Proof.
  unfold sleep_decision, debug_on, deepsleep_till_next_cycle, decision_events,
    machine_deepsleep, print, Pin, pin_value, utime_sleep, ask, emit, bind,
    ret, when.
  cbn. destruct (pin_at env (tick s) (DEBUG_PIN cfg) =? 0); cbn.
  - repeat rewrite <- app_assoc. reflexivity.
  - change (Qfloor (2 * 1000)) with 2000.
    repeat rewrite <- app_assoc. reflexivity.
Qed.

(** The [try] statement always hands over to the sleep decision. *)
Lemma guarded_cycle_returns (s : State F) :
  exists s1 d,
    try_except (cycle cfg env)
      (fun exc => emit (EvPrintException exc) ;; show_error cfg) s
    = (Ret tt, s1) /\
    trace s1 = (trace s ++ d)%list /\
    Forall (fun e => is_deepsleep e = false) d.
Proof.
  destruct (tame_cycle cfg env s) as [Hh [d [Hd Hp]]].
  unfold try_except.
  destruct (cycle cfg env s) as [[[] | e |] s1];
    cbn [fst snd] in Hh, Hd; cbv beta iota.
  - exists s1, d. repeat split; auto.
    eapply Forall_impl; [| exact Hp].
    intros ev; unfold step_event. destruct (is_deepsleep ev); auto.
    rewrite orb_true_r. discriminate.
  - rewrite handler_run.
    eexists; exists (d ++ fault_events cfg e)%list. split; [reflexivity |].
    cbn. rewrite Hd, app_assoc. split; [reflexivity |].
    apply Forall_app; split.
    + eapply Forall_impl; [| exact Hp].
      intros ev; unfold step_event. destruct (is_deepsleep ev); auto.
      rewrite orb_true_r. discriminate.
    + unfold fault_events, flash. repeat constructor.
  - contradiction.
Qed.

End Orchestrator.

Section OrchestratorClaims.

Context {F : Type} {PF : PyFloat F}.
Variable cfg : Config.
Variable env : Env F.

(** The [try] body raises exactly when one of its six steps does. *)
Lemma step_failure_cycle (s : State F) (e : exn) (s' : State F) :
  step_failure cfg env s e s' <-> cycle cfg env s = (Raise e, s').
Proof.
  unfold cycle, bind. split.
  - intros H; destruct H;
      repeat match goal with
             | H : _ = (_, _) |- _ => rewrite H; clear H
             end; reflexivity.
  - destruct (connect_wifi cfg env s) as [[[] | e1 |] s1] eqn:H1;
      [| intros [= <- <-]; apply fail_join; assumption | discriminate].
    destruct (synchronize_rtc cfg env s1) as [[[] | e2 |] s2] eqn:H2;
      [| intros [= <- <-]; eapply fail_sync; eassumption | discriminate].
    destruct (get_weather_data cfg env s2) as [[ow | e3 |] s3] eqn:H3;
      [| intros [= <- <-]; eapply fail_fetch; eassumption | discriminate].
    destruct (get_sensor_readings cfg env s3) as [[sd | e4 |] s4] eqn:H4;
      [| intros [= <- <-]; eapply fail_read; eassumption | discriminate].
    destruct (update_oled_display cfg env ow sd s4) as [[[] | e5 |] s5] eqn:H5;
      [| intros [= <- <-]; eapply fail_render; eassumption | discriminate].
    intros H6. eapply fail_upload; eassumption.
Qed.

Lemma count_ev_app (p : event F -> bool) (l1 l2 : list (event F)) :
  count_ev p (l1 ++ l2) = (count_ev p l1 + count_ev p l2)%nat.
Proof. unfold count_ev. rewrite filter_app, length_app. reflexivity. Qed.

Lemma count_ev_none (p : event F -> bool) (l : list (event F)) :
  Forall (fun e => p e = false) l -> count_ev p l = 0%nat.
Proof.
  unfold count_ev. induction 1 as [| e l He _ IH]; cbn; [reflexivity |].
  rewrite He. exact IH.
Qed.

(** C1. Whenever a step of the cycle raises, the exception is caught
    at the one handler of [run] (a single [print_exception] in the whole
    run), the fault LED is flashed 3 times, 0.5 s on and 0.5 s off, and
    the sleep decision is then taken: the run ends returning (debug) or
    in deep sleep, never with an exception. *)
Theorem fault_is_caught_once (s : State F) (e : exn) (s1 : State F) :
  step_failure cfg env s e s1 ->
  let level := pin_at env (tick s1) (DEBUG_PIN cfg) in
  let on : event F := EvPinWrite (LED_PIN cfg) (LED_ON cfg) in
  let off : event F := EvPinWrite (LED_PIN cfg) (LED_OFF cfg) in
  exists d,
    trace s1 = (trace s ++ d)%list /\
    Forall (fun ev => is_fault ev = false) d /\
    run cfg env s =
      sleep_decision cfg env
        (mk_state (tick s1) (clock_ms s1 + 3000)
                  (trace s1 ++ fault_events cfg e)%list) /\
    fault_events cfg e =
      [EvPrintException e; EvPin (LED_PIN cfg) PinOut;
       on; EvSleep 0.5; off; EvSleep 0.5;
       on; EvSleep 0.5; off; EvSleep 0.5;
       on; EvSleep 0.5; off; EvSleep 0.5] /\
    trace (snd (run cfg env s)) =
      (trace s ++ d ++ fault_events cfg e ++ decision_events cfg level)%list /\
    count_ev is_print_exception
      (d ++ fault_events cfg e ++ decision_events cfg level) = 1%nat /\
    fst (run cfg env s) = (if level =? 0 then Ret tt else Halted).
Proof.
  intros Hfail level on off.
  apply step_failure_cycle in Hfail.
  destruct (tame_cycle cfg env s) as [_ [d [Hd Hp]]].
  rewrite Hfail in Hd; cbn [snd] in Hd.
  assert (Hq : Forall (fun ev : event F => is_fault ev = false) d).
  { eapply Forall_impl; [| exact Hp].
    intros ev; unfold step_event. destruct (is_fault ev); auto. }
  assert (Hrun : run cfg env s =
      sleep_decision cfg env
        (mk_state (tick s1) (clock_ms s1 + 3000)
                  (trace s1 ++ fault_events cfg e)%list)).
  { unfold run, bind at 1, try_except. rewrite Hfail.
    rewrite handler_run. reflexivity. }
  exists d. repeat split; auto.
  - rewrite Hrun, sleep_decision_run. cbn [snd trace tick].
    rewrite Hd. repeat rewrite <- app_assoc. reflexivity.
  - rewrite !count_ev_app. rewrite (count_ev_none is_print_exception d).
    + unfold decision_events. destruct (level =? 0); reflexivity.
    + eapply Forall_impl; [| exact Hq].
      intros ev; destruct ev; cbn; congruence.
  - rewrite Hrun, sleep_decision_run. reflexivity.
Qed.

(** C2. At the sleep decision the debug pin is read: low, the run
    returns and the device stays powered (no deep sleep anywhere in the
    run); otherwise the run ends in [deepsleep(config.INTERVAL * 1000)]. *)
Theorem sleep_decision_spec (s : State F) :
  exists s1 d,
    trace s1 = (trace s ++ d)%list /\
    Forall (fun e => is_deepsleep e = false) d /\
    run cfg env s = sleep_decision cfg env s1 /\
    let level := pin_at env (tick s1) (DEBUG_PIN cfg) in
    let probe : list (event F) :=
      [EvPin (DEBUG_PIN cfg) PinInPullUp; EvPinRead (DEBUG_PIN cfg) level] in
    (level = 0 ->
       fst (run cfg env s) = Ret tt /\
       trace (snd (run cfg env s)) = (trace s ++ d ++ probe)%list /\
       count_ev is_deepsleep (d ++ probe) = 0%nat) /\
    (level <> 0 ->
       fst (run cfg env s) = Halted /\
       trace (snd (run cfg env s)) =
         (trace s ++ d ++ probe ++
          [EvPrint [PStr "Going into deepsleep for "; PInt (INTERVAL cfg);
                    PStr " seconds..."] newline;
           EvSleep 2;
           EvDeepsleep (INTERVAL cfg * 1000)])%list /\
       (INTERVAL cfg = 900 -> INTERVAL cfg * 1000 = 900000)).
Proof.
  destruct (guarded_cycle_returns cfg env s) as [s1 [d [Hg [Hd Hp]]]].
  assert (Hrun : run cfg env s = sleep_decision cfg env s1).
  { unfold run, bind at 1. rewrite Hg. reflexivity. }
  exists s1, d. repeat split; auto.
  - rewrite Hrun, sleep_decision_run. cbn [fst].
    rewrite H. reflexivity.
  - rewrite Hrun, sleep_decision_run. cbn [snd trace].
    unfold decision_events. rewrite H, Hd. cbn [Z.eqb].
    rewrite app_nil_r, <- app_assoc. reflexivity.
  - rewrite count_ev_app, (count_ev_none is_deepsleep d) by exact Hp.
    reflexivity.
  - rewrite Hrun, sleep_decision_run. cbn [fst].
    apply Z.eqb_neq in H. rewrite H. reflexivity.
  - rewrite Hrun, sleep_decision_run. cbn [snd trace].
    unfold decision_events. apply Z.eqb_neq in H. rewrite H, Hd.
    rewrite <- !app_assoc. reflexivity.
  - lia.
Qed.

(** C3. In Fahrenheit mode the converter returns [c * 9 / 5 + 32], in
    Celsius mode it returns its argument. *)
Theorem temperature_2_unit_spec (c : F) :
  (FAHRENHEIT cfg = true ->
   temperature_2_unit cfg c = (c * f_of_Z 9 / f_of_Z 5 + f_of_Z 32)%pyfloat) /\
  (FAHRENHEIT cfg = false -> temperature_2_unit cfg c = c).
Proof.
  unfold temperature_2_unit. split; intros ->; reflexivity.
Qed.

End OrchestratorClaims.

(** * The time synchronizer *)

Arguments localtime : simpl never.
Arguments mktime : simpl never.

Section Synchronizer.

Context {F : Type} {PF : PyFloat F}.
Variable cfg : Config.
Variable env : Env F.

Lemma runs_bind {A B} (m : M F A) (k : A -> M F B) P Q R :
  runs m P Q -> (forall a, runs (k a) (Q a) R) -> runs (bind m k) P R.
Proof.
  intros Hm Hk s Hs. destruct (Hm s Hs) as [a [s1 [E1 H1]]].
  destruct (Hk a s1 H1) as [b [s2 [E2 H2]]].
  exists b, s2. unfold bind. rewrite E1. auto.
Qed.

Lemma runs_weaken {A} (m : M F A) P (Q Q' : A -> State F -> Prop) :
  runs m P Q -> (forall a s, Q a s -> Q' a s) -> runs m P Q'.
Proof.
  intros Hm HQ s Hs. destruct (Hm s Hs) as [a [s1 [E1 H1]]].
  exists a, s1. auto.
Qed.

Lemma runs_pre_fact {A} (m : M F A) (fact : Prop) P Q :
  (fact -> runs m P Q) -> runs m (fun s => fact /\ P s) Q.
Proof. intros H s [Hf Hs]. exact (H Hf s Hs). Qed.

Lemma runs_print (t : text F) c n :
  runs (print t) (at_ c n) (fun _ => at_ c n).
Proof. intros s Hs. exists tt. eexists. split; [reflexivity | exact Hs]. Qed.

Lemma runs_utime_time c n :
  runs (@utime_time F) (at_ c n) (fun t s => t = c / 1000 /\ at_ c n s).
Proof.
  intros s [Hc Hn]. exists (clock_ms s / 1000), s.
  split; [reflexivity |]. rewrite Hc. repeat split; auto.
Qed.

Lemma runs_utime_localtime c n :
  runs (@utime_localtime F) (at_ c n)
       (fun tm s => tm = localtime (c / 1000) /\ at_ c n s).
Proof.
  intros s [Hc Hn]. exists (localtime (clock_ms s / 1000)), s.
  split; [reflexivity |]. rewrite Hc. repeat split; auto.
Qed.

Lemma runs_debug_on c n :
  runs (debug_on cfg env) (at_ c n) (fun _ => at_ c (S n)).
Proof.
  intros s [Hc Hn].
  exists (pin_at env (tick s) (DEBUG_PIN cfg) =? 0). eexists. split.
  - unfold debug_on, Pin, pin_value, ask, emit, bind, ret. cbn.
    destruct (pin_at env (tick s) (DEBUG_PIN cfg) =? 0); reflexivity.
  - split; cbn; congruence.
Qed.

Lemma runs_when (b : bool) (m : M F unit) P :
  runs m P (fun _ => P) -> runs (when b m) P (fun _ => P).
Proof.
  intros Hm. destruct b; [exact Hm |].
  intros s Hs. exists tt, s. split; [reflexivity | exact Hs].
Qed.

(** [if debug_on(): ...] around prints leaves the clock alone. *)
Lemma runs_debug_block (body : M F unit) c n :
  runs body (at_ c (S n)) (fun _ => at_ c (S n)) ->
  runs (dbg <- debug_on cfg env ;; when dbg body)
       (at_ c n) (fun _ => at_ c (S n)).
Proof.
  intros Hb. eapply runs_bind; [apply runs_debug_on |].
  intros dbg. apply runs_when. exact Hb.
Qed.

Lemma runs_localtime_print (label : string) c n :
  runs (now <- @utime_localtime F ;; print [PStr label; PTime now])
       (at_ c n) (fun _ => at_ c n).
Proof.
  eapply runs_bind; [apply runs_utime_localtime |].
  intros tm s [_ Hs]. exact (runs_print _ c n s Hs).
Qed.

Lemma runs_ntptime_settime c n t :
  ntp_at env n = Some t ->
  runs (ntptime_settime env) (at_ c n) (fun _ => at_ (t * 1000) (S n)).
Proof.
  intros Hntp s [Hc Hn]. exists tt. eexists. split.
  - unfold ntptime_settime, measure, set_clock, ask, emit, bind, ret. cbn.
    rewrite Hn, Hntp. reflexivity.
  - split; cbn; congruence.
Qed.

Lemma runs_rtc_set (x : Z) c n :
  runs (@rtc_set F (localtime x)) (at_ c n) (fun _ => at_ (x * 1000) n).
Proof.
  intros s [Hc Hn]. exists tt. eexists. split.
  - unfold rtc_set, rtc_datetime, set_clock, emit, bind. cbn. reflexivity.
  - split; [| exact Hn]. cbn [clock_ms].
    rewrite mktime_localtime. change (0 / 1000) with 0. lia.
Qed.

Lemma runs_dst_correction (local : Z) n :
  let year := tm_year (localtime local) in
  runs (dst_correction cfg env) (at_ (local * 1000) n)
       (fun _ s =>
          clock_ms s =
          (if (local >=? HHMarch year) && (local <? HHOctober year)
           then local + 3600 else local) * 1000).
Proof.
  intros year. unfold dst_correction.
  eapply runs_bind; [apply runs_utime_localtime |]. intros now.
  eapply runs_bind.
  { intros s [Hnow Hs]. destruct (runs_utime_time _ _ s Hs) as [a [s' [E H]]].
    exists a, s'. split; [exact E |].
    instantiate (1 := fun a s' =>
      now = localtime local /\ a = local /\ at_ (local * 1000) n s').
    cbn. rewrite Z.div_mul in Hnow, H by lia. tauto. }
  intros curtime.
  intros s (Hnow & Hcur & Hs). subst now curtime. fold year.
  destruct ((local >=? HHMarch year) && (local <? HHOctober year)).
  - revert s Hs. eapply runs_bind; [apply runs_rtc_set |]. intros ?.
    eapply runs_weaken.
    + apply runs_debug_block, runs_localtime_print.
    + intros ? s [Hc _]. exact Hc.
  - revert s Hs.
    apply (runs_bind _ _ _ (fun _ => at_ (local * 1000) n)).
    { intros s Hs. exists tt, s. split; [reflexivity | exact Hs]. }
    intros ?. eapply runs_weaken.
    + apply runs_debug_block, runs_localtime_print.
    + intros ? s [Hc _]. exact Hc.
Qed.

(** The first synchronization: with the clock still in the sentinel year
    and an NTP answer [t], the call returns with the clock set to
    [synced_time cfg t]. *)
Lemma synchronize_rtc_first (s : State F) (t : Z) :
  tm_year (localtime (clock_ms s / 1000)) = 2000 ->
  ntp_at env (S (tick s)) = Some t ->
  exists s', synchronize_rtc cfg env s = (Ret tt, s') /\
             clock_ms s' = synced_time cfg t * 1000.
Proof.
  intros Hy Hntp.
  assert (H : runs (synchronize_rtc cfg env)
                (fun s0 => s0 = s)
                (fun _ s' => clock_ms s' = synced_time cfg t * 1000)).
  { unfold synchronize_rtc.
    eapply runs_bind.
    { intros s0 ->. exists (localtime (clock_ms s / 1000)), s.
      split; [reflexivity |].
      instantiate (1 := fun tm s' =>
        tm = localtime (clock_ms s / 1000) /\ at_ (clock_ms s) (tick s) s').
      cbn. unfold at_. auto. }
    intros tm s0 [-> Hs0]. rewrite Hy. cbn [Z.eqb Pos.eqb when].
    revert s0 Hs0.
    eapply runs_bind; [apply runs_print |]. intros ?.
    eapply runs_bind; [apply runs_debug_on |]. intros ?.
    eapply runs_bind.
    { apply runs_when.
      eapply runs_bind; [apply runs_print |]. intros ?. apply runs_print. }
    intros ?.
    eapply runs_bind; [apply runs_ntptime_settime; exact Hntp |]. intros ?.
    eapply runs_bind; [apply runs_debug_on |]. intros ?.
    eapply runs_bind; [apply runs_when, runs_localtime_print |]. intros ?.
    eapply runs_bind; [apply runs_utime_time |]. intros t0.
    apply runs_pre_fact. rewrite Z.div_mul by lia. intros ->.
    eapply runs_bind; [apply runs_rtc_set |]. intros ?.
    eapply runs_bind; [apply runs_debug_on |]. intros ?.
    eapply runs_bind; [apply runs_when, runs_localtime_print |].
    intros ?. unfold synced_time.
    destruct (DAYLIGHT_SAVING_TIME cfg); cbn [andb when].
    - apply runs_dst_correction.
    - intros s0 [Hc _]. exists tt, s0. split; [reflexivity | exact Hc]. }
  destruct (H s eq_refl) as [[] [s' [E Hc]]]. exists s'. auto.
Qed.

End Synchronizer.

Section SynchronizerClaims.

Context {F : Type} {PF : PyFloat F}.
Variable cfg : Config.
Variable env : Env F.

(** The code's window bounds are the spec's formula. *)
Lemma HHMarch_formula (year : Z) : 0 <= year -> HHMarch year = dst_start year.
Proof.
  intros H. unfold HHMarch, dst_start. rewrite int_5y4_floor by lia.
  reflexivity.
Qed.

Lemma HHOctober_formula (year : Z) : 0 <= year -> HHOctober year = dst_end year.
Proof.
  intros H. unfold HHOctober, dst_end. rewrite int_5y4_floor by lia.
  reflexivity.
Qed.

(** C4. With DST enabled, the window runs from [dst_start] (day
    [31 - (5*year/4 + 4) mod 7] of March, 02:00) to [dst_end] (day
    [31 - (5*year/4 + 1) mod 7] of October, 03:00), which in this century
    are the last Sundays of their months; the committed local time gets
    one more hour exactly when the current local time lies in
    [[dst_start, dst_end)]. *)
Theorem dst_window_spec (s : State F) (t : Z) :
  DAYLIGHT_SAVING_TIME cfg = true ->
  tm_year (localtime (clock_ms s / 1000)) = 2000 ->
  ntp_at env (S (tick s)) = Some t ->
  let local := t + TIMEZONE cfg * 3600 in
  let year := tm_year (localtime local) in
  0 <= year ->
  HHMarch year = dst_start year /\
  HHOctober year = dst_end year /\
  (2000 <= year <= 2099 ->
     last_sunday_at year 3 2 (localtime (dst_start year)) /\
     last_sunday_at year 10 3 (localtime (dst_end year))) /\
  exists s',
    synchronize_rtc cfg env s = (Ret tt, s') /\
    (dst_start year <= local < dst_end year ->
       clock_ms s' = (local + 3600) * 1000) /\
    (~ dst_start year <= local < dst_end year ->
       clock_ms s' = local * 1000).
Proof.
  intros Hdst Hy Hntp local year Hyear.
  pose proof (HHMarch_formula year Hyear) as HM.
  pose proof (HHOctober_formula year Hyear) as HO.
  split; [exact HM |]. split; [exact HO |].
  split; [apply dst_window_last_sundays |].
  destruct (synchronize_rtc_first cfg env s t Hy Hntp) as [s' [E Hc]].
  exists s'. split; [exact E |].
  unfold synced_time in Hc. rewrite Hdst in Hc. cbn [andb] in Hc.
  fold local in Hc. fold year in Hc. rewrite HM, HO in Hc.
  split; intros Hw.
  - replace ((local >=? dst_start year) && (local <? dst_end year))
      with true in Hc; [exact Hc |].
    symmetry. apply andb_true_intro. split; lia.
  - replace ((local >=? dst_start year) && (local <? dst_end year))
      with false in Hc; [exact Hc |].
    symmetry. apply andb_false_iff. lia.
Qed.

(** C5. A clock whose year is not the sentinel 2000 makes the call a
    no-op: nothing is fetched, printed or set.  So after a first call
    that fetched a date past the year 2000, a second call changes
    nothing. *)
Theorem synchronize_rtc_idempotent (s : State F) :
  (tm_year (localtime (clock_ms s / 1000)) <> 2000 ->
   synchronize_rtc cfg env s = (Ret tt, s)) /\
  (forall t,
     tm_year (localtime (clock_ms s / 1000)) = 2000 ->
     ntp_at env (S (tick s)) = Some t ->
     31622400 <= t + TIMEZONE cfg * 3600 ->
     exists s',
       synchronize_rtc cfg env s = (Ret tt, s') /\
       synchronize_rtc cfg env s' = (Ret tt, s')).
Proof.
  assert (Hguard : forall s0 : State F,
            tm_year (localtime (clock_ms s0 / 1000)) <> 2000 ->
            synchronize_rtc cfg env s0 = (Ret tt, s0)).
  { intros s0 H. unfold synchronize_rtc, utime_localtime, utime_time, bind, ret.
    apply Z.eqb_neq in H. rewrite H. reflexivity. }
  split; [apply Hguard |].
  intros t Hy Hntp Hlocal.
  destruct (synchronize_rtc_first cfg env s t Hy Hntp) as [s' [E Hc]].
  exists s'. split; [exact E |]. apply Hguard.
  rewrite Hc, Z.div_mul by lia.
  assert (Hs : 31622400 <= synced_time cfg t).
  { unfold synced_time. cbv zeta.
    destruct (DAYLIGHT_SAVING_TIME cfg && _); lia. }
  pose proof (localtime_year_after_2000 _ Hs). lia.
Qed.

End SynchronizerClaims.

(** The window of 2021: 28 March 02:00 to 31 October 03:00. *)
Example dst_window_2021 :
  localtime (dst_start 2021) = mk_tm 2021 3 28 2 0 0 6 87 /\
  localtime (dst_end 2021) = mk_tm 2021 10 31 3 0 0 6 304.
Proof. split; vm_compute; reflexivity. Qed.

(** With [config.py] (UTC+1, DST on): one second before the March
    boundary no hour is added, at the boundary one is; and the same, the
    other way round, at the October boundary. *)
Example dst_boundaries_2021 :
  synced_time config_py (670212000 - 3600 - 1) = 670212000 - 1 /\
  synced_time config_py (670212000 - 3600) = 670212000 + 3600 /\
  synced_time config_py (688964400 - 3600 - 1) = 688964400 - 1 + 3600 /\
  synced_time config_py (688964400 - 3600) = 688964400.
Proof. repeat split; vm_compute; reflexivity. Qed.

(** * The sensor reader *)

Lemma not_in_spec (x : Z) (l : list Z) :
  (not_in x l = true <-> ~ In x l) /\ (not_in x l = false <-> In x l).
Proof.
  unfold not_in.
  assert (H : existsb (Z.eqb x) l = true <-> In x l).
  { rewrite existsb_exists. split.
    - intros [y [Hy Exy]]. apply Z.eqb_eq in Exy. subst. exact Hy.
    - intros Hx. exists x. split; [exact Hx | apply Z.eqb_refl]. }
  destruct (existsb (Z.eqb x) l); cbn.
  - assert (Hin : In x l) by (apply H; reflexivity).
    split; split; intros; auto; try discriminate; contradiction.
  - assert (Hout : ~ In x l) by (intros Hin; apply H in Hin; discriminate).
    split; split; intros; auto; try discriminate; contradiction.
Qed.

Section SensorReader.

Context {F : Type} {PF : PyFloat F}.
Variable cfg : Config.
Variable env : Env F.

(** Runs the read under the hypotheses at hand, splitting on the debug
    pin wherever it is consulted. *)
Ltac crank :=
  repeat first
    [ progress cbn
    | progress unfold ret, raise
    | match goal with
      | H : forall n : nat, _ = _ |- _ => rewrite H
      | H : not_in _ _ = _ |- _ => rewrite H
      | |- context [if pin_at ?e ?n ?p =? 0 then _ else _] =>
          destruct (pin_at e n p =? 0)
      end ].

Ltac run_sensors Hbus Hdev :=
  destruct Hdev as (Hf & Ham & Hbt & Hbp & Hba & Hlum);
  unfold bus_shows in Hbus;
  unfold get_sensor_readings, i2c_scan, SoftI2C, Pin, driver, measure, debug_on,
    pin_value, print, ask, emit, bind, when;
  crank.

Ltac show_events :=
  eexists; eexists; split; [reflexivity |]; cbn [trace];
  repeat rewrite <- app_assoc; cbn [app];
  split; [reflexivity |].

Lemma read_without_am2320 (s : State F) found t h bt bp ba lum :
  bus_shows env found -> sensors_answer env t h bt bp ba lum ->
  not_in 92 found = true ->
  exists s' d,
    get_sensor_readings cfg env s =
      (Raise (RuntimeError "Cannot find AM2320 sensor"), s') /\
    trace s' = (trace s ++ d)%list /\
    Forall (fun e => is_am2320_read e || is_bmp180 e || is_bh1750 e = false) d.
Proof.
  intros Hbus Hdev H92. run_sensors Hbus Hdev.
  show_events. repeat constructor.
Qed.

Lemma read_without_bmp180 (s : State F) found t h bt bp ba lum :
  bus_shows env found -> sensors_answer env t h bt bp ba lum ->
  not_in 92 found = false -> not_in 119 found = true ->
  exists s' d,
    get_sensor_readings cfg env s =
      (Raise (RuntimeError "Cannot find BMP180 sensor"), s') /\
    trace s' = (trace s ++ d)%list /\
    Forall (fun e => is_bmp180_read e || is_bh1750 e = false) d.
Proof.
  intros Hbus Hdev H92 H119. run_sensors Hbus Hdev.
  all: show_events; repeat constructor.
Qed.

Lemma read_without_bh1750 (s : State F) found t h bt bp ba lum :
  bus_shows env found -> sensors_answer env t h bt bp ba lum ->
  not_in 92 found = false -> not_in 119 found = false ->
  not_in 35 found = true ->
  exists s' d,
    get_sensor_readings cfg env s =
      (Raise (RuntimeError "Cannot find BH1750 sensor"), s') /\
    trace s' = (trace s ++ d)%list /\
    Forall (fun e => match e with EvBh1750Luminance => False | _ => True end) d.
Proof.
  intros Hbus Hdev H92 H119 H35. run_sensors Hbus Hdev.
  all: show_events; repeat constructor.
Qed.

Lemma read_all_sensors (s : State F) found t h bt bp ba lum :
  bus_shows env found -> sensors_answer env t h bt bp ba lum ->
  not_in 92 found = false -> not_in 119 found = false ->
  not_in 35 found = false ->
  exists s',
    get_sensor_readings cfg env s =
      (Ret [mk_reading (temperature_2_unit cfg t) h
                       (temperature_2_unit cfg bt)
                       (bp / f_of_Z 100)%pyfloat ba lum], s').
Proof.
  intros Hbus Hdev H92 H119 H35. run_sensors Hbus Hdev.
  all: eexists; reflexivity.
Qed.

(** C7. The sensors are probed in the order AM2320 (0x5C = 92), BMP180
    (0x77 = 119), BH1750 (0x23 = 35).  The first one whose address the
    scan does not show ends the read with its "Cannot find" error, and
    nothing is asked of the sensors after it; with the three addresses
    on the bus the read returns the six values. *)
Theorem get_sensor_readings_spec (s : State F) found t h bt bp ba lum :
  bus_shows env found -> sensors_answer env t h bt bp ba lum ->
  exists s' d,
    trace s' = (trace s ++ d)%list /\
    (~ In 92 found ->
       get_sensor_readings cfg env s =
         (Raise (RuntimeError "Cannot find AM2320 sensor"), s') /\
       Forall (fun e => is_am2320_read e || is_bmp180 e || is_bh1750 e = false) d) /\
    (In 92 found -> ~ In 119 found ->
       get_sensor_readings cfg env s =
         (Raise (RuntimeError "Cannot find BMP180 sensor"), s') /\
       Forall (fun e => is_bmp180_read e || is_bh1750 e = false) d) /\
    (In 92 found -> In 119 found -> ~ In 35 found ->
       get_sensor_readings cfg env s =
         (Raise (RuntimeError "Cannot find BH1750 sensor"), s') /\
       Forall (fun e => match e with EvBh1750Luminance => False | _ => True end) d) /\
    (In 92 found -> In 119 found -> In 35 found ->
       get_sensor_readings cfg env s =
         (Ret [mk_reading (temperature_2_unit cfg t) h
                          (temperature_2_unit cfg bt)
                          (bp / f_of_Z 100)%pyfloat ba lum], s')).
Proof.
  intros Hbus Hdev.
  destruct (tame_get_sensor_readings cfg env s) as [_ [d [Hd _]]].
  exists (snd (get_sensor_readings cfg env s)), d.
  split; [exact Hd |].
  destruct (not_in_spec 92 found) as [[_ A1] [_ A2]].
  destruct (not_in_spec 119 found) as [[_ B1] [_ B2]].
  destruct (not_in_spec 35 found) as [[_ C1] [_ C2]].
  split; [intros H | split; [intros H H0 | split; intros H H0 H1]].
  - destruct (read_without_am2320 s found t h bt bp ba lum Hbus Hdev (A1 H))
      as [s' [d' [E [Hd' Hp]]]]. rewrite E in Hd |- *. cbn [snd] in Hd |- *.
    split; [reflexivity |].
    rewrite Hd' in Hd. apply app_inv_head in Hd. subst d'. exact Hp.
  - destruct (read_without_bmp180 s found t h bt bp ba lum Hbus Hdev
                (A2 H) (B1 H0)) as [s' [d' [E [Hd' Hp]]]].
    rewrite E in Hd |- *. cbn [snd] in Hd |- *.
    split; [reflexivity |].
    rewrite Hd' in Hd. apply app_inv_head in Hd. subst d'. exact Hp.
  - destruct (read_without_bh1750 s found t h bt bp ba lum Hbus Hdev
                (A2 H) (B2 H0) (C1 H1)) as [s' [d' [E [Hd' Hp]]]].
    rewrite E in Hd |- *. cbn [snd] in Hd |- *.
    split; [reflexivity |].
    rewrite Hd' in Hd. apply app_inv_head in Hd. subst d'. exact Hp.
  - destruct (read_all_sensors s found t h bt bp ba lum Hbus Hdev
                (A2 H) (B2 H0) (C2 H1)) as [s' E].
    rewrite E. reflexivity.
Qed.

End SensorReader.

(** * Telemetry upload and display guard *)

Section UploadAndDisplay.

Context {F : Type} {PF : PyFloat F}.
Variable cfg : Config.
Variable env : Env F.

(** C9. The upload makes one GET request, to the URL that the logging
    template gives for the four readings; it returns when the status is
    below 400 and raises "Webhook ThingSpeak failed" otherwise. *)
Theorem log_sensor_readings_spec (s : State F) (r : SensorReading F)
    (rest : list (SensorReading F)) (url : text F) (resp : Response F) :
  str_format (THINGSPEAK_URL cfg) (thingspeak_args cfg r) = inr url ->
  reply_at env (tick s) url = Some resp ->
  exists s' d,
    trace s' = (trace s ++ d)%list /\
    count_ev is_http_get d = 1%nat /\
    In (EvHttpGet url) d /\
    (status_code resp < 400 ->
       log_sensor_readings cfg env (r :: rest) s = (Ret tt, s')) /\
    (400 <= status_code resp ->
       log_sensor_readings cfg env (r :: rest) s =
         (Raise (RuntimeError "Webhook ThingSpeak failed"), s')) /\
    (THINGSPEAK_URL cfg = THINGSPEAK_URL config_py ->
       url = [PStr "https://api.thingspeak.com/update?api_key=";
              PStr (THINGSPEAK_WRITE_API cfg);
              PStr "&field1="; PFloat (am2320_temp r);
              PStr "&field2="; PFloat (am2320_hum r);
              PStr "&field3="; PFloat (bh1750_lum r);
              PStr "&field4="; PFloat (bmp180_pres r)]).
Proof.
  intros Hfmt Hreply.
  assert (Hrun : log_sensor_readings cfg env (r :: rest) s =
    (if status_code resp <? 400 then Ret tt
     else Raise (RuntimeError "Webhook ThingSpeak failed"),
     mk_state (S (tick s)) (clock_ms s)
       (trace s ++
        [EvPrint [PStr "Invoking ThingSpeak logging webhook"] newline;
         EvHttpGet url;
         EvPrint [PStr (if status_code resp <? 400
                        then "Webhook ThingSpeak success"
                        else "Webhook ThingSpeak failed")] newline])%list)).
  { unfold log_sensor_readings, urequests_get, measure, print, ask, emit, bind.
    cbn. fold (thingspeak_args cfg r). rewrite Hfmt. cbn. rewrite Hreply. cbn.
    destruct (status_code resp <? 400); cbn; unfold raise;
      repeat rewrite <- app_assoc; reflexivity. }
  exists (snd (log_sensor_readings cfg env (r :: rest) s)). eexists.
  rewrite Hrun. cbn [snd trace].
  split; [reflexivity |].
  split; [reflexivity |]. split; [cbn; auto |].
  split; [| split].
  - intros H. apply Z.ltb_lt in H. rewrite H. reflexivity.
  - intros H. apply Z.ltb_ge in H. rewrite H. reflexivity.
  - intros Htpl. rewrite Htpl in Hfmt. vm_compute in Hfmt.
    injection Hfmt as <-. reflexivity.
Qed.

Lemma run_after_raise (s : State F) (e : exn) (s1 : State F) :
  cycle cfg env s = (Raise e, s1) ->
  run cfg env s =
    sleep_decision cfg env
      (mk_state (tick s1) (clock_ms s1 + 3000)
                (trace s1 ++ fault_events cfg e)%list).
Proof.
  intros H. unfold run, bind at 1, try_except. rewrite H.
  rewrite handler_run. reflexivity.
Qed.

(** C10. The display step first scans the bus and raises "Cannot find
    OLED display" when address 60 (0x3C) is missing, before any drawing;
    in a cycle this ends the [try] block, so the upload that would follow
    is not made: after the sensor read the run holds no GET request. *)
Theorem display_missing_aborts (ow : list (ForecastDay F))
    (sd : list (SensorReading F)) (s : State F) :
  ~ In 60 (scan_at env (tick s)) ->
  let e := RuntimeError "Cannot find OLED display" in
  let s' := mk_state (S (tick s)) (clock_ms s)
              (trace s ++ display_probe cfg (scan_at env (tick s)))%list in
  update_oled_display cfg env ow sd s = (Raise e, s') /\
  forall s0 s1 s2 s3,
    connect_wifi cfg env s0 = (Ret tt, s1) ->
    synchronize_rtc cfg env s1 = (Ret tt, s2) ->
    get_weather_data cfg env s2 = (Ret ow, s3) ->
    get_sensor_readings cfg env s3 = (Ret sd, s) ->
    let level := pin_at env (S (tick s)) (DEBUG_PIN cfg) in
    let rest := (display_probe cfg (scan_at env (tick s)) ++
                 fault_events cfg e ++ decision_events cfg level)%list in
    cycle cfg env s0 = (Raise e, s') /\
    trace (snd (run cfg env s0)) = (trace s ++ rest)%list /\
    count_ev is_http_get rest = 0%nat /\
    fst (run cfg env s0) = (if level =? 0 then Ret tt else Halted).
Proof.
  intros H60 e s'.
  apply (proj1 (not_in_spec 60 _)) in H60.
  assert (Hd : update_oled_display cfg env ow sd s = (Raise e, s')).
  { unfold update_oled_display, i2c_scan, SoftI2C, Pin, print, ask, emit,
      bind, when. cbn. rewrite H60. cbn. unfold raise, s', display_probe.
    repeat rewrite <- app_assoc. reflexivity. }
  split; [exact Hd |].
  intros s0 s1 s2 s3 H1 H2 H3 H4 level rest.
  assert (Hc : cycle cfg env s0 = (Raise e, s')).
  { unfold cycle, bind. rewrite H1, H2, H3, H4, Hd. reflexivity. }
  split; [exact Hc |].
  rewrite (run_after_raise _ _ _ Hc), sleep_decision_run.
  cbn [fst snd trace tick s']. fold level.
  repeat split.
  - unfold rest. repeat rewrite <- app_assoc. reflexivity.
  - unfold rest, decision_events. destruct (level =? 0); reflexivity.
Qed.

End UploadAndDisplay.

(** * The forecast client *)

Lemma and_then_inr {A B} (r : exn + A) (k : A -> exn + B) (b : B) :
  and_then r k = inr b -> exists a, r = inr a /\ k a = inr b.
Proof. destruct r as [e | a]; cbn; [discriminate | eauto]. Qed.

Ltac invert_chain H :=
  repeat (let a := fresh "v" in
          let E := fresh "E" in
          apply and_then_inr in H; destruct H as [a [E H]]).

Section ForecastClient.

Context {F : Type} {PF : PyFloat F}.
Variable cfg : Config.
Variable env : Env F.

#[local] Arguments getitem_key : simpl never.
#[local] Arguments getitem_idx : simpl never.
#[local] Arguments num_sub : simpl never.
#[local] Arguments str_format : simpl never.

(** Runs the fetch under the hypotheses at hand. *)
Ltac crank_fetch :=
  repeat first
    [ progress cbn
    | progress unfold ret, raise
    | match goal with
      | H : _ = inr _ |- _ => rewrite H
      | H : _ = Some _ |- _ => rewrite H
      | H : (_ <? _) = _ |- _ => rewrite H
      | |- context [if pin_at ?e ?n ?p =? 0 then _ else _] =>
          destruct (pin_at e n p =? 0)
      end ].

Ltac same_lookups :=
  repeat match goal with
         | H1 : ?x = inr ?a, H2 : ?x = inr ?b |- _ =>
             rewrite H1 in H2; injection H2 as <-
         end.

Ltac unfold_fetch :=
  unfold get_weather_data; change (range 1 4) with [1; 2; 3];
  unfold urequests_get, response_json, measure, debug_on, Pin, pin_value,
    print, ask, emit, bind, when, lift.

Lemma fetch_fails_first (s : State F) url1 r1 :
  str_format (OPENWEATHER_URL1 cfg) (url1_args cfg) = inr url1 ->
  reply_at env (tick s) url1 = Some r1 ->
  400 <= status_code r1 ->
  exists s', get_weather_data cfg env s =
             (Raise (RuntimeError "Webhook OpenWeather URL1 failed"), s').
Proof.
  intros Hu1 Hr1 Hs1. apply Z.ltb_ge in Hs1. unfold url1_args in Hu1.
  unfold_fetch. crank_fetch. eexists; reflexivity.
Qed.

Lemma fetch_fails_second (s : State F) url1 r1 today d0 lon lat url2 r2 :
  str_format (OPENWEATHER_URL1 cfg) (url1_args cfg) = inr url1 ->
  reply_at env (tick s) url1 = Some r1 ->
  status_code r1 < 400 ->
  body r1 = Some today ->
  current_day cfg today = inr d0 ->
  coordinates today = inr (lon, lat) ->
  str_format (OPENWEATHER_URL2 cfg) (url2_args cfg lat lon) = inr url2 ->
  reply_at env (S (S (tick s))) url2 = Some r2 ->
  400 <= status_code r2 ->
  exists s', get_weather_data cfg env s =
             (Raise (RuntimeError "Webhook OpenWeather URL1 failed"), s').
Proof.
  intros Hu1 Hr1 Hs1 Hb1 Hd0 Hco Hu2 Hr2 Hs2.
  apply Z.ltb_lt in Hs1. apply Z.ltb_ge in Hs2.
  unfold url1_args in Hu1. unfold url2_args in Hu2.
  unfold current_day, day_record in Hd0. invert_chain Hd0.
  unfold coordinates in Hco. invert_chain Hco.
  injection Hd0 as <-. injection Hco as <- <-.
  same_lookups. unfold_fetch. crank_fetch.
  all: eexists; reflexivity.
Qed.

Lemma fetch_returns (s : State F) url1 r1 today d0 lon lat url2 r2
    forecast d1 d2 d3 :
  str_format (OPENWEATHER_URL1 cfg) (url1_args cfg) = inr url1 ->
  reply_at env (tick s) url1 = Some r1 ->
  status_code r1 < 400 ->
  body r1 = Some today ->
  current_day cfg today = inr d0 ->
  coordinates today = inr (lon, lat) ->
  str_format (OPENWEATHER_URL2 cfg) (url2_args cfg lat lon) = inr url2 ->
  reply_at env (S (S (tick s))) url2 = Some r2 ->
  status_code r2 < 400 ->
  body r2 = Some forecast ->
  forecast_day cfg forecast 1 = inr d1 ->
  forecast_day cfg forecast 2 = inr d2 ->
  forecast_day cfg forecast 3 = inr d3 ->
  exists s', get_weather_data cfg env s = (Ret [d0; d1; d2; d3], s').
Proof.
  intros Hu1 Hr1 Hs1 Hb1 Hd0 Hco Hu2 Hr2 Hs2 Hb2 Hd1 Hd2 Hd3.
  apply Z.ltb_lt in Hs1, Hs2.
  unfold url1_args in Hu1. unfold url2_args in Hu2.
  unfold current_day, day_record in Hd0. invert_chain Hd0.
  unfold coordinates in Hco. invert_chain Hco.
  unfold forecast_day, day_record in Hd1, Hd2, Hd3.
  invert_chain Hd1. invert_chain Hd2. invert_chain Hd3.
  injection Hd0 as <-. injection Hd1 as <-. injection Hd2 as <-.
  injection Hd3 as <-. injection Hco as <- <-.
  same_lookups. unfold_fetch. crank_fetch.
  all: eexists; reflexivity.
Qed.

(** Every temperature of a record is the unit conversion of the raw
    value minus 273.15. *)
Lemma day_record_temp (raw main src : json F) (d : ForecastDay F) :
  day_record cfg raw main src = inr d ->
  exists kelvin,
    num_sub raw (f_lit 273.15) = inr kelvin /\
    temp d = temperature_2_unit cfg kelvin.
Proof.
  intros H. unfold day_record in H. invert_chain H.
  injection H as <-. eauto.
Qed.

Lemma current_day_temp (today : json F) (d : ForecastDay F) :
  current_day cfg today = inr d -> converted_from cfg d (current_raw today).
Proof.
  intros H. unfold current_day in H.
  apply and_then_inr in H. destruct H as [main [E1 H]].
  apply and_then_inr in H. destruct H as [raw [E2 H]].
  destruct (day_record_temp _ _ _ _ H) as [k [Hk Ht]].
  exists raw, k. unfold current_raw. rewrite E1. cbn. auto.
Qed.

Lemma forecast_day_temp (forecast : json F) (day : Z) (d : ForecastDay F) :
  forecast_day cfg forecast day = inr d ->
  converted_from cfg d (forecast_raw forecast day).
Proof.
  intros H. unfold forecast_day in H.
  apply and_then_inr in H. destruct H as [daily [E1 H]].
  apply and_then_inr in H. destruct H as [entry [E2 H]].
  apply and_then_inr in H. destruct H as [temps [E3 H]].
  apply and_then_inr in H. destruct H as [raw [E4 H]].
  destruct (day_record_temp _ _ _ _ H) as [k [Hk Ht]].
  exists raw, k. unfold forecast_raw. rewrite E1. cbn. rewrite E2. cbn.
  rewrite E3. cbn. auto.
Qed.

(** C6. With both statuses below 400 and bodies that hold what is read
    from them, the fetch returns four records: the current conditions,
    then entries 1, 2, 3 of the daily series, each temperature being the
    unit conversion of the raw value minus 273.15.  A status of 400 or
    more from either endpoint raises instead. *)
Theorem get_weather_data_spec (s : State F) url1 r1 :
  str_format (OPENWEATHER_URL1 cfg) (url1_args cfg) = inr url1 ->
  reply_at env (tick s) url1 = Some r1 ->
  (400 <= status_code r1 ->
   exists s', get_weather_data cfg env s =
              (Raise (RuntimeError "Webhook OpenWeather URL1 failed"), s')) /\
  (forall today d0 lon lat url2 r2,
     status_code r1 < 400 ->
     body r1 = Some today ->
     current_day cfg today = inr d0 ->
     coordinates today = inr (lon, lat) ->
     str_format (OPENWEATHER_URL2 cfg) (url2_args cfg lat lon) = inr url2 ->
     reply_at env (S (S (tick s))) url2 = Some r2 ->
     (400 <= status_code r2 ->
      exists s', get_weather_data cfg env s =
                 (Raise (RuntimeError "Webhook OpenWeather URL1 failed"), s')) /\
     (forall forecast d1 d2 d3,
        status_code r2 < 400 ->
        body r2 = Some forecast ->
        forecast_day cfg forecast 1 = inr d1 ->
        forecast_day cfg forecast 2 = inr d2 ->
        forecast_day cfg forecast 3 = inr d3 ->
        (exists s', get_weather_data cfg env s = (Ret [d0; d1; d2; d3], s')) /\
        List.length [d0; d1; d2; d3] = 4%nat /\
        converted_from cfg d0 (current_raw today) /\
        converted_from cfg d1 (forecast_raw forecast 1) /\
        converted_from cfg d2 (forecast_raw forecast 2) /\
        converted_from cfg d3 (forecast_raw forecast 3))).
Proof.
  intros Hu1 Hr1. split.
  - intros Hs1. eapply fetch_fails_first; eassumption.
  - intros today d0 lon lat url2 r2 Hs1 Hb1 Hd0 Hco Hu2 Hr2. split.
    + intros Hs2. eapply fetch_fails_second; eassumption.
    + intros forecast d1 d2 d3 Hs2 Hb2 Hd1 Hd2 Hd3.
      split; [eapply fetch_returns; eassumption |].
      split; [reflexivity |].
      split; [apply current_day_temp; assumption |].
      repeat split; apply forecast_day_temp; assumption.
Qed.

End ForecastClient.

(** * The network join *)

Section NetworkJoin.

Context {F : Type} {PF : PyFloat F}.
Variable cfg : Config.
Variable env : Env F.

#[local] Arguments wifi_wait : simpl never.

(** The retry loop: [k] rounds, then the poll that ends it; if that poll
    still finds no connection, the tries are used up. *)
Lemma wifi_wait_run (n : nat) :
  forall (tries : Z) (s : State F),
    Z.to_nat (MAX_TRIES cfg - tries) = n ->
    exists k b s',
      (k <= n)%nat /\
      wifi_wait cfg env tries s = (Ret tt, s') /\
      trace s' = (trace s ++ rounds k ++ [EvIsConnected b])%list /\
      (b = false -> k = n).
Proof.
  induction n as [| n IH]; intros tries s Hn; rewrite wifi_wait_equation_1;
    unfold bind at 1, sta_isconnected, ask, emit, bind, ret; cbn.
  - destruct (Z_lt_dec tries (MAX_TRIES cfg)) as [Hlt | Hge]; [lia |].
    exists 0%nat, (isconnected_at env (tick s)). eexists.
    split; [lia |]. split; [reflexivity |]. cbn. auto.
  - destruct (Z_lt_dec tries (MAX_TRIES cfg)) as [Hlt | Hge]; [| lia].
    destruct (isconnected_at env (tick s)) eqn:Hc; cbn.
    + exists 0%nat, true. eexists.
      split; [lia |]. split; [reflexivity |]. cbn.
      split; [reflexivity | discriminate].
    + match goal with
      | |- context [wifi_wait cfg env (tries + 1) ?s2] =>
          destruct (IH (tries + 1) s2 ltac:(lia)) as [k [b [s' [Hk [E [Ht Hb]]]]]]
      end.
      exists (S k), b, s'. split; [lia |]. split; [exact E |].
      split; [| intros Hf; rewrite (Hb Hf); reflexivity].
      rewrite Ht. cbn [trace rounds wait_round].
      repeat rewrite <- app_assoc. reflexivity.
Qed.

Lemma count_rounds (k : nat) :
  count_ev is_poll (@rounds F k) = k /\
  count_ev is_wait (@rounds F k) = k /\
  count_ev is_connect (@rounds F k) = 0%nat /\
  Forall (fun e : event F => is_wait e = true -> e = EvSleep 1) (rounds k) /\
  @last_poll F (rounds k) = match k with O => None | S _ => Some false end.
Proof.
  induction k as [| k (IH1 & IH2 & IH3 & IH4 & IH5)]; cbn.
  - repeat split; constructor.
  - unfold count_ev in *. cbn. rewrite IH1, IH2, IH3, IH5.
    repeat split; auto.
    + repeat constructor; auto; discriminate.
    + destruct k; reflexivity.
Qed.

Lemma last_poll_app (l1 l2 : list (event F)) :
  last_poll (l1 ++ l2) =
  match last_poll l2 with
  | Some b => Some b
  | None => last_poll l1
  end.
Proof.
  induction l1 as [| e l1 IH]; cbn.
  - destruct (last_poll l2); reflexivity.
  - rewrite IH. destruct (last_poll l2); reflexivity.
Qed.

Lemma connect_wifi_events (s : State F) : exists d, join_facts cfg env s d.
Proof.
  unfold join_facts.
  unfold connect_wifi, driver, sta_isconnected, sta_ifconfig, print, when, ask,
    emit, bind. cbn.
  destruct (fails_at env (tick s)) eqn:F0; cbn.
  { eexists. split; [reflexivity |]. cbn.
    repeat split; try lia; auto.
    - repeat constructor; discriminate.
    - intros Hf. rewrite Hf in F0. discriminate. }
  destruct (isconnected_at env (S (tick s))) eqn:C0; cbn.
  { destruct (isconnected_at env (S (S (tick s)))) eqn:C1; cbn.
    all: eexists; split; [repeat rewrite <- app_assoc; reflexivity |]; cbn.
    all: repeat split; try lia; auto.
    all: try (repeat constructor; discriminate).
    all: try discriminate. }
  destruct (fails_at env (S (S (tick s)))) eqn:F1; cbn.
  { eexists; split; [repeat rewrite <- app_assoc; reflexivity |]; cbn.
    repeat split; try lia; auto.
    - repeat constructor; discriminate.
    - intros Hf. rewrite Hf in F1. discriminate. }
  destruct (fails_at env (S (S (S (tick s))))) eqn:F2; cbn.
  { eexists; split; [repeat rewrite <- app_assoc; reflexivity |]; cbn.
    repeat split; try lia; auto.
    - repeat constructor; discriminate.
    - intros Hf. rewrite Hf in F2. discriminate. }
  match goal with
  | |- context [wifi_wait cfg env 0 ?s4] =>
      destruct (wifi_wait_run (Z.to_nat (MAX_TRIES cfg)) 0 s4
                  ltac:(f_equal; lia))
        as [k [b [s' [Hk [E [Ht Hb]]]]]]
  end.
  rewrite E. cbn [trace] in Ht.
  destruct (count_rounds k) as (R1 & R2 & R3 & R4 & R5).
  destruct (isconnected_at env (tick s')) eqn:C1; cbn.
  - exists (join_events cfg k b true
              [EvPrint [PStr EmptyString] newline; EvIfconfig;
               EvPrint [PStr "connected to "; PStr (SSID cfg);
                        PStr " network with ip address ";
                        PStr (ifconfig_at env (S (tick s')))] newline]).
    unfold join_events.
    split; [rewrite Ht; repeat rewrite <- app_assoc; reflexivity |].
    rewrite !count_ev_app, R1, R2, R3.
    split; [cbn; lia |]. split; [cbn; lia |].
    split; [repeat (apply Forall_app; split); auto;
            repeat constructor; discriminate |].
    split; [cbn; lia |].
    split; [left; split; [reflexivity |];
            rewrite !last_poll_app; reflexivity |].
    intros _ _. exists k, b, true. eexists.
    split; [exact Hk |]. split; [exact Hb |].
    split; [reflexivity | repeat constructor].
  - exists (join_events cfg k b false
              [EvPrint [PStr EmptyString] newline;
               EvPrint [PStr "no connection to "; PStr (SSID cfg);
                        PStr " network"] newline]).
    unfold join_events.
    split; [rewrite Ht; repeat rewrite <- app_assoc; reflexivity |].
    rewrite !count_ev_app, R1, R2, R3.
    split; [cbn; lia |]. split; [cbn; lia |].
    split; [repeat (apply Forall_app; split); auto;
            repeat constructor; discriminate |].
    split; [cbn; lia |].
    split; [right; left; split; [reflexivity |];
            rewrite !last_poll_app; reflexivity |].
    intros _ _. exists k, b, false. eexists.
    split; [exact Hk |]. split; [exact Hb |].
    split; [reflexivity | repeat constructor].
Qed.

Lemma decision_events_quiet (level : Z) :
  Forall (fun e : event F => is_wlan e = false) (decision_events cfg level).
Proof.
  unfold decision_events. destruct (level =? 0); repeat constructor.
Qed.

Lemma fault_events_quiet (e : exn) :
  Forall (fun ev : event F => is_wlan ev = false) (fault_events cfg e).
Proof. unfold fault_events, flash. repeat constructor. Qed.

Lemma later_not_wlan (d : list (event F)) :
  Forall (fun e => later_event e = true) d ->
  Forall (fun e => is_wlan e = false) d.
Proof.
  apply Forall_impl. intros e. unfold later_event.
  destruct (is_wlan e); [discriminate | reflexivity].
Qed.

(** After the join, whatever its outcome, the run does not touch the
    WLAN again. *)
Lemma run_after_join (s : State F) :
  exists d2,
    trace (snd (run cfg env s)) =
      (trace (snd (connect_wifi cfg env s)) ++ d2)%list /\
    Forall (fun e => is_wlan e = false) d2.
Proof.
  destruct (tame_connect_wifi cfg env s) as [Hh _].
  destruct (connect_wifi cfg env s) as [[[] | e |] s1] eqn:E;
    [| | contradiction]; cbn [snd].
  - destruct (tame_after_join cfg env s1) as [Hh' [d' [Hd' Hp']]].
    apply later_not_wlan in Hp'.
    destruct ((synchronize_rtc cfg env ;;
               ow_data <- get_weather_data cfg env ;;
               sensor_data <- get_sensor_readings cfg env ;;
               update_oled_display cfg env ow_data sensor_data ;;
               log_sensor_readings cfg env sensor_data) s1)
      as [[[] | e' |] s2] eqn:E2; [| | contradiction]; cbn [snd] in Hd'.
    + assert (Hrun : run cfg env s = sleep_decision cfg env s2).
      { unfold run, bind at 1, try_except, cycle, bind at 1.
        rewrite E, E2. reflexivity. }
      rewrite Hrun, sleep_decision_run. cbn [snd trace]. rewrite Hd'.
      eexists. rewrite <- app_assoc. split; [reflexivity |].
      apply Forall_app; split; [exact Hp' | apply decision_events_quiet].
    + assert (Hc : cycle cfg env s = (Raise e', s2)).
      { unfold cycle, bind at 1. rewrite E, E2. reflexivity. }
      rewrite (run_after_raise _ _ _ _ _ Hc), sleep_decision_run.
      cbn [snd trace tick]. rewrite Hd'.
      eexists. repeat rewrite <- app_assoc. split; [reflexivity |].
      apply Forall_app; split; [exact Hp' |].
      apply Forall_app; split;
        [apply fault_events_quiet | apply decision_events_quiet].
  - assert (Hc : cycle cfg env s = (Raise e, s1)).
    { unfold cycle, bind at 1. rewrite E. reflexivity. }
    rewrite (run_after_raise _ _ _ _ _ Hc), sleep_decision_run.
    cbn [snd trace tick].
    eexists. repeat rewrite <- app_assoc. split; [reflexivity |].
    apply Forall_app; split;
      [apply fault_events_quiet | apply decision_events_quiet].
Qed.

(** C8 as the code has it.  The join waits one second after each
    unsuccessful poll of its retry loop, at most MAX_TRIES times; counting
    the check before connecting, the poll that ends the loop and the
    final check, the status is polled at most MAX_TRIES + 3 times.  It
    raises "WiFi connection failed" exactly when the final check finds no
    connection, and the run neither connects nor polls again. *)
Theorem connect_wifi_bounded (s : State F) :
  let r := connect_wifi cfg env s in
  let max := Z.to_nat (MAX_TRIES cfg) in
  exists d d2,
    (trace (snd r) = (trace s ++ d)%list /\
     (count_ev is_wait d <= max)%nat /\
     (count_ev is_poll d <= max + 3)%nat /\
     Forall (fun e => is_wait e = true -> e = EvSleep 1) d /\
     (count_ev is_connect d <= 1)%nat /\
     (fst r = Ret tt /\ last_poll d = Some true \/
      fst r = Raise (RuntimeError "WiFi connection failed") /\
      last_poll d = Some false \/
      fst r = Raise OSError) /\
     ((forall n, fails_at env n = false) ->
      isconnected_at env (S (tick s)) = false ->
      exists k b c tail,
        (k <= max)%nat /\ (b = false -> k = max) /\
        d = join_events cfg k b c tail /\
        Forall (fun e => is_poll e || is_wait e = false) tail)) /\
    trace (snd (run cfg env s)) = (trace s ++ d ++ d2)%list /\
    count_ev is_connect (d ++ d2) = count_ev is_connect d /\
    count_ev is_poll (d ++ d2) = count_ev is_poll d.
Proof.
  intros r max.
  destruct (connect_wifi_events s) as [d Hd].
  destruct (run_after_join s) as [d2 [Hrun Hq]].
  exists d, d2. split; [exact Hd |].
  destruct Hd as [Ht _]. cbv zeta in Ht. rewrite Ht in Hrun.
  split; [rewrite Hrun, app_assoc; reflexivity |].
  rewrite !count_ev_app, !(count_ev_none _ d2); [split; lia | |].
  - eapply Forall_impl; [| exact Hq]. intros e; destruct e; cbn; congruence.
  - eapply Forall_impl; [| exact Hq]. intros e; destruct e; cbn; congruence.
Qed.

End NetworkJoin.

(** * The claims at work on concrete worlds *)

(** With the link down the join of [config.py] polls 23 times, not at
    most 20: once before connecting, 21 times in the loop, once after. *)
Lemma connect_wifi_polls_counterexample :
  count_ev is_poll (trace (snd (connect_wifi config_py env_no_wifi power_on)))
    = 23%nat /\
  MAX_TRIES config_py = 20 /\
  ~ (Z.of_nat
       (count_ev is_poll
          (trace (snd (connect_wifi config_py env_no_wifi power_on))))
     <= MAX_TRIES config_py).
Proof.
  split; [vm_compute; reflexivity |]. split; [reflexivity |].
  vm_compute. intros H. apply H. reflexivity.
Qed.

(** With the link down the join raises; the run still reaches the sleep
    decision and goes to deep sleep. *)
Lemma fault_is_caught_once_witness :
  step_failure config_py env_no_wifi power_on
    (RuntimeError "WiFi connection failed")
    (snd (connect_wifi config_py env_no_wifi power_on)) /\
  fst (run config_py env_no_wifi power_on) = Halted.
Proof.
  assert (H : step_failure config_py env_no_wifi power_on
                (RuntimeError "WiFi connection failed")
                (snd (connect_wifi config_py env_no_wifi power_on)))
    by (apply fail_join; vm_compute; reflexivity).
  split; [exact H |].
  destruct (fault_is_caught_once config_py env_no_wifi power_on _ _ H)
    as [d (_ & _ & _ & _ & _ & _ & Hout)].
  rewrite Hout. reflexivity.
Defined.

(** With the debug pin high a run of [config.py] ends in a deep sleep of
    900000 ms. *)
Lemma sleep_decision_spec_witness :
  fst (run config_py env_ok power_on) = Halted /\
  exists before,
    trace (snd (run config_py env_ok power_on)) =
      (before ++ [EvDeepsleep 900000])%list.
Proof.
  destruct (sleep_decision_spec config_py env_ok power_on)
    as [s1 [d (Hd & Hp & Hrun & H0 & H1)]].
  destruct H1 as (Hout & Htr & Hms); [cbn; discriminate |].
  split; [exact Hout |].
  rewrite Htr, !app_assoc.
  match goal with
  | |- exists _, (?p ++ [?a; ?b; _])%list = _ => exists (p ++ [a; b])%list
  end.
  rewrite <- !app_assoc. reflexivity.
Defined.

(** 100 degrees Celsius in both modes. *)
Lemma temperature_2_unit_spec_witness :
  temperature_2_unit config_fahrenheit 100%Q
    = (100%Q * f_of_Z 9 / f_of_Z 5 + f_of_Z 32)%pyfloat /\
  temperature_2_unit config_py 100%Q = 100%Q.
Proof.
  split.
  - apply (proj1 (temperature_2_unit_spec config_fahrenheit 100%Q)).
    reflexivity.
  - apply (proj2 (temperature_2_unit_spec config_py 100%Q)).
    reflexivity.
Defined.

(** 2021-07-01 11:00:00 UTC lies in the window: the clock is set two
    hours ahead of UTC. *)
Lemma dst_window_spec_witness :
  exists s',
    synchronize_rtc config_py env_ok power_on = (Ret tt, s') /\
    clock_ms s' = (678452400 + 3600 + 3600) * 1000.
Proof.
  assert (Hy : 0 <= tm_year (localtime (678452400 + TIMEZONE config_py * 3600)))
    by (vm_compute; discriminate).
  pose proof (dst_window_spec config_py env_ok power_on 678452400
                eq_refl ltac:(vm_compute; reflexivity) eq_refl Hy) as H.
  cbv zeta in H. destruct H as (_ & _ & _ & s' & E & Hin & _).
  exists s'. split; [exact E |].
  rewrite Hin; [reflexivity |].
  vm_compute. split; [discriminate | reflexivity].
Defined.

(** A clock in 2021 is left alone; after power-on the second call changes
    nothing. *)
Lemma synchronize_rtc_idempotent_witness :
  synchronize_rtc config_py env_ok (mk_state 7 678460000000 [])
    = (Ret tt, mk_state 7 678460000000 []) /\
  exists s',
    synchronize_rtc config_py env_ok power_on = (Ret tt, s') /\
    synchronize_rtc config_py env_ok s' = (Ret tt, s').
Proof.
  split.
  - apply (proj1 (synchronize_rtc_idempotent config_py env_ok
                    (mk_state 7 678460000000 []))).
    vm_compute. discriminate.
  - apply (proj2 (synchronize_rtc_idempotent config_py env_ok power_on)
             678452400).
    + vm_compute. reflexivity.
    + reflexivity.
    + vm_compute. discriminate.
Defined.

(** The sample bodies give four day records. *)
Lemma get_weather_data_spec_witness :
  exists ds s',
    get_weather_data config_py env_ok power_on = (Ret ds, s') /\
    List.length ds = 4%nat.
Proof.
  edestruct (get_weather_data_spec config_py env_ok power_on) as [_ H];
    [reflexivity | reflexivity |].
  edestruct H as [_ H2];
    [reflexivity | reflexivity | reflexivity | reflexivity | reflexivity
    | reflexivity |].
  edestruct H2 as [[s' E] [Hlen _]];
    [reflexivity | reflexivity | reflexivity | reflexivity | reflexivity |].
  eexists; exists s'. split; [exact E | exact Hlen].
Defined.

(** All sensors on the bus: one reading; the pressure sensor missing: the
    read stops there. *)
Lemma get_sensor_readings_spec_witness :
  (exists s',
     get_sensor_readings config_py env_ok power_on =
       (Ret [sample_reading], s')) /\
  (exists s',
     get_sensor_readings config_py env_no_bmp180 power_on =
       (Raise (RuntimeError "Cannot find BMP180 sensor"), s')).
Proof.
  split.
  - destruct (get_sensor_readings_spec config_py env_ok power_on
                [35; 60; 92; 119] 21.5%Q 48%Q 21.8%Q 101325%Q 12%Q 320%Q)
      as [s' [d (_ & _ & _ & _ & H)]].
    + intros n. reflexivity.
    + repeat split; intros n; reflexivity.
    + exists s'. apply H; cbn; auto 10.
  - destruct (get_sensor_readings_spec config_py env_no_bmp180 power_on
                [35; 60; 92] 21.5%Q 48%Q 21.8%Q 101325%Q 12%Q 320%Q)
      as [s' [d (_ & _ & H & _)]].
    + intros n. reflexivity.
    + repeat split; intros n; reflexivity.
    + exists s'. apply H; cbn; [auto 10 |].
      intros [E | [E | [E | []]]]; discriminate E.
Defined.

(** With the link down the join of [config.py] stays within the bounds
    and raises. *)
Lemma connect_wifi_bounded_witness :
  exists d,
    trace (snd (connect_wifi config_py env_no_wifi power_on)) = d /\
    (count_ev is_wait d <= 20)%nat /\ (count_ev is_poll d <= 23)%nat /\
    fst (connect_wifi config_py env_no_wifi power_on) =
      Raise (RuntimeError "WiFi connection failed").
Proof.
  destruct (connect_wifi_bounded config_py env_no_wifi power_on)
    as [d [d2 [(Hd & Hw & Hp & _ & _ & Hout & _) _]]].
  exists d. split; [exact Hd |]. split; [exact Hw |]. split; [exact Hp |].
  vm_compute. reflexivity.
Defined.

(** The sample reading is uploaded. *)
Lemma log_sensor_readings_spec_witness :
  exists s',
    log_sensor_readings config_py env_ok [sample_reading] power_on =
      (Ret tt, s').
Proof.
  edestruct (log_sensor_readings_spec config_py env_ok power_on
               sample_reading [])
    as [s' [d (_ & _ & _ & H & _)]]; [reflexivity | reflexivity |].
  exists s'. apply H. reflexivity.
Defined.

(** Without a display on the bus the render step raises, the cycle stops
    there and the device goes to sleep. *)
Lemma display_missing_aborts_witness :
  fst (update_oled_display config_py env_no_display [] [] power_on) =
    Raise (RuntimeError "Cannot find OLED display") /\
  fst (cycle config_py env_no_display power_on) =
    Raise (RuntimeError "Cannot find OLED display") /\
  fst (run config_py env_no_display power_on) = Halted.
Proof.
  split.
  - destruct (display_missing_aborts config_py env_no_display [] [] power_on)
      as [H _].
    + cbn. intros [E | [E | [E | []]]]; discriminate E.
    + rewrite H. reflexivity.
  - pose (s1 := snd (connect_wifi config_py env_no_display power_on)).
    pose (s2 := snd (synchronize_rtc config_py env_no_display s1)).
    pose (r3 := get_weather_data config_py env_no_display s2).
    pose (r4 := get_sensor_readings config_py env_no_display (snd r3)).
    destruct (display_missing_aborts config_py env_no_display
                (returned [] (fst r3)) (returned [] (fst r4)) (snd r4))
      as [_ H].
    + cbn. intros [E | [E | [E | []]]]; discriminate E.
    + destruct (H power_on s1 s2 (snd r3)) as (Hc & _ & _ & Hout);
        [vm_compute; reflexivity | vm_compute; reflexivity
        | vm_compute; reflexivity | vm_compute; reflexivity |].
      split; [rewrite Hc; reflexivity | rewrite Hout; reflexivity].
Defined.

(** * The bitmap loader *)

Lemma readline_line (l rest : string) :
  has_newline l = false ->
  readline (l ++ newline ++ rest) = ((l ++ newline)%string, rest).
Proof.
  induction l as [| c l IH]; intros H.
  - reflexivity.
  - cbn [has_newline] in H. apply orb_false_elim in H. destruct H as [Hc Hl].
    cbn [append readline]. rewrite Hc, (IH Hl). reflexivity.
Qed.

Lemma bytes_split_go_newline (l word : string) :
  bytes_split_go (l ++ newline) word = bytes_split_go l word.
Proof.
  revert word. induction l as [| c l IH]; intros word;
    cbn [append bytes_split_go].
  - destruct word; reflexivity.
  - destruct (is_space c); [destruct word |]; rewrite IH; reflexivity.
Qed.

Lemma map_int_error (ws : list string) (e : exn) :
  map_int ws = inl e -> e = ValueError.
Proof.
  induction ws as [| w ws IH]; cbn; [discriminate |].
  destruct (py_int w) as [e' | n] eqn:Hw.
  - intros H; injection H as <-. unfold py_int in Hw.
    destruct w as [| c w]; [injection Hw as <-; reflexivity |].
    revert Hw.
    repeat match goal with
           | |- context [match ?x with _ => _ end] => destruct x
           end; congruence.
  - destruct (map_int ws); [intros H; injection H as <-; auto | discriminate].
Qed.

Section BitmapLoader.

Context {F : Type} {PF : PyFloat F}.
Variable env : Env F.

(** What [load_pbm_image] does, whatever the file holds. *)
Lemma load_pbm_image_run (filename : string) (s : State F) :
  load_pbm_image env filename s =
  (match file_at env (tick s) filename with
   | None => Raise OSError
   | Some f =>
       match map_int (bytes_split (third_line f)) with
       | inl e => Raise e
       | inr [width; height] => Ret (mk_fb (after_third_line f) width height)
       | inr _ => Raise ValueError
       end
   end,
   mk_state (S (tick s)) (clock_ms s) (trace s ++ [EvOpen filename])).
Proof.
  unfold load_pbm_image, measure, ask, emit, bind, third_line,
    after_third_line. cbn.
  destruct (file_at env (tick s) filename) as [f |]; cbn; [| reflexivity].
  destruct (readline f) as [l1 f1]. cbn.
  destruct (readline f1) as [l2 f2]. cbn.
  destruct (readline f2) as [l3 f3]. cbn.
  unfold bytes_split.
  destruct (map_int (bytes_split_go l3 EmptyString)) as [e | dims]; cbn;
    [reflexivity |].
  destruct dims as [| w [| h [| x dims]]]; reflexivity.
Qed.

(** X1. A bitmap file of two header lines, a line with width and
    height and then the data is loaded as a frame buffer of that width and
    height whose data is everything after the third line, line feeds
    included; the file is opened once and nothing else happens. *)
Theorem load_pbm_image_reads (filename l1 l2 l3 data : string) (w h : Z)
    (s : State F) :
  has_newline l1 = false -> has_newline l2 = false ->
  has_newline l3 = false ->
  map_int (bytes_split l3) = inr [w; h] ->
  file_at env (tick s) filename =
    Some (l1 ++ newline ++ l2 ++ newline ++ l3 ++ newline ++ data) ->
  load_pbm_image env filename s =
    (Ret (mk_fb data w h),
     mk_state (S (tick s)) (clock_ms s) (trace s ++ [EvOpen filename])).
Proof.
  intros H1 H2 H3 Hdims Hf.
  rewrite load_pbm_image_run, Hf.
  unfold third_line, after_third_line.
  rewrite (readline_line _ _ H1). cbn [snd].
  rewrite (readline_line _ _ H2). cbn [snd].
  rewrite (readline_line _ _ H3). cbn [fst snd].
  unfold bytes_split. rewrite bytes_split_go_newline.
  fold (bytes_split l3). rewrite Hdims. reflexivity.
Qed.

(** X2. When the file cannot be opened the loader raises the [OSError]
    of [open], after that one attempt. *)
Theorem load_pbm_image_missing_file (filename : string) (s : State F) :
  file_at env (tick s) filename = None ->
  load_pbm_image env filename s =
    (Raise OSError,
     mk_state (S (tick s)) (clock_ms s) (trace s ++ [EvOpen filename])).
Proof.
  intros Hf. rewrite load_pbm_image_run, Hf. reflexivity.
Qed.


End BitmapLoader.

(** * Counting effects *)

Section Counts.

Context {F : Type} {PF : PyFloat F}.
Variable p : event F -> bool.

Lemma count_ev_zero (l : list (event F)) :
  Forall (fun e => negb (p e) = true) l -> count_ev p l = 0%nat.
Proof.
  induction 1 as [| e l He _ IH]; [reflexivity |].
  unfold count_ev in *. cbn. destruct (p e); [discriminate | exact IH].
Qed.

Lemma counts_weaken {A} (lo hi lo' hi' : nat) (m : M F A) :
  counts p lo hi m -> (lo' <= lo)%nat -> (hi <= hi')%nat ->
  counts p lo' hi' m.
Proof.
  intros H Hlo Hhi s. destruct (H s) as [d (Hd & Hh & Hl)].
  exists d. split; [exact Hd |]. split; [lia |].
  intros Hr. specialize (Hl Hr). lia.
Qed.

(** A computation that emits no [p] event at all. *)
Lemma counts_free {A} (m : M F A) :
  tame (fun e => negb (p e)) m -> counts p 0 0 m.
Proof.
  intros H s. destruct (H s) as [_ [d [Hd Hp]]].
  exists d. split; [exact Hd |]. rewrite (count_ev_zero _ Hp). split; lia.
Qed.

Lemma counts_ret {A} (a : A) : counts p 0 0 (ret a).
Proof. apply counts_free, tame_ret. Qed.

Lemma counts_raise {A} (e : exn) (lo hi : nat) :
  counts p lo hi (@raise F A e).
Proof.
  intros s. exists []. cbn. rewrite app_nil_r.
  split; [reflexivity |]. split; [apply Nat.le_0_l |].
  intros [a Ha]. discriminate Ha.
Qed.

Lemma counts_emit (e : event F) : p e = true -> counts p 1 1 (emit e).
Proof.
  intros He s. exists [e]. split; [reflexivity |].
  unfold count_ev. cbn. rewrite He. cbn. split; lia.
Qed.

Lemma counts_bind {A B} (a b c d : nat) (m : M F A) (k : A -> M F B) :
  counts p a b m -> (forall x, counts p c d (k x)) ->
  counts p (a + c) (b + d) (bind m k).
Proof.
  intros Hm Hk s. unfold bind.
  destruct (Hm s) as [d1 (Hd1 & Hh1 & Hl1)].
  destruct (m s) as [[x | e |] s1]; cbn [fst snd] in *.
  - destruct (Hk x s1) as [d2 (Hd2 & Hh2 & Hl2)].
    exists (d1 ++ d2)%list. rewrite Hd2, Hd1, app_assoc.
    split; [reflexivity |]. rewrite count_ev_app. split; [lia |].
    intros Hr. specialize (Hl2 Hr).
    assert (a <= count_ev p d1)%nat by (apply Hl1; eauto). lia.
  - exists d1. split; [exact Hd1 |]. split; [lia |].
    intros [y Hy]. discriminate Hy.
  - exists d1. split; [exact Hd1 |]. split; [lia |].
    intros [y Hy]. discriminate Hy.
Qed.

(** Past a computation that emits no [p] event. *)
Lemma counts_past {A B} (lo hi : nat) (m : M F A) (k : A -> M F B) :
  tame (fun e => negb (p e)) m -> (forall x, counts p lo hi (k x)) ->
  counts p lo hi (bind m k).
Proof. intros Hm Hk. exact (counts_bind 0 0 lo hi m k (counts_free m Hm) Hk). Qed.

(** Past a computation that emits one [p] event. *)
Lemma counts_one {A B} (lo hi : nat) (m : M F A) (k : A -> M F B) :
  counts p 1 1 m -> (forall x, counts p lo hi (k x)) ->
  counts p (S lo) (S hi) (bind m k).
Proof. intros Hm Hk. exact (counts_bind 1 1 lo hi m k Hm Hk). Qed.

Lemma counts_for_in {A} (lo hi : nat) (xs : list A) (body : A -> M F unit) :
  (forall x, counts p lo hi (body x)) ->
  counts p (List.length xs * lo) (List.length xs * hi) (for_in xs body).
Proof.
  intros H. induction xs as [| x xs IH]; cbn [for_in List.length Nat.mul].
  - apply counts_ret.
  - apply counts_bind; [apply H | intros _; exact IH].
Qed.

Lemma counts_try_except {A} (a b c : nat) (body : M F A)
    (handler : exn -> M F A) :
  counts p a b body -> (forall e, counts p 0 c (handler e)) ->
  counts p 0 (b + c) (try_except body handler).
Proof.
  intros Hb Hh s. unfold try_except.
  destruct (Hb s) as [d1 (Hd1 & Hh1 & _)].
  destruct (body s) as [[x | e |] s1]; cbn [fst snd] in *.
  - exists d1. split; [exact Hd1 |]. split; lia.
  - destruct (Hh e s1) as [d2 (Hd2 & Hh2 & _)].
    exists (d1 ++ d2)%list. rewrite Hd2, Hd1, app_assoc.
    split; [reflexivity |]. rewrite count_ev_app. split; lia.
  - exists d1. split; [exact Hd1 |]. split; lia.
Qed.

End Counts.

Section CountsCalls.

Context {F : Type} {PF : PyFloat F}.
Variable env : Env F.
Variable p : event F -> bool.

Lemma counts_measure {A} (e : event F) (oracle : nat -> option A) :
  p e = true -> counts p 1 1 (measure e oracle).
Proof.
  intros He s. exists [e]. unfold measure, ask, emit, bind. cbn.
  split; [destruct (oracle (tick s)); reflexivity |].
  unfold count_ev. cbn. rewrite He. cbn. split; lia.
Qed.

Lemma counts_driver (e : event F) :
  p e = true -> counts p 1 1 (driver env e).
Proof.
  intros He s. exists [e]. unfold driver, ask, emit, bind. cbn.
  split; [destruct (fails_at env (tick s)); reflexivity |].
  unfold count_ev. cbn. rewrite He. cbn. split; lia.
Qed.

End CountsCalls.

(** One step through a computation whose [p] events are being counted. *)
Ltac free_of_p :=
  solve [unfold page_date_time, page_currently, page_forecast,
           page_sensors_1, page_sensors_2, load_pbm_image,
           debug_on, Pin, pin_value, pin_value_set, print, display_text,
           display_blit, set_textpos, printstring, SoftI2C, i2c_scan,
           sta_isconnected, sta_ifconfig, utime_localtime, response_json,
           urequests_get, driver, measure;
         tame_auto].

Ltac counts_step :=
  lazymatch goal with
  | |- counts _ _ _ (ret _) =>
      apply (counts_weaken _ 0 0); [apply counts_ret | lia ..]
  | |- counts _ _ _ (raise _) => apply counts_raise
  | |- counts _ _ _ (bind _ _) =>
      first [ apply counts_past; [free_of_p | intro]
            | apply counts_one;
              [first [ apply counts_measure; reflexivity
                     | apply counts_driver; reflexivity
                     | apply counts_emit; reflexivity ]
              | intro] ]
  | |- counts _ _ _ (match ?x with _ => _ end) => destruct x
  | |- counts _ 0 0 _ => apply counts_free; free_of_p
  end.

Ltac counts_auto := repeat counts_step.

(** * What each step touches *)

(** As [tame_auto], with the leaves closed by the hypothesis [H] that [p]
    holds of the events of some devices. *)
Ltac tame_on H :=
  repeat lazymatch goal with
         | |- tame _ (emit _) => apply tame_emit; apply H; reflexivity
         | |- tame _ (utime_sleep _) =>
             apply tame_utime_sleep; apply H; reflexivity
         | |- _ => tame_step
         end.

Section Devices.

Context {F : Type} {PF : PyFloat F}.
Variable cfg : Config.
Variable env : Env F.

Lemma tame_wifi_wait_on (p : event F -> bool) (tries : Z) :
  (forall e, uses [Console; Wlan; Timer] e = true -> p e = true) ->
  tame p (wifi_wait cfg env tries).
Proof.
  intros Hp.
  apply (wifi_wait_elim cfg env (fun _ m => tame p m)).
  clear tries. intros tries IH.
  unfold sta_isconnected.
  tame_on Hp.
  intros s. exact (IH a l tt tt s s).
Qed.

Lemma connect_wifi_devices :
  tame (uses [Console; Wlan; Timer]) (connect_wifi cfg env).
Proof.
  unfold connect_wifi, driver, sta_isconnected, sta_ifconfig, print.
  repeat first [ apply tame_wifi_wait_on; auto | tame_step ].
Qed.

Lemma synchronize_rtc_devices :
  tame (uses [Console; Gpio; Ntp; Rtc]) (synchronize_rtc cfg env).
Proof.
  unfold synchronize_rtc, dst_correction, rtc_set, rtc_datetime,
    ntptime_settime, measure, utime_localtime, debug_on, Pin, pin_value, print.
  tame_auto.
Qed.

Lemma get_weather_data_devices :
  tame (uses [Console; Gpio; Http]) (get_weather_data cfg env).
Proof.
  unfold get_weather_data, urequests_get, response_json, measure, debug_on,
    Pin, pin_value, print.
  tame_auto.
Qed.

Lemma get_sensor_readings_devices :
  tame (uses [Console; Gpio; I2cBus; Sensors]) (get_sensor_readings cfg env).
Proof.
  unfold get_sensor_readings, i2c_scan, SoftI2C, driver, measure, debug_on,
    Pin, pin_value, print.
  tame_auto.
Qed.

Lemma load_pbm_image_devices (p : event F -> bool) (filename : string) :
  (forall e, uses [Files] e = true -> p e = true) ->
  tame p (load_pbm_image env filename).
Proof.
  intros Hp. unfold load_pbm_image, measure.
  tame_on Hp.
Qed.

Lemma update_oled_display_devices ow_data sensor_data :
  tame (uses [Console; Gpio; I2cBus; Files; Display; Timer])
       (update_oled_display cfg env ow_data sensor_data).
Proof.
  unfold update_oled_display, page_date_time, page_currently, page_forecast,
    page_sensors_1, page_sensors_2, display_text, display_blit, set_textpos,
    printstring, i2c_scan, SoftI2C, Pin, driver, utime_localtime, print.
  repeat first [ apply load_pbm_image_devices;
                 intros ev; destruct ev; cbn; congruence
               | tame_step ].
Qed.

Lemma log_sensor_readings_devices sensor_data :
  tame (uses [Console; Http]) (log_sensor_readings cfg env sensor_data).
Proof.
  unfold log_sensor_readings, urequests_get, measure, print. tame_auto.
Qed.

End Devices.

(** * Requests per wake-up *)

Ltac free_of_step :=
  solve [ eapply tame_weaken;
          [ | first [ apply connect_wifi_devices
                    | apply synchronize_rtc_devices
                    | apply get_weather_data_devices
                    | apply get_sensor_readings_devices
                    | apply update_oled_display_devices
                    | apply log_sensor_readings_devices ] ];
          intros ev; destruct ev; cbn; congruence ].

Section Requests.

Context {F : Type} {PF : PyFloat F}.
Variable cfg : Config.
Variable env : Env F.

Lemma counts_machine_deepsleep (p : event F -> bool) (ms : Z) (lo : nat) :
  p (EvDeepsleep ms) = false -> counts p lo 0 (@machine_deepsleep F ms).
Proof.
  intros Hp s. exists [EvDeepsleep ms]. split; [reflexivity |].
  unfold count_ev. cbn. rewrite Hp. cbn. split; [lia |].
  intros [a Ha]. discriminate Ha.
Qed.

Lemma counts_sleep_decision (p : event F -> bool) :
  (forall e, uses [Console; Gpio; Timer; Power] e = true -> p e = false) ->
  counts p 0 0 (sleep_decision cfg env).
Proof.
  intros Hp. unfold sleep_decision, deepsleep_till_next_cycle, when.
  assert (Hq : forall e : event F,
             uses [Console; Gpio; Timer; Power] e = true ->
             negb (p e) = true) by (intros e He; rewrite (Hp e He); reflexivity).
  apply counts_past.
  { unfold debug_on, Pin, pin_value.
    tame_on Hq. }
  intros dbg. destruct (negb dbg); [| apply counts_ret].
  apply counts_past.
  { unfold print. apply tame_emit, Hq. reflexivity. }
  intros _. apply counts_past.
  { apply tame_utime_sleep, Hq. reflexivity. }
  intros _. apply counts_machine_deepsleep, Hp. reflexivity.
Qed.

Lemma counts_handler (p : event F -> bool) (e : exn) :
  (forall ev, uses [Console; Gpio; Timer; Power] ev = true -> p ev = false) ->
  counts p 0 0 (emit (EvPrintException e) ;; show_error cfg).
Proof.
  intros Hp.
  assert (Hq : forall e : event F,
             uses [Console; Gpio; Timer; Power] e = true ->
             negb (p e) = true) by (intros e' He; rewrite (Hp e' He); reflexivity).
  apply counts_free. unfold show_error, Pin, pin_value_set.
  tame_on Hq.
Qed.

(** What a whole run adds to the count of the cycle: nothing, for events
    that are not console, pin, timer or power events. *)
Lemma counts_run (p : event F -> bool) (lo hi : nat) :
  (forall e, uses [Console; Gpio; Timer; Power] e = true -> p e = false) ->
  counts p lo hi (cycle cfg env) -> counts p 0 hi (run cfg env).
Proof.
  intros Hp Hc. unfold run.
  apply (counts_weaken p 0 (hi + 0 + 0)); [| lia ..].
  apply (counts_bind p 0 (hi + 0) 0 0).
  - apply (counts_try_except p lo hi 0); [exact Hc |].
    intros e. apply counts_handler, Hp.
  - intros _. apply counts_sleep_decision, Hp.
Qed.

Lemma counts_log_sensor_readings sensor_data :
  counts is_http_get 1 1 (log_sensor_readings cfg env sensor_data).
Proof. unfold log_sensor_readings, urequests_get. counts_auto. Qed.

Lemma counts_get_weather_data :
  counts is_http_get 2 2 (get_weather_data cfg env).
Proof. unfold get_weather_data, urequests_get. counts_auto. Qed.

Lemma counts_cycle_http : counts is_http_get 3 3 (cycle cfg env).
Proof.
  unfold cycle.
  apply counts_past; [free_of_step | intros _].
  apply counts_past; [free_of_step | intros _].
  apply (counts_bind is_http_get 2 2 1 1); [apply counts_get_weather_data |].
  intros ow_data.
  apply counts_past; [free_of_step | intros sensor_data].
  apply counts_past; [free_of_step | intros _].
  apply counts_log_sensor_readings.
Qed.

(** X5. A wake-up makes at most three GET requests, and a cycle that
    completes has made exactly three (two for the forecast, one upload). *)
Theorem http_requests_per_wakeup (s : State F) :
  exists d c,
    trace (snd (cycle cfg env s)) = (trace s ++ c)%list /\
    (fst (cycle cfg env s) = Ret tt -> count_ev is_http_get c = 3%nat) /\
    trace (snd (run cfg env s)) = (trace s ++ d)%list /\
    (count_ev is_http_get d <= 3)%nat.
Proof.
  destruct (counts_cycle_http s) as [c (Hc & Hh & Hl)].
  destruct (counts_run is_http_get 3 3
              ltac:(intros e; destruct e; cbn; congruence)
              counts_cycle_http s) as [d (Hd & Hhd & _)].
  exists d, c. split; [exact Hc |].
  split; [| split; [exact Hd | exact Hhd]].
  intros Hr. assert (3 <= count_ev is_http_get c)%nat by (apply Hl; eauto).
  lia.
Qed.

Lemma counts_ntptime_settime :
  counts is_ntp 1 1 (ntptime_settime env).
Proof.
  unfold ntptime_settime.
  apply (counts_bind is_ntp 1 1 0 0);
    [apply counts_measure; reflexivity | intros t].
  apply counts_free. free_of_p.
Qed.

Lemma counts_rtc_set (tm : struct_time) :
  counts is_rtc_write 1 1 (@rtc_set F tm).
Proof.
  unfold rtc_set, rtc_datetime.
  apply (counts_bind is_rtc_write 1 1 0 0);
    [apply counts_emit; reflexivity | intros _].
  apply counts_free. free_of_p.
Qed.

Lemma counts_synchronize_rtc_ntp :
  counts is_ntp 0 1 (synchronize_rtc cfg env).
Proof.
  unfold synchronize_rtc, when.
  apply counts_past; [free_of_p | intros tm].
  destruct (tm_year tm =? 2000);
    [| apply (counts_weaken is_ntp 0 0); [apply counts_ret | lia ..]].
  apply (counts_weaken is_ntp 1 1); [| lia ..].
  do 3 (apply counts_past; [free_of_p | intro]).
  apply (counts_bind is_ntp 1 1 0 0); [apply counts_ntptime_settime |].
  intros _. apply counts_free.
  unfold dst_correction, rtc_set, rtc_datetime. free_of_p.
Qed.

Lemma counts_synchronize_rtc_rtc :
  counts is_rtc_write 0 2 (synchronize_rtc cfg env).
Proof.
  unfold synchronize_rtc, when.
  apply counts_past; [free_of_p | intros tm].
  destruct (tm_year tm =? 2000);
    [| apply (counts_weaken is_rtc_write 0 0); [apply counts_ret | lia ..]].
  do 3 (apply counts_past; [free_of_p | intro]).
  apply counts_past; [unfold ntptime_settime; free_of_p | intro].
  do 3 (apply counts_past; [free_of_p | intro]).
  apply (counts_weaken is_rtc_write 1 2); [| lia ..].
  apply (counts_bind is_rtc_write 1 1 0 1); [apply counts_rtc_set |].
  intros _. do 2 (apply counts_past; [free_of_p | intro]).
  destruct (DAYLIGHT_SAVING_TIME cfg);
    [| apply (counts_weaken is_rtc_write 0 0); [apply counts_ret | lia ..]].
  unfold dst_correction, when.
  do 2 (apply counts_past; [free_of_p | intro]).
  apply (counts_bind is_rtc_write 0 1 0 0).
  - match goal with |- counts _ _ _ (if ?b then _ else _) => destruct b end.
    + apply (counts_weaken is_rtc_write 1 1); [apply counts_rtc_set | lia ..].
    + apply (counts_weaken is_rtc_write 0 0); [apply counts_ret | lia ..].
  - intros _. apply counts_free. free_of_p.
Qed.

(** X6. A wake-up asks the NTP server at most once and writes the RTC at
    most twice (time zone, then daylight saving). *)
Theorem clock_updates_per_wakeup (s : State F) :
  exists d,
    trace (snd (run cfg env s)) = (trace s ++ d)%list /\
    (count_ev is_ntp d <= 1)%nat /\
    (count_ev is_rtc_write d <= 2)%nat.
Proof.
  assert (Hn : counts is_ntp 0 1 (cycle cfg env)).
  { unfold cycle.
    apply counts_past; [free_of_step | intros _].
    apply (counts_bind is_ntp 0 1 0 0); [apply counts_synchronize_rtc_ntp |].
    intros _. apply counts_free.
    apply tame_bind; [free_of_step | intros ow_data].
    apply tame_bind; [free_of_step | intros sensor_data].
    apply tame_bind; [free_of_step | intros _]. free_of_step. }
  assert (Hr : counts is_rtc_write 0 2 (cycle cfg env)).
  { unfold cycle.
    apply counts_past; [free_of_step | intros _].
    apply (counts_bind is_rtc_write 0 2 0 0);
      [apply counts_synchronize_rtc_rtc |].
    intros _. apply counts_free.
    apply tame_bind; [free_of_step | intros ow_data].
    apply tame_bind; [free_of_step | intros sensor_data].
    apply tame_bind; [free_of_step | intros _]. free_of_step. }
  destruct (counts_run is_ntp 0 1
              ltac:(intros e; destruct e; cbn; congruence) Hn s)
    as [d (Hd & Hh & _)].
  destruct (counts_run is_rtc_write 0 2
              ltac:(intros e; destruct e; cbn; congruence) Hr s)
    as [d' (Hd' & Hh' & _)].
  rewrite Hd in Hd'. apply app_inv_head in Hd'. subst d'.
  exists d. auto.
Qed.

End Requests.

(** * The display step *)

Lemma length_range (a b : Z) : List.length (range a b) = Z.to_nat (b - a).
Proof. unfold range. rewrite length_map, length_seq. reflexivity. Qed.

Section DisplayStep.

Context {F : Type} {PF : PyFloat F}.
Variable cfg : Config.
Variable env : Env F.

Lemma closes_bind {A B} (p : event F -> bool) (m : M F A) (k : A -> M F B) :
  tame (fun e => negb (p e)) m -> (forall x, closes p (k x)) ->
  closes p (bind m k).
Proof.
  intros Hm Hk s. unfold bind.
  destruct (Hm s) as [Hh [d1 [Hd1 Hp1]]].
  assert (H1 : count_ev p d1 = 0%nat).
  { apply count_ev_none. eapply Forall_impl; [| exact Hp1].
    intros e He. cbv beta in He.
    destruct (p e); [discriminate He | reflexivity]. }
  destruct (m s) as [[x | e |] s1]; cbn [fst snd] in *.
  - destruct (Hk x s1) as [d2 [Hd2 [[H0 Hr] | [d0 [y (E & Hy & H0 & Hr)]]]]].
    + exists (d1 ++ d2)%list. rewrite Hd2, Hd1, app_assoc.
      split; [reflexivity |]. left. rewrite count_ev_app, H1, H0. auto.
    + exists (d1 ++ d2)%list. rewrite Hd2, Hd1, app_assoc.
      split; [reflexivity |]. right. exists (d1 ++ d0)%list, y.
      rewrite E, app_assoc, count_ev_app, H1, H0. auto.
  - exists d1. split; [exact Hd1 |]. left. eauto.
  - contradiction.
Qed.

Lemma closes_driver (p : event F -> bool) (e : event F) :
  p e = true -> closes p (driver env e).
Proof.
  intros He s. exists [e]. unfold driver, ask, emit, bind. cbn.
  split; [destruct (fails_at env (tick s)); reflexivity |].
  right. exists [], e. split; [reflexivity |]. split; [exact He |].
  split; [reflexivity |].
  destruct (fails_at env (tick s)); cbn; eauto.
Qed.

(** X7. The display is powered off by the last call of the display step,
    and only when everything before went through: if the scan, a page or a
    bitmap raises, the step ends without a power-off call. *)
Theorem display_poweroff_is_last ow_data sensor_data :
  closes is_poweroff (update_oled_display cfg env ow_data sensor_data).
Proof.
  unfold update_oled_display.
  repeat (apply closes_bind; [free_of_p | intro]).
  apply closes_driver. reflexivity.
Qed.

Lemma counts_utime_sleep (p : event F -> bool) (q : Q) :
  p (EvSleep q) = true -> counts p 1 1 (@utime_sleep F q).
Proof.
  intros Hp s. exists [EvSleep q]. split; [reflexivity |].
  unfold count_ev. cbn. rewrite Hp. cbn. split; lia.
Qed.

Lemma counts_shows ow_data sensor_data :
  counts is_show (List.length (PAGES cfg)) (List.length (PAGES cfg))
    (update_oled_display cfg env ow_data sensor_data).
Proof.
  unfold update_oled_display.
  do 8 (apply counts_past; [free_of_p | intro]).
  set (n := List.length (PAGES cfg)).
  apply (counts_weaken is_show (n * 1 + 0) (n * 1 + 0)); [| lia ..].
  apply counts_bind; [| intros _; apply counts_free; free_of_p].
  match goal with
  | |- counts ?p _ _ (for_in ?l ?b) =>
      pose proof (counts_for_in p 1 1 l b) as H
  end.
  rewrite length_range in H.
  replace (Z.to_nat (Z.of_nat n - 0)) with n in H by lia.
  apply H. clear H. intros page. counts_auto.
Qed.

Lemma counts_waits ow_data sensor_data :
  counts is_wait (List.length (PAGES cfg)) (List.length (PAGES cfg))
    (update_oled_display cfg env ow_data sensor_data).
Proof.
  unfold update_oled_display.
  do 8 (apply counts_past; [free_of_p | intro]).
  set (n := List.length (PAGES cfg)).
  apply (counts_weaken is_wait (n * 1 + 0) (n * 1 + 0)); [| lia ..].
  apply counts_bind; [| intros _; apply counts_free; free_of_p].
  match goal with
  | |- counts ?p _ _ (for_in ?l ?b) =>
      pose proof (counts_for_in p 1 1 l b) as H
  end.
  rewrite length_range in H.
  replace (Z.to_nat (Z.of_nat n - 0)) with n in H by lia.
  apply H. clear H. intros page.
  do 5 (apply counts_past; [free_of_p | intro]).
  apply counts_utime_sleep. reflexivity.
Qed.

Lemma waits_of_display ow_data sensor_data :
  tame (fun e : event F =>
          match e with
          | EvSleep q => (Qnum q =? 5) && (Qden q =? 1)%positive
          | _ => true
          end)
       (update_oled_display cfg env ow_data sensor_data).
Proof. unfold update_oled_display. free_of_p. Qed.

(** X8. The display step shows at most one frame per entry of
    [config.PAGES] and waits 5 seconds after each; when it returns, every
    page was shown once. *)
Theorem display_shows_every_page ow_data sensor_data (s : State F) :
  let r := update_oled_display cfg env ow_data sensor_data s in
  let n := List.length (PAGES cfg) in
  exists d,
    trace (snd r) = (trace s ++ d)%list /\
    (count_ev is_show d <= n)%nat /\
    (count_ev is_wait d <= n)%nat /\
    waits_of 5 d /\
    (fst r = Ret tt -> count_ev is_show d = n /\ count_ev is_wait d = n).
Proof.
  intros r n.
  destruct (counts_shows ow_data sensor_data s) as [d (Hd & Hh & Hl)].
  destruct (counts_waits ow_data sensor_data s) as [d' (Hd' & Hh' & Hl')].
  destruct (waits_of_display ow_data sensor_data s) as [_ [d'' [Hd'' Hp]]].
  rewrite Hd in Hd', Hd''. apply app_inv_head in Hd', Hd''. subst d' d''.
  exists d. split; [exact Hd |]. split; [exact Hh |]. split; [exact Hh' |].
  split.
  - eapply Forall_impl; [| exact Hp]. intros e He Hw.
    destruct e; try discriminate Hw.
    destruct seconds as [a b]. cbn [Qnum Qden] in He.
    apply andb_prop in He. destruct He as [Ha Hb].
    apply Z.eqb_eq in Ha. apply Pos.eqb_eq in Hb. subst. reflexivity.
  - intros Hr. fold r in Hl, Hl'. rewrite Hr in Hl, Hl'.
    assert (n <= count_ev is_show d)%nat by (apply Hl; eauto).
    assert (n <= count_ev is_wait d)%nat by (apply Hl'; eauto).
    fold n in Hh, Hh'. lia.
Qed.

End DisplayStep.

(** * The steps on their edges *)

Section Edges.

Context {F : Type} {PF : PyFloat F}.
Variable cfg : Config.
Variable env : Env F.

(** X10. When the link is already up the join neither activates the
    station nor connects nor waits: it polls twice and reports the outcome
    of the second poll. *)
Theorem connect_wifi_already_connected (s : State F) :
  fails_at env (tick s) = false ->
  isconnected_at env (S (tick s)) = true ->
  let still := isconnected_at env (S (S (tick s))) in
  let r := connect_wifi cfg env s in
  fst r = (if still then Ret tt
           else Raise (RuntimeError "WiFi connection failed")) /\
  clock_ms (snd r) = clock_ms s /\
  trace (snd r) =
    (trace s ++
     [EvWlanActive AP_IF false; EvIsConnected true; EvIsConnected still;
      EvPrint [PStr EmptyString] newline] ++
     (if still
      then [EvIfconfig;
            EvPrint [PStr "connected to "; PStr (SSID cfg);
                     PStr " network with ip address ";
                     PStr (ifconfig_at env (S (S (S (tick s)))))] newline]
      else [EvPrint [PStr "no connection to "; PStr (SSID cfg);
                     PStr " network"] newline]))%list.
Proof.
  intros Hwire Hup still r. subst r.
  unfold connect_wifi, driver, sta_isconnected, sta_ifconfig, print, when, ask,
    emit, bind. cbn. rewrite Hwire. cbn. rewrite Hup. cbn. fold still.
  destruct still; cbn; repeat rewrite <- app_assoc; auto.
Qed.

(** X17. With no reading to upload the upload step raises [IndexError]
    right after its message, before any request; with readings, only the
    first one counts: the rest of the list changes nothing. *)
Theorem log_sensor_readings_first_only (s : State F) :
  log_sensor_readings cfg env [] s =
    (Raise IndexError,
     mk_state (tick s) (clock_ms s)
       (trace s ++ [EvPrint [PStr "Invoking ThingSpeak logging webhook"]
                      newline])) /\
  forall r rest rest',
    log_sensor_readings cfg env (r :: rest) s =
    log_sensor_readings cfg env (r :: rest') s.
Proof.
  split; [reflexivity |].
  intros r rest rest'. unfold log_sensor_readings, bind, lift. cbn.
  reflexivity.
Qed.

(** X11. When the NTP server does not answer, the first synchronization
    raises [OSError]; the clock keeps its value and the RTC is not
    written. *)
Theorem synchronize_rtc_ntp_failure (s : State F) :
  tm_year (localtime (clock_ms s / 1000)) = 2000 ->
  ntp_at env (S (tick s)) = None ->
  exists s' d,
    synchronize_rtc cfg env s = (Raise OSError, s') /\
    clock_ms s' = clock_ms s /\
    trace s' = (trace s ++ d)%list /\
    count_ev is_ntp d = 1%nat /\
    count_ev is_rtc_write d = 0%nat.
Proof.
  intros Hy Hntp.
  unfold synchronize_rtc, ntptime_settime, measure, debug_on, Pin, pin_value,
    utime_localtime, utime_time, print, when, ask, emit, bind, ret.
  cbn. rewrite Hy. cbn.
  destruct (pin_at env (tick s) (DEBUG_PIN cfg) =? 0); cbn; rewrite Hntp; cbn.
  all: eexists; eexists; split; [reflexivity |]; cbn.
  all: split; [reflexivity |].
  all: split; [repeat rewrite <- app_assoc; reflexivity |].
  all: split; reflexivity.
Qed.

(** X12. With [DAYLIGHT_SAVING_TIME] off the clock is set to the NTP time
    plus the time zone offset, whatever the date. *)
Theorem synchronize_rtc_without_dst (s : State F) (t : Z) :
  DAYLIGHT_SAVING_TIME cfg = false ->
  tm_year (localtime (clock_ms s / 1000)) = 2000 ->
  ntp_at env (S (tick s)) = Some t ->
  exists s',
    synchronize_rtc cfg env s = (Ret tt, s') /\
    clock_ms s' = (t + TIMEZONE cfg * 3600) * 1000.
Proof.
  intros Hdst Hy Hntp.
  destruct (synchronize_rtc_first cfg env s t Hy Hntp) as [s' [E Hc]].
  exists s'. split; [exact E |].
  rewrite Hc. unfold synced_time. rewrite Hdst. reflexivity.
Qed.

End Edges.

(** * The forecast client on bad replies *)

(** Split a chain of lookups that fails at its first failing lookup. *)
Ltac fail_chain H :=
  repeat match type of H with
         | and_then ?r _ = inl _ =>
             let E := fresh "E" in
             destruct r eqn:E; cbn [and_then] in H;
             [let Heq := fresh in assert (Heq := H); injection Heq as -> |]
         end;
  try discriminate H.

Section BadReplies.

Context {F : Type} {PF : PyFloat F}.
Variable cfg : Config.
Variable env : Env F.

#[local] Arguments getitem_key : simpl never.
#[local] Arguments getitem_idx : simpl never.
#[local] Arguments num_sub : simpl never.
#[local] Arguments str_format : simpl never.

Ltac same_lookups :=
  repeat match goal with
         | H1 : ?x = inr ?a, H2 : ?x = inr ?b |- _ =>
             rewrite H1 in H2; injection H2 as <-
         end.

Ltac crank_reply :=
  repeat first
    [ progress cbn
    | progress unfold ret, raise
    | match goal with
      | H : _ = inr _ |- _ => rewrite H
      | H : _ = inl _ |- _ => rewrite H
      | H : _ = Some _ |- _ => rewrite H
      | H : (_ <? _) = _ |- _ => rewrite H
      | |- context [if pin_at ?e ?n ?p =? 0 then _ else _] =>
          destruct (pin_at e n p =? 0)
      end ].

Ltac unfold_reply :=
  unfold get_weather_data; change (range 1 4) with [1; 2; 3];
  unfold urequests_get, response_json, measure, debug_on, Pin, pin_value,
    print, ask, emit, bind, when, lift.

Ltac close_reply :=
  eexists; eexists; split; [reflexivity |]; cbn [trace];
  split; [repeat rewrite <- app_assoc; reflexivity | reflexivity].

(** X13. When the first reply lacks something the current conditions are
    read from, the failed lookup's exception is what the fetch raises, and
    the second endpoint is not asked. *)
Theorem get_weather_data_bad_current (s : State F) url1 r1 today e :
  str_format (OPENWEATHER_URL1 cfg) (url1_args cfg) = inr url1 ->
  reply_at env (tick s) url1 = Some r1 ->
  status_code r1 < 400 ->
  body r1 = Some today ->
  current_day cfg today = inl e ->
  exists s' d,
    get_weather_data cfg env s = (Raise e, s') /\
    trace s' = (trace s ++ d)%list /\
    count_ev is_http_get d = 1%nat.
Proof.
  intros Hu1 Hr1 Hs1 Hb1 Hd0.
  apply Z.ltb_lt in Hs1. unfold url1_args in Hu1.
  unfold current_day, day_record in Hd0. fail_chain Hd0.
  all: unfold_reply; crank_reply.
  all: close_reply.
Qed.

Lemma for_acc_pure {A B} (f : B -> A -> exn + B) (xs : list A)
    (body : B -> A -> M F B) :
  (forall b x s, body b x s = (match f b x with
                               | inl e => Raise e
                               | inr b' => Ret b'
                               end, s)) ->
  forall acc s,
    for_acc xs acc body s = (match fold_acc f xs acc with
                             | inl e => Raise e
                             | inr b => Ret b
                             end, s).
Proof.
  intros Hbody. induction xs as [| x xs IH]; intros acc s; cbn.
  - reflexivity.
  - unfold bind. rewrite Hbody. destruct (f acc x); [reflexivity | apply IH].
Qed.

(** Case analysis on the lookups of a goal, outermost value first. *)
Ltac split_lookups :=
  repeat first
    [ progress cbn
    | match goal with
      | |- context [getitem_key ?a ?k] => is_var a; destruct (getitem_key a k)
      | |- context [getitem_idx ?a ?i] => is_var a; destruct (getitem_idx a i)
      | |- context [num_sub ?a ?x] => is_var a; destruct (num_sub a x)
      end ].

(** X14. When the forecast of day [k] (1, 2 or 3) is the first that cannot
    be read from the second reply, for a missing key or a daily series
    that is too short, the fetch raises that lookup's exception, after both
    requests. *)
Theorem get_weather_data_bad_forecast (s : State F) url1 r1 today d0 lon lat
    url2 r2 forecast (k : Z) e :
  str_format (OPENWEATHER_URL1 cfg) (url1_args cfg) = inr url1 ->
  reply_at env (tick s) url1 = Some r1 ->
  status_code r1 < 400 ->
  body r1 = Some today ->
  current_day cfg today = inr d0 ->
  coordinates today = inr (lon, lat) ->
  str_format (OPENWEATHER_URL2 cfg) (url2_args cfg lat lon) = inr url2 ->
  reply_at env (S (S (tick s))) url2 = Some r2 ->
  status_code r2 < 400 ->
  body r2 = Some forecast ->
  1 <= k <= 3 ->
  (forall j, 1 <= j < k -> exists d, forecast_day cfg forecast j = inr d) ->
  forecast_day cfg forecast k = inl e ->
  exists s' d,
    get_weather_data cfg env s = (Raise e, s') /\
    trace s' = (trace s ++ d)%list /\
    count_ev is_http_get d = 2%nat.
Proof.
  intros Hu1 Hr1 Hs1 Hb1 Hd0 Hco Hu2 Hr2 Hs2 Hb2 Hk Hok Hbad.
  apply Z.ltb_lt in Hs1, Hs2.
  unfold url1_args in Hu1. unfold url2_args in Hu2.
  unfold current_day, day_record in Hd0. invert_chain Hd0.
  unfold coordinates in Hco. invert_chain Hco.
  injection Hd0 as <-. injection Hco as <- <-.
  same_lookups.
  assert (Hfold : forall acc,
    fold_acc (fun owdata day =>
                d <~ forecast_day cfg forecast day ;;
                inr (owdata ++ [d])%list) (range 1 4) acc = inl e).
  { intros acc. change (range 1 4) with [1; 2; 3].
    assert (Hcase : k = 1 \/ k = 2 \/ k = 3) by lia.
    destruct Hcase as [-> | [-> | ->]]; cbn [fold_acc].
    - rewrite Hbad. reflexivity.
    - destruct (Hok 1 ltac:(lia)) as [d1 ->]. cbn [and_then].
      rewrite Hbad. reflexivity.
    - destruct (Hok 1 ltac:(lia)) as [d1 ->].
      destruct (Hok 2 ltac:(lia)) as [d2 ->]. cbn [and_then].
      rewrite Hbad. reflexivity. }
  unfold get_weather_data, urequests_get, response_json, measure, debug_on,
    Pin, pin_value, print, ask, emit, bind, when, lift.
  crank_reply.
  all: match goal with
       | |- context [for_acc _ ?acc ?body ?s0] =>
           rewrite (for_acc_pure
                      (fun owdata day =>
                         d <~ forecast_day cfg forecast day ;;
                         inr (owdata ++ [d])%list) (range 1 4) body)
       end.
  all: try rewrite Hfold.
  all: try close_reply.
  all: intros b x s0; unfold forecast_day, day_record, and_then;
    clear; split_lookups; reflexivity.
Qed.

End BadReplies.

(** * The sensor reader and its wake-up scan *)

Section WakeUpScan.

Context {F : Type} {PF : PyFloat F}.
Variable cfg : Config.
Variable env : Env F.

Ltac split_paths :=
  repeat first
    [ progress cbn
    | progress unfold ret, raise
    | match goal with
      | H : not_in _ _ = _ |- _ => rewrite H
      | H : fails_at _ _ = _ |- _ => rewrite H
      | |- context [match ?x with _ => _ end] =>
          lazymatch x with
          | context [match _ with _ => _ end] => fail
          | _ => destruct x
          end
      end ].

(** X16. Only the second bus scan decides whether the AM2320 is there:
    without address 92 in it the read raises, whatever the first scan
    showed; with it the AM2320 error is not raised. *)
Theorem wake_up_scan_is_discarded (s : State F) :
  fails_at env (tick s) = false ->
  let second := scan_at env (S (S (tick s))) in
  (~ In 92 second ->
   exists s', get_sensor_readings cfg env s =
              (Raise (RuntimeError "Cannot find AM2320 sensor"), s')) /\
  (In 92 second ->
   fst (get_sensor_readings cfg env s) <>
     Raise (RuntimeError "Cannot find AM2320 sensor")).
Proof.
  intros Hwire second.
  destruct (not_in_spec 92 second) as [[_ Hout] [_ Hin]].
  split; intros H.
  - apply Hout in H.
    unfold get_sensor_readings, i2c_scan, SoftI2C, driver, measure, debug_on,
      Pin, pin_value, print, ask, emit, bind, when.
    cbn. rewrite Hwire. cbn. fold second. rewrite H. cbn.
    eexists. reflexivity.
  - apply Hin in H.
    unfold get_sensor_readings, i2c_scan, SoftI2C, driver, measure, debug_on,
      Pin, pin_value, print, ask, emit, bind, when.
    cbn. rewrite Hwire. cbn. fold second. rewrite H.
    split_paths. all: discriminate.
Qed.

End WakeUpScan.

(** * What the steps hand over *)

Section Results.

Context {F : Type} {PF : PyFloat F}.
Variable cfg : Config.
Variable env : Env F.

Lemma returns_bind {A B} (Q : A -> Prop) (P : B -> Prop) (m : M F A)
    (k : A -> M F B) :
  returns_only Q m -> (forall x, Q x -> returns_only P (k x)) ->
  returns_only P (bind m k).
Proof.
  intros Hm Hk s b. unfold bind.
  specialize (Hm s). destruct (m s) as [[x | e |] s1]; cbn [fst];
    try discriminate.
  apply (Hk x (Hm x eq_refl)).
Qed.

Lemma returns_past {A B} (P : B -> Prop) (m : M F A) (k : A -> M F B) :
  (forall x, returns_only P (k x)) -> returns_only P (bind m k).
Proof.
  intros Hk. apply (returns_bind (fun _ => True)); [intros ? ? ?; exact I |].
  intros x _. apply Hk.
Qed.

Lemma returns_ret {A} (P : A -> Prop) (a : A) : P a -> returns_only P (@ret F A a).
Proof. intros Ha s b H. injection H as <-. exact Ha. Qed.

Lemma returns_for_acc_length {A B} (xs : list A) (acc : list B)
    (body : list B -> A -> M F (list B)) :
  (forall b x,
     returns_only (fun b' => List.length b' = S (List.length b)) (body b x)) ->
  returns_only
    (fun b' => List.length b' = (List.length acc + List.length xs)%nat)
    (for_acc xs acc body).
Proof.
  intros Hbody. revert acc. induction xs as [| x xs IH]; intros acc;
    cbn [for_acc List.length].
  - apply returns_ret. lia.
  - apply (returns_bind (fun b' => List.length b' = S (List.length acc)));
      [apply Hbody |].
    intros b' Hb' s a Ha. specialize (IH b' s a Ha). cbn beta in IH. lia.
Qed.

Ltac returns_auto :=
  repeat lazymatch goal with
         | |- returns_only _ (bind _ _) => apply returns_past; intro
         | |- returns_only _ (ret _) => apply returns_ret
         | |- returns_only _ (match ?x with _ => _ end) => destruct x
         end.

(** X15. Whenever the fetch returns it returns four day records, and
    whenever the sensor read returns it returns one reading. *)
Theorem steps_hand_over_full_lists :
  returns_only (fun ow_data => List.length ow_data = 4%nat)
               (get_weather_data cfg env) /\
  returns_only (fun sensor_data => List.length sensor_data = 1%nat)
               (get_sensor_readings cfg env).
Proof.
  split.
  - unfold get_weather_data.
    repeat lazymatch goal with
           | |- returns_only _ (bind (for_acc _ _ _) _) => fail
           | |- returns_only _ (bind _ _) => apply returns_past; intro
           end.
    eapply returns_bind.
    + apply returns_for_acc_length. intros b day. returns_auto.
      rewrite length_app. cbn. lia.
    + intros owdata Hlen. returns_auto. rewrite Hlen, length_range. reflexivity.
  - unfold get_sensor_readings. returns_auto. reflexivity.
Qed.

(** X18. After a cycle that went through, the run goes straight to the
    sleep decision: no exception is printed and the fault LED is not
    written. *)
Theorem clean_cycle_shows_no_fault (s s1 : State F) :
  cycle cfg env s = (Ret tt, s1) ->
  run cfg env s = sleep_decision cfg env s1 /\
  exists d,
    trace (snd (run cfg env s)) = (trace s ++ d)%list /\
    count_ev is_fault d = 0%nat.
Proof.
  intros Hc.
  assert (Hrun : run cfg env s = sleep_decision cfg env s1).
  { unfold run, bind at 1, try_except. rewrite Hc. reflexivity. }
  split; [exact Hrun |].
  destruct (tame_cycle cfg env s) as [_ [d1 [Hd1 Hp1]]].
  rewrite Hc in Hd1. cbn [snd] in Hd1.
  rewrite Hrun, sleep_decision_run. cbn [snd trace].
  exists (d1 ++ decision_events cfg (pin_at env (tick s1) (DEBUG_PIN cfg)))%list.
  rewrite Hd1, app_assoc. split; [reflexivity |].
  rewrite count_ev_app.
  rewrite (count_ev_none is_fault d1).
  - unfold decision_events.
    destruct (pin_at env (tick s1) (DEBUG_PIN cfg) =? 0); reflexivity.
  - eapply Forall_impl; [| exact Hp1].
    intros e. unfold step_event. destruct (is_fault e); [discriminate | auto].
Qed.

(** X4. Each step talks to its own devices only, and none of them puts
    the machine to sleep: the join to the WLAN and the timer, the
    synchronizer to NTP and the RTC, the fetch and the upload to HTTP, the
    sensor read to the I2C bus and the sensors, the display step to the
    bus, the files, the display and the timer (besides console output and
    the GPIO pins). *)
Theorem steps_keep_to_their_devices :
  tame (uses [Console; Wlan; Timer]) (connect_wifi cfg env) /\
  tame (uses [Console; Gpio; Ntp; Rtc]) (synchronize_rtc cfg env) /\
  tame (uses [Console; Gpio; Http]) (get_weather_data cfg env) /\
  tame (uses [Console; Gpio; I2cBus; Sensors]) (get_sensor_readings cfg env) /\
  (forall ow_data sensor_data,
     tame (uses [Console; Gpio; I2cBus; Files; Display; Timer])
          (update_oled_display cfg env ow_data sensor_data)) /\
  (forall sensor_data,
     tame (uses [Console; Http]) (log_sensor_readings cfg env sensor_data)).
Proof.
  split; [apply connect_wifi_devices |].
  split; [apply synchronize_rtc_devices |].
  split; [apply get_weather_data_devices |].
  split; [apply get_sensor_readings_devices |].
  split; [apply update_oled_display_devices | apply log_sensor_readings_devices].
Qed.

End Results.

(** * Indexing in the display step *)

Lemma list_getitem_in_range {A} (l : list A) (i : Z) :
  0 <= i < Z.of_nat (List.length l) -> exists a, list_getitem l i = inr a.
Proof.
  intros Hi. unfold list_getitem.
  destruct (i <? 0) eqn:Hneg; [apply Z.ltb_lt in Hneg; lia |].
  rewrite Hneg.
  destruct (nth_error l (Z.to_nat i)) as [a |] eqn:Hn; [eauto |].
  apply nth_error_None in Hn. lia.
Qed.

Lemma localtime_wday (t : Z) : 0 <= tm_wday (localtime t) < 7.
Proof.
  unfold localtime. destruct (civil_from_days (t / 86400)) as [[y m] d].
  cbn [tm_wday]. apply Z.mod_pos_bound. lia.
Qed.

Lemma range_in (a b x : Z) : In x (range a b) -> a <= x < b.
Proof.
  unfold range. intros H. apply in_map_iff in H.
  destruct H as [i [<- Hi]]. apply in_seq in Hi. lia.
Qed.

Section Avoids.

Context {F : Type} {PF : PyFloat F}.
Variable e : exn.

Lemma avoids_ret {A} (a : A) : avoids e (@ret F A a).
Proof. intros s. discriminate. Qed.

Lemma avoids_raise {A} (e' : exn) : e' <> e -> avoids e (@raise F A e').
Proof. intros Hne s H. injection H as H. contradiction. Qed.

Lemma avoids_lift {A} (r : exn + A) : r <> inl e -> avoids e (@lift F A r).
Proof.
  intros Hr. destruct r as [e' | a]; [| apply avoids_ret].
  apply avoids_raise. congruence.
Qed.

Lemma avoids_emit (ev : event F) : avoids e (emit ev).
Proof. intros s. discriminate. Qed.

Lemma avoids_ask {A} (oracle : nat -> A) : avoids e (@ask F A oracle).
Proof. intros s. discriminate. Qed.

Lemma avoids_utime_sleep (q : Q) : avoids e (@utime_sleep F q).
Proof. intros s. discriminate. Qed.

Lemma avoids_bind_with {A B} (Q : A -> Prop) (m : M F A) (k : A -> M F B) :
  returns_only Q m -> avoids e m -> (forall x, Q x -> avoids e (k x)) ->
  avoids e (bind m k).
Proof.
  intros HQ Hm Hk s. unfold bind.
  specialize (HQ s). specialize (Hm s).
  destruct (m s) as [[x | e' |] s1]; cbn [fst] in *.
  - apply Hk, HQ. reflexivity.
  - intros H. apply Hm. injection H as ->. reflexivity.
  - discriminate.
Qed.

Lemma avoids_bind {A B} (m : M F A) (k : A -> M F B) :
  avoids e m -> (forall x, avoids e (k x)) -> avoids e (bind m k).
Proof.
  intros Hm Hk. apply (avoids_bind_with (fun _ => True)); auto.
  intros ? ? ?; exact I.
Qed.

Lemma avoids_for_in {A} (xs : list A) (body : A -> M F unit) :
  (forall x, In x xs -> avoids e (body x)) -> avoids e (for_in xs body).
Proof.
  induction xs as [| x xs IH]; intros H; cbn [for_in].
  - apply avoids_ret.
  - apply avoids_bind; [apply H; left; reflexivity |].
    intros _. apply IH. intros y Hy. apply H. right. exact Hy.
Qed.

End Avoids.

Section AvoidsCalls.

Context {F : Type} {PF : PyFloat F}.
Variable env : Env F.

Lemma avoids_measure {A} (e : exn) (ev : event F) (oracle : nat -> option A) :
  e <> OSError -> avoids e (measure ev oracle).
Proof.
  intros Hne s. unfold measure, ask, emit, bind. cbn.
  destruct (oracle (tick s)); cbn; congruence.
Qed.

Lemma avoids_driver (e : exn) (ev : event F) :
  e <> OSError -> avoids e (driver env ev).
Proof.
  intros Hne s. unfold driver, ask, emit, bind. cbn.
  destruct (fails_at env (tick s)); cbn; congruence.
Qed.

Lemma avoids_load_pbm_image (filename : string) :
  avoids IndexError (load_pbm_image env filename).
Proof.
  intros s. rewrite load_pbm_image_run. cbn [fst].
  destruct (file_at env (tick s) filename) as [f |]; [| discriminate].
  destruct (map_int (bytes_split (third_line f))) as [e | dims] eqn:E.
  - rewrite (map_int_error _ _ E). discriminate.
  - destruct dims as [| w [| h [| x dims]]]; discriminate.
Qed.

Lemma icon_path_no_index (icon : json F) : icon_path icon <> inl IndexError.
Proof. destruct icon; discriminate. Qed.

End AvoidsCalls.


Ltac index_bounds :=
  first [ lia
        | cbn [List.length DOW]; lia
        | cbn; apply Z.mod_pos_bound; lia ].

Ltac avoids_step :=
  lazymatch goal with
  | |- avoids _ (bind utime_localtime _) =>
      apply (avoids_bind_with _ (fun tm => 0 <= tm_wday tm < 7));
      [ intros ? ? H; injection H as <-; apply localtime_wday
      | intros ?; discriminate
      | intros ? ? ]
  | |- avoids _ (bind _ _) => apply avoids_bind; [| intro]
  | |- avoids _ (ret _) => apply avoids_ret
  | |- avoids _ (raise _) => apply avoids_raise; discriminate
  | |- avoids _ (emit _) => apply avoids_emit
  | |- avoids _ (ask _) => apply avoids_ask
  | |- avoids _ (utime_sleep _) => apply avoids_utime_sleep
  | |- avoids _ (driver _ _) => apply avoids_driver; discriminate
  | |- avoids _ (measure _ _) => apply avoids_measure; discriminate
  | |- avoids _ (load_pbm_image _ _) => apply avoids_load_pbm_image
  | |- avoids _ (lift (icon_path _)) => apply avoids_lift, icon_path_no_index
  | |- avoids _ (lift (list_getitem ?l ?i)) =>
      apply avoids_lift;
      let a := fresh "a" in
      let E := fresh "E" in
      destruct (list_getitem_in_range l i) as [a E];
      [index_bounds | rewrite E; discriminate]
  | |- avoids _ (for_in (range _ _) _) =>
      apply avoids_for_in;
      let H := fresh "Hin" in intros ? H; apply range_in in H
  | |- avoids _ (match ?x with _ => _ end) => destruct x
  end.

Section DisplayIndexing.

Context {F : Type} {PF : PyFloat F}.
Variable cfg : Config.
Variable env : Env F.

(** X9. With at least four day records and one reading, the display step
    never raises [IndexError]: page titles, weekday names, day records and
    readings are all indexed within bounds, whatever the clock shows. *)
Theorem display_never_fails_on_an_index ow_data sensor_data :
  (4 <= List.length ow_data)%nat -> sensor_data <> [] ->
  avoids IndexError (update_oled_display cfg env ow_data sensor_data).
Proof.
  intros Hfour Hone.
  destruct sensor_data as [| r rest]; [contradiction |].
  cbn [List.length] in *.
  unfold update_oled_display, page_date_time, page_currently, page_forecast,
    page_sensors_1, page_sensors_2, display_text, display_blit, set_textpos,
    printstring, i2c_scan, SoftI2C, Pin, print, when.
  repeat avoids_step.
Qed.

End DisplayIndexing.

(** * The further properties at work on concrete worlds *)

(** The sample bitmap is read: 8 by 8, eight bytes of data. *)
Lemma load_pbm_image_reads_witness :
  load_pbm_image env_ok "/img/01d@2x.pbm" power_on =
    (Ret (mk_fb "abcdefgh" 8 8),
     mk_state 1 0 [EvOpen "/img/01d@2x.pbm"]).
Proof.
  apply (load_pbm_image_reads env_ok "/img/01d@2x.pbm" "P4" "# icon" "8 8"
           "abcdefgh" 8 8 power_on); reflexivity.
Defined.

Lemma load_pbm_image_missing_file_witness :
  fst (load_pbm_image env_no_files "/img/humidity.pbm" power_on) =
    Raise OSError.
Proof.
  rewrite (load_pbm_image_missing_file env_no_files "/img/humidity.pbm"
             power_on); reflexivity.
Defined.


(** A full cycle in [env_ok] makes its three requests. *)
Lemma http_requests_per_wakeup_witness :
  exists c,
    trace (snd (cycle config_py env_ok power_on)) = c /\
    count_ev is_http_get c = 3%nat.
Proof.
  destruct (http_requests_per_wakeup config_py env_ok power_on)
    as [d [c (Hc & H3 & _)]].
  exists c. split; [exact Hc |]. apply H3. vm_compute. reflexivity.
Defined.

(** The five pages of [config.py] are shown. *)
Lemma display_shows_every_page_witness :
  exists d,
    trace (snd (update_oled_display config_py env_ok sample_days
                  [sample_reading] power_on)) = d /\
    count_ev is_show d = 5%nat /\ count_ev is_wait d = 5%nat.
Proof.
  destruct (display_shows_every_page config_py env_ok sample_days
              [sample_reading] power_on) as [d (Hd & _ & _ & _ & H)].
  exists d. split; [exact Hd |]. apply H. vm_compute. reflexivity.
Defined.

Lemma connect_wifi_already_connected_witness :
  fst (connect_wifi config_py env_ok power_on) = Ret tt /\
  clock_ms (snd (connect_wifi config_py env_ok power_on)) = 0.
Proof.
  destruct (connect_wifi_already_connected config_py env_ok power_on
              eq_refl eq_refl) as (Hout & Hclock & _).
  split; [exact Hout | exact Hclock].
Defined.

Lemma synchronize_rtc_ntp_failure_witness :
  exists s',
    synchronize_rtc config_py env_no_ntp power_on = (Raise OSError, s') /\
    clock_ms s' = 0.
Proof.
  destruct (synchronize_rtc_ntp_failure config_py env_no_ntp power_on)
    as [s' [d (E & Hc & _)]].
  - vm_compute. reflexivity.
  - reflexivity.
  - exists s'. split; [exact E | exact Hc].
Defined.

(** 2021-07-01 11:00:00 UTC with DST off: one hour ahead of UTC. *)
Lemma synchronize_rtc_without_dst_witness :
  exists s',
    synchronize_rtc config_no_dst env_ok power_on = (Ret tt, s') /\
    clock_ms s' = (678452400 + 3600) * 1000.
Proof.
  apply (synchronize_rtc_without_dst config_no_dst env_ok power_on 678452400).
  - reflexivity.
  - vm_compute. reflexivity.
  - reflexivity.
Defined.

Lemma get_weather_data_bad_current_witness :
  exists s',
    get_weather_data config_py env_empty_today power_on =
      (Raise (KeyError "main"), s').
Proof.
  edestruct (get_weather_data_bad_current config_py env_empty_today power_on)
    as [s' [d (E & _)]];
    [reflexivity | reflexivity | reflexivity | reflexivity | reflexivity |].
  exists s'. exact E.
Defined.

Lemma get_weather_data_bad_forecast_witness :
  exists s',
    get_weather_data config_py env_short_forecast power_on =
      (Raise IndexError, s').
Proof.
  edestruct (get_weather_data_bad_forecast config_py env_short_forecast
               power_on) with (k := 2) as [s' [d (E & _)]];
    [ reflexivity | reflexivity | reflexivity | reflexivity | reflexivity
    | reflexivity | reflexivity | reflexivity | reflexivity | reflexivity
    | lia | | reflexivity | ].
  - intros j Hj. assert (j = 1) as -> by lia. eexists. reflexivity.
  - exists s'. exact E.
Defined.

Lemma wake_up_scan_is_discarded_witness :
  (exists s',
     get_sensor_readings config_py env_lost_sensor power_on =
       (Raise (RuntimeError "Cannot find AM2320 sensor"), s')) /\
  fst (get_sensor_readings config_py env_sleepy_sensor power_on) <>
    Raise (RuntimeError "Cannot find AM2320 sensor").
Proof.
  split.
  - apply (proj1 (wake_up_scan_is_discarded config_py env_lost_sensor
                    power_on eq_refl)).
    cbn. intros [E | [E | [E | []]]]; discriminate E.
  - apply (proj2 (wake_up_scan_is_discarded config_py env_sleepy_sensor
                    power_on eq_refl)).
    cbn. auto.
Defined.

Lemma clean_cycle_shows_no_fault_witness :
  exists d,
    trace (snd (run config_py env_ok power_on)) = d /\
    count_ev is_fault d = 0%nat.
Proof.
  destruct (clean_cycle_shows_no_fault config_py env_ok power_on
              (snd (cycle config_py env_ok power_on)))
    as [_ [d [Hd H0]]].
  - vm_compute. reflexivity.
  - exists d. split; [exact Hd | exact H0].
Defined.

Lemma display_never_fails_on_an_index_witness :
  fst (update_oled_display config_py env_empty_files sample_days
         [sample_reading] power_on) <> Raise IndexError.
Proof.
  apply (display_never_fails_on_an_index config_py env_empty_files
           sample_days [sample_reading]).
  - vm_compute. lia.
  - discriminate.
Defined.
